(** * PyInteraph: the command-line driver [pyinteraph.py] and the test suite
    [tests/test_libinteract.py], embedded and checked against the design
    document.

    The driver is a Python script.  Its helper functions become functions
    into an outcome type (a value, or what was raised), its top-level
    script becomes a procedure over a trace of the library calls and file
    writes it performs.  The functions of [libinteract] that the driver
    calls are fields of a record, like the attributes of the imported
    module object [li]. *)

From Stdlib Require Import ZArith QArith Reals Lra Lia String Ascii DecimalString.
From stdpp Require Import base option list strings gmap fin_maps sorting.

Local Open Scope Z_scope.
Local Open Scope string_scope.
Local Open Scope stdpp_scope.

(* ===================================================================== *)
(** * Python values and control flow *)
(* ===================================================================== *)

Module Py.

(** Exception classes the sources can meet. *)
Inductive exception : Type :=
| ValueError | TypeError | KeyError | NameError | AttributeError
| IndexError | NoSectionError | NoOptionError | ParsingError | IOError
| OtherException.

(** What can leave a frame: an ordinary exception, or the [SystemExit]
    that [exit(code)] raises. *)
Inductive raised : Type :=
| Exc (e : exception)
| SystemExit (code : Z).

Inductive outcome (E A : Type) : Type :=
| Return (v : A)
| Raise (e : E).
Arguments Return {E A} v.
Arguments Raise {E A} e.

(** Library code and the configuration parser raise ordinary exceptions;
    driver code can also exit. *)
Abbreviation libresult := (outcome exception).
Abbreviation result := (outcome raised).

Definition bind {E A B} (m : outcome E A) (k : A -> outcome E B)
  : outcome E B :=
  match m with
  | Return v => k v
  | Raise e => Raise e
  end.

Definition lift {A} (m : libresult A) : result A :=
  match m with
  | Return v => Return v
  | Raise e => Raise (Exc e)
  end.

(** [try: body  except: handler] with a bare [except], which catches
    everything, [SystemExit] included. *)
Definition try_except {A} (body : result A) (handler : raised -> result A)
  : result A :=
  match body with
  | Return v => Return v
  | Raise e => handler e
  end.

(** [exit(code)]. *)
Definition exit {A} (code : Z) : result A := Raise (SystemExit code).

(** The status the interpreter hands to the operating system: 0 after a
    normal end, the code of a [SystemExit], 1 after a traceback. *)
Definition exit_status {A} (r : result A) : Z :=
  match r with
  | Return _ => 0
  | Raise (SystemExit c) => c
  | Raise (Exc _) => 1
  end.

(** [None], the value of a call to a method that mutates in place. *)
Inductive NoneType : Type := None_.

(** [for item in x] where [x] is [None]:
    TypeError: 'NoneType' object is not iterable. *)
Definition iter_None {A} (x : NoneType) : libresult (list A) :=
  Raise TypeError.

(** [l.remove(x)]: removes the first occurrence in place and returns
    [None]; [ValueError] when [x] is not in [l].  The pair is the list
    after the call and the value of the call. *)
Fixpoint remove_first (x : string) (l : list string) : option (list string) :=
  match l with
  | [] => None
  | y :: l' =>
      if String.eqb y x then Some l'
      else match remove_first x l' with
           | Some r => Some (y :: r)
           | None => None
           end
  end.

Definition list_remove (l : list string) (x : string)
  : libresult (list string * NoneType) :=
  match remove_first x l with
  | Some l' => Return (l', None_)
  | None => Raise ValueError
  end.

(** [d.update(other)]: the dictionary after the call, and the value of
    the call, which is [None]. *)
Definition dict_update {V} (d other : gmap string V)
  : gmap string V * NoneType :=
  (other ∪ d, None_).

Definition dict_copy {V} (d : gmap string V) : gmap string V := d.

(** [d[k]]. *)
Definition getitem {V} (d : gmap string V) (k : string) : libresult V :=
  match d !! k with
  | Some v => Return v
  | None => Raise KeyError
  end.

(** A list comprehension or loop body that can raise: left to right,
    stopping at the first exception. *)
Fixpoint mapM {E A B} (f : A -> outcome E B) (l : list A)
  : outcome E (list B) :=
  match l with
  | [] => Return []
  | x :: l' =>
      bind (f x) (fun y => bind (mapM f l') (fun ys => Return (y :: ys)))
  end.

Fixpoint foldM {E A S} (f : S -> A -> outcome E S) (s : S) (l : list A)
  : outcome E S :=
  match l with
  | [] => Return s
  | x :: l' => bind (f s x) (fun s' => foldM f s' l')
  end.

(** A dictionary built from key/value pairs in order: a later pair
    overwrites an earlier one with the same key. *)
Definition dict_of_items {V} (items : list (string * V)) : gmap string V :=
  foldl (fun d kv => <[kv.1 := kv.2]> d) ∅ items.

End Py.

(** Sequencing is written [x ← m; k]. *)
#[global] Instance outcome_bind {E} : MBind (Py.outcome E) :=
  fun A B k m => Py.bind m k.
#[global] Instance outcome_ret {E} : MRet (Py.outcome E) :=
  fun A v => Py.Return v.

(* ===================================================================== *)
(** * Python string methods (ASCII) *)
(* ===================================================================== *)

Module Str.

(** [str.isspace] on one ASCII character: TAB, LF, VT, FF, CR, the four
    separators 0x1c-0x1f, and the space. *)
Definition isspace (c : ascii) : bool :=
  let n := N_of_ascii c in
  ((9 <=? n) && (n <=? 13) || (28 <=? n) && (n <=? 32))%N.

Fixpoint lstrip (s : string) : string :=
  match s with
  | "" => ""
  | String c s' => if isspace c then lstrip s' else s
  end.

Fixpoint rstrip (s : string) : string :=
  match s with
  | "" => ""
  | String c s' =>
      match rstrip s' with
      | "" => if isspace c then "" else String c ""
      | r => String c r
      end
  end.

(** [s.strip()]. *)
Definition strip (s : string) : string := lstrip (rstrip s).

(** [s.split(sep)] for a one-character separator: never empty, and
    [split sep "" = [""]]. *)
Fixpoint split (sep : ascii) (s : string) : list string :=
  match s with
  | "" => [""]
  | String c s' =>
      if Ascii.eqb c sep then "" :: split sep s'
      else match split sep s' with
           | w :: ws => String c w :: ws
           | [] => [String c ""]
           end
  end.

Definition lower_char (c : ascii) : ascii :=
  let n := N_of_ascii c in
  if ((65 <=? n) && (n <=? 90))%N then ascii_of_N (n + 32) else c.

Definition upper_char (c : ascii) : ascii :=
  let n := N_of_ascii c in
  if ((97 <=? n) && (n <=? 122))%N then ascii_of_N (n - 32) else c.

Fixpoint map_chars (f : ascii -> ascii) (s : string) : string :=
  match s with
  | "" => ""
  | String c s' => String (f c) (map_chars f s')
  end.

(** [s.lower()] and [s.upper()]. *)
Definition lower : string -> string := map_chars lower_char.
Definition upper : string -> string := map_chars upper_char.

(** [sep.join(l)]. *)
Fixpoint join (sep : string) (l : list string) : string :=
  match l with
  | [] => ""
  | [x] => x
  | x :: l' => x ++ sep ++ join sep l'
  end.

(** [x in l] for a list of strings. *)
Definition mem (x : string) (l : list string) : bool :=
  existsb (String.eqb x) l.

End Str.

(* ===================================================================== *)
(** * [configparser.ConfigParser], after [read] *)
(* ===================================================================== *)

Module ConfigParser.
Import Py.

(** The parsed file: the options of [DEFAULT] and, per section in file
    order, its options in file order.  [read] stores every option name
    through [optionxform], that is in lower case.  Value interpolation
    is not modelled: values are taken free of the percent sign. *)
Record t : Type := mk {
  defaults : list (string * string);
  sections : list (string * list (string * string))
}.

Fixpoint assoc {V} (k : string) (l : list (string * V)) : option V :=
  match l with
  | [] => None
  | (k', v) :: l' => if String.eqb k' k then Some v else assoc k l'
  end.

Definition optionxform (option : string) : string := Str.lower option.

(** [cfg.options(section)]: the section's option names, then those of
    [DEFAULT] it does not have. *)
Definition options (cfg : t) (section : string) : libresult (list string) :=
  match assoc section (sections cfg) with
  | None => Raise NoSectionError
  | Some opts =>
      let own := map fst opts in
      Return (own ++ filter (fun k => negb (Str.mem k own))
                             (map fst (defaults cfg)))%list
  end.

(** [cfg.get(section, option)]. *)
Definition get (cfg : t) (section option : string) : libresult string :=
  match assoc section (sections cfg) with
  | None => Raise NoSectionError
  | Some opts =>
      let option := optionxform option in
      match assoc option opts with
      | Some v => Return v
      | None =>
          match assoc option (defaults cfg) with
          | Some v => Return v
          | None => Raise NoOptionError
          end
      end
  end.

End ConfigParser.

(* ===================================================================== *)
(** * [numpy.savetxt] with a fixed-point format *)
(* ===================================================================== *)

Module Np.

(** A matrix of finite values.  A finite float is a rational number;
    infinities and NaN are not modelled. *)
Definition Matrix : Type := list (list Q).

Definition digit_char (n : Z) : ascii :=
  ascii_of_N (48 + Z.to_N (n mod 10)).

(** The [d] low decimal digits of [n], most significant first. *)
Fixpoint low_digits (d : nat) (n : Z) : string :=
  match d with
  | O => ""
  | S d' => low_digits d' (n / 10) ++ String (digit_char n) ""
  end.

(** The decimal digits of a natural number, without leading zeros
    (["0"] for zero). *)
Definition nat_digits (n : Z) : string :=
  DecimalString.NilZero.string_of_uint (N.to_uint (Z.to_N n)).

(** Rounding to the nearest integer, ties to even, of [p / q]. *)
Definition round_half_even (p : Z) (q : Z) : Z :=
  let fl := p / q in
  match 2 * (p mod q) ?= q with
  | Lt => fl
  | Gt => fl + 1
  | Eq => if Z.even fl then fl else fl + 1
  end.

(** ['%.<d>f' % x]. *)
Definition format_fixed (d : nat) (x : Q) : string :=
  let n := round_half_even (Z.abs (Qnum x) * 10 ^ Z.of_nat d)
                           (Z.pos (Qden x)) in
  let sign := if (Qnum x <? 0)%Z then "-" else "" in
  let ipart := nat_digits (n / 10 ^ Z.of_nat d) in
  match d with
  | O => sign ++ ipart
  | S _ => sign ++ ipart ++ "." ++ low_digits d n
  end.

(** The formats this model reads: ["%.<d>f"] with one digit [d]. *)
Definition precision_of (fmt : string) : option nat :=
  match fmt with
  | String "%" (String "." (String c (String "f" ""))) => Ascii.is_nat c
  | _ => None
  end.

Definition percent (fmt : string) (x : Q) : option string :=
  d ← precision_of fmt; Some (format_fixed d x).

(** The cells of the file [np.savetxt(fname, X, fmt = fmt)] writes, row
    by row, and the text of the file: the cells of a row joined by a
    space, each row ended by a newline. *)
Definition savetxt_cells (X : Matrix) (fmt : string)
  : option (list (list string)) :=
  mapM (mapM (percent fmt)) X.

Definition newline : string := String "010" "".

Definition layout (cells : list (list string)) : string :=
  String.concat "" (map (fun row => Str.join " " row ++ newline) cells).

Definition savetxt_text (X : Matrix) (fmt : string) : option string :=
  layout <$> savetxt_cells X fmt.

(** The text after the first decimal point of a number's text. *)
Fixpoint after_point (s : string) : option string :=
  match s with
  | "" => None
  | String c s' => if Ascii.eqb c "." then Some s' else after_point s'
  end.

Definition is_digit (c : ascii) : bool :=
  match Ascii.is_nat c with Some _ => true | None => false end.

Fixpoint all_digits (s : string) : bool :=
  match s with
  | "" => true
  | String c s' => is_digit c && all_digits s'
  end.

(** The number of decimal places of a number's text: the length of what
    follows the point, when that is all digits. *)
Definition decimal_places (s : string) : option nat :=
  match after_point s with
  | Some f => if all_digits f then Some (String.length f) else None
  | None => None
  end.

End Np.

(* ===================================================================== *)
(** * [pyinteraph.py]: helper functions *)
(* ===================================================================== *)

Module Driver.
Import Py.

Section Helpers.
(** [cfg = cp.ConfigParser(); cfg.read(fname)]: the parser object after
    reading the file, or the exception [read] raised. *)
Variable cfg_read : string -> libresult ConfigParser.t.

Definition parse_cgs_file (fname : string)
  : result (gmap string NoneType) :=
  let grps_str := "CHARGED_GROUPS" in
  let res_str := "RESIDUES" in
  let default_grps_str := "default_charged_groups" in
  cfg ← try_except (lift (cfg_read fname)) (fun _ => exit 1);
  charged_groups ← lift (
    opts ← ConfigParser.options cfg grps_str;
    '(_, removed) ← list_remove opts default_grps_str;
    items ← iter_None removed;
    mret (map Str.strip items));
  default_charged ← lift (
    v ← ConfigParser.get cfg grps_str default_grps_str;
    mret (map Str.strip (Str.split "," v)));
  residues ← lift (ConfigParser.options cfg res_str);
  group_definitions ← lift (
    items ← mapM (fun group =>
                    v ← ConfigParser.get cfg grps_str group;
                    mret (group, map Str.strip (Str.split "," v)))
                 (charged_groups ++ default_charged)%list;
    mret (dict_of_items items));
  out ← try_except
    (lift (foldM (fun (out : gmap string NoneType) res =>
       (* convert the residue name into all uppercase *)
       let res := Str.upper res in
       (* default charged groups *)
       def_charged_dict ←
         (items ← mapM (fun def_charged =>
                          g ← getitem group_definitions def_charged;
                          mret (def_charged, g))
                       default_charged;
          mret (dict_of_items items));
       (* other charged groups *)
       charged_groups_dict ←
         (v ← ConfigParser.get cfg res_str res;
          items ← mapM (fun item =>
                          g ← getitem group_definitions (Str.lower item);
                          mret (item, g))
                       (filter (fun item =>
                                  bool_decide (is_Some (group_definitions !! item)))
                               (Str.split "," v));
          mret (dict_of_items items));
       mret (<[res := (dict_update (dict_copy def_charged_dict)
                                   charged_groups_dict).2]> out))
      ∅ residues))
    (fun _ => exit 1);
  mret out.

Definition parse_hbs_file (fname : string)
  : result (gmap string (list string)) :=
  let hbs_str := "HYDROGEN_BONDS" in
  let acceptors_str := "ACCEPTORS" in
  let donors_str := "DONORS" in
  _ ← lift (cfg_read fname);
  cfg ← try_except (lift (cfg_read fname)) (fun _ => exit 1);
  acceptors ← lift (ConfigParser.get cfg hbs_str acceptors_str);
  let tmp := Str.split "," (Str.strip acceptors) in
  let acceptors := map Str.strip tmp in
  donors ← lift (ConfigParser.get cfg hbs_str donors_str);
  let tmp := Str.split "," (Str.strip donors) in
  let donors := map Str.strip tmp in
  mret (<["DONORS" := donors]> (<["ACCEPTORS" := acceptors]> ∅)).

End Helpers.

(* ------------------------------------------------------------------- *)
(** ** The process environment and the command line *)

(** What the script asks of the operating system. *)
Record OS : Type := {
  getenv_PYINTERAPH : option string;
  isdir : string -> bool;
  listdir : string -> libresult (list string);
  cfg_read : string -> libresult ConfigParser.t
}.

(** The command line as typed: an option that was not given is [None],
    a flag that was not given is [false].  Numbers are given as the
    value [float] reads.  A record stands for a command line that
    argparse can read (known options, each with its value, numbers that
    [float] accepts) and that does not ask for help; the other
    invocations are in [Invocation]. *)
Record cmdline : Type := {
  cl_top : option string; cl_trj : option string; cl_ref : option string;
  cl_do_sb : bool; cl_do_hc : bool; cl_do_hb : bool; cl_do_kbp : bool;
  cl_hc_reslist : option (list string);
  cl_hc_co : option Q; cl_hc_perco : option Q;
  cl_hc_dat : option string; cl_hc_graph : option string;
  cl_sb_co : option Q; cl_sb_perco : option Q;
  cl_sb_dat : option string; cl_sb_graph : option string;
  cl_cgs_file : option string; cl_cgs_mode : option string;
  cl_hb_co : option Q; cl_hb_angle : option Q;
  cl_hb_dat : option string; cl_hb_graph : option string;
  cl_hb_perco : option Q; cl_hb_class : option string;
  cl_hbs_file : option string;
  cl_hb_group1 : option string; cl_hb_group2 : option string;
  cl_kbp_ff : option string; cl_kbp_atomlist : option string;
  cl_kbp_dat : option string; cl_kbp_graph : option string;
  cl_kbp_kbt : option Q;
  cl_ffmasses : option string;
  cl_verbose : bool
}.

(** The namespace [parser.parse_args()] returns. *)
Record Args : Type := {
  top : option string; trj : option string; ref : option string;
  do_sb : bool; do_hc : bool; do_hb : bool; do_kbp : bool;
  hc_reslist : list string;
  hc_co : Q; hc_perco : Q; hc_dat : string; hc_graph : option string;
  sb_co : Q; sb_perco : Q; sb_dat : string; sb_graph : option string;
  cgs_file : string; cgs_mode : string;
  hb_co : Q; hb_angle : Q; hb_dat : string; hb_graph : option string;
  hb_perco : Q; hb_class : string; hbs_file : string;
  hb_group1 : option string; hb_group2 : option string;
  kbp_ff : string; kbp_atomlist : string; kbp_dat : string;
  kbp_graph : option string; kbp_kbt : Q;
  ffmasses : string;
  verbose : bool
}.

(** [INSTALL_DIR], from the environment variable PYINTERAPH. *)
Definition INSTALL_DIR (os : OS) : string :=
  let d := match getenv_PYINTERAPH os with
           | Some d => if String.eqb d "" then "./" else d
           | None => "./"
           end in
  let d := if isdir os d then d else "./" in
  d ++ "/".

Definition hc_reslist_default : list string :=
  ["ALA"; "VAL"; "LEU"; "ILE"; "PHE"; "PRO"; "TRP"; "MET"].
Definition hcco_default : Q := 5.
Definition hcdat_default : string := "hydrophobic-clusters.dat".
Definition sbco_default : Q := 9 # 2.
Definition sbperco_default : Q := 0.
Definition sbdat_default : string := "salt-bridges.dat".
Definition sbmode_choices : list string :=
  ["different_charge"; "same_charge"; "all"].
Definition sbmode_default : string := "different_charge".
Definition hbco_default : Q := 7 # 2.
Definition hbang_default : Q := 120.
Definition hbdat_default : string := "hydrogen-bonds.dat".
Definition hbperco_default : Q := 0.
Definition hbclass_choices : list string :=
  ["all"; "mc-mc"; "mc-sc"; "sc-sc"; "custom"].
Definition hbclass_default : string := "all".
Definition kbpdat_default : string := "kb-potential.dat".
Definition kbpkbt_default : Q := 1.
Definition ff_masses_dir : string := "ff_masses".
Definition ffmasses_default : string := "charmm27".

(** An option with [choices]: a value that was given must be one of
    them, or argparse reports the error and exits with status 2; the
    default is not checked. *)
Definition choice (choices : list string) (default : string)
           (given : option string) : result string :=
  match given with
  | None => Return default
  | Some v => if Str.mem v choices then Return v else exit 2
  end.

(** [parser.parse_args()] on such a command line: the three options with
    [choices] are checked, the others are copied or get their default. *)
Definition parse_args (install_dir : string) (masses_files : list string)
           (cl : cmdline) : result Args :=
  sb_mode ← choice sbmode_choices sbmode_default (cl_cgs_mode cl);
  hb_cls ← choice hbclass_choices hbclass_default (cl_hb_class cl);
  ffm ← choice masses_files ffmasses_default (cl_ffmasses cl);
  mret {|
    top := cl_top cl; trj := cl_trj cl; ref := cl_ref cl;
    do_sb := cl_do_sb cl; do_hc := cl_do_hc cl;
    do_hb := cl_do_hb cl; do_kbp := cl_do_kbp cl;
    hc_reslist := default hc_reslist_default (cl_hc_reslist cl);
    hc_co := default hcco_default (cl_hc_co cl);
    hc_perco := default 0%Q (cl_hc_perco cl);
    hc_dat := default hcdat_default (cl_hc_dat cl);
    hc_graph := cl_hc_graph cl;
    sb_co := default sbco_default (cl_sb_co cl);
    sb_perco := default sbperco_default (cl_sb_perco cl);
    sb_dat := default sbdat_default (cl_sb_dat cl);
    sb_graph := cl_sb_graph cl;
    cgs_file := default (install_dir ++ "charged_groups.ini") (cl_cgs_file cl);
    cgs_mode := sb_mode;
    hb_co := default hbco_default (cl_hb_co cl);
    hb_angle := default hbang_default (cl_hb_angle cl);
    hb_dat := default hbdat_default (cl_hb_dat cl);
    hb_graph := cl_hb_graph cl;
    hb_perco := default hbperco_default (cl_hb_perco cl);
    hb_class := hb_cls;
    hbs_file := default (install_dir ++ "hydrogen_bonds.ini") (cl_hbs_file cl);
    hb_group1 := cl_hb_group1 cl; hb_group2 := cl_hb_group2 cl;
    kbp_ff := default (install_dir ++ "ff.S050.bin64") (cl_kbp_ff cl);
    kbp_atomlist := default (install_dir ++ "kbp_atomlist") (cl_kbp_atomlist cl);
    kbp_dat := default kbpdat_default (cl_kbp_dat cl);
    kbp_graph := cl_kbp_graph cl;
    kbp_kbt := default kbpkbt_default (cl_kbp_kbt cl);
    ffmasses := ffm;
    verbose := cl_verbose cl
  |}.

(** [os.path.join(a, b)]. *)
Fixpoint ends_with_slash (s : string) : bool :=
  match s with
  | "" => false
  | String c "" => Ascii.eqb c "/"
  | String _ s' => ends_with_slash s'
  end.

Definition path_join (a b : string) : string :=
  match b with
  | String "/" _ => b
  | _ => if String.eqb a "" || ends_with_slash a then a ++ b
         else a ++ "/" ++ b
  end.

(** The salt-bridge mode handed to the engine. *)
Definition translate_cgs_mode (cgs_mode : string) : string :=
  if String.eqb cgs_mode "same_charge" then "same"
  else if String.eqb cgs_mode "different_charge" then "diff"
  else if String.eqb cgs_mode "all" then "both"
  else cgs_mode.

Definition mc_sel : string :=
  "backbone or name H or name H1 or name H2 or name H3 " ++
  "or name O1 or name O2 or name OXT".
Definition sc_sel : string := "protein and not (" ++ mc_sel ++ ")".

Definition kbp_residues_list : list string :=
  ["ALA"; "ARG"; "ASN"; "ASP"; "CYS"; "GLN"; "GLU"; "HIS"; "ILE";
   "LEU"; "LYS"; "MET"; "PHE"; "PRO"; "SER"; "THR"; "TRP"; "TYR"; "VAL"].

(* ------------------------------------------------------------------- *)
(** ** The library module [li] and the trace of a run *)

Inductive identfunc : Type := generateSCIdentifiers | generateCGIdentifiers.
Inductive fullmatrixfunc : Type := SCFullmatrix | CGFullmatrix.

(** The analysis block an event comes from. *)
Inductive analysis : Type := HC | SB | HB | KBP.

Section Script.
(** The structure objects [loadsys] returns. *)
Context {Universe : Type}.

(** The arguments of a call, by keyword; a keyword the call does not
    pass is [None]. *)
Record dointeract_call : Type := {
  di_identfunc : identfunc;
  di_pdb : Universe; di_uni : Universe;
  di_co : Q; di_perco : Q; di_ffmasses : string;
  di_fullmatrix : option fullmatrixfunc;
  di_reslist : option (list string);
  di_mindist : bool;
  di_mindist_mode : option string;
  di_cgs : option (gmap string NoneType)
}.

Record dohbonds_call : Type := {
  dh_sel1 : option string; dh_sel2 : option string;
  dh_pdb : Universe; dh_uni : Universe;
  dh_distance : Q; dh_angle : Q; dh_perco : Q;
  dh_perresidue : bool;
  dh_dofullmatrix : bool;
  dh_other_hbs : gmap string (list string)
}.

Record dopotential_call : Type := {
  dp_kbp_atomlist : gmap string (list string);
  dp_residues_list : list string;
  dp_potential_file : string;
  dp_seq_dist_co : Z;
  dp_uni : Universe; dp_pdb : Universe;
  dp_dofullmatrix : bool;
  dp_kbT : Q
}.

(** The attributes of [li] the script uses.  Each scan returns the
    text of the report and the matrix, or [None] for the matrix. *)
Record Libinteract : Type := {
  loadsys : string -> string -> string -> libresult (Universe * Universe);
  dointeract : dointeract_call -> libresult (string * option Np.Matrix);
  selectAtoms : Universe -> string -> libresult (list nat);
  dohbonds : dohbonds_call -> libresult (string * option Np.Matrix);
  parse_atomlist : string -> libresult (gmap string (list string));
  dopotential : dopotential_call -> libresult (string * option Np.Matrix)
}.

Inductive event : Type :=
| Scan_dointeract (c : dointeract_call)
| Scan_dohbonds (c : dohbonds_call)
| Scan_dopotential (c : dopotential_call)
| Write_str2file (a : analysis) (fname : string) (text : string)
| Write_savetxt (a : analysis) (fname : string) (X : Np.Matrix)
                (fmt : string).

(** A piece of the script: from the trace so far to an outcome and
    the trace after it. *)
Definition proc (A : Type) : Type := list event -> result A * list event.

Definition pure {A} (r : result A) : proc A := fun tr => (r, tr).

Definition then_ {A B} (m : proc A) (k : A -> proc B) : proc B :=
  fun tr =>
    match m tr with
    | (Return v, tr') => k v tr'
    | (Raise e, tr') => (Raise e, tr')
    end.

#[global] Instance proc_bind : MBind proc := fun A B k m => then_ m k.
#[global] Instance proc_ret : MRet proc := fun A v => pure (Return v).

Definition emit (e : event) : proc unit :=
  fun tr => (Return tt, tr ++ [e])%list.

(** [str2file(string, fname)] in the block of analysis [a]. *)
Definition str2file (a : analysis) (string_ fname : string) : proc unit :=
  emit (Write_str2file a fname string_).

(** [np.savetxt(fname, X, fmt = fmt)]; a file name that is [None] is
    refused with [ValueError]. *)
Definition savetxt (a : analysis) (fname : option string)
           (X : Np.Matrix) (fmt : string) : proc unit :=
  match fname with
  | Some f => emit (Write_savetxt a f X fmt)
  | None => pure (Raise (Exc ValueError))
  end.

(** [if mat is not None: np.savetxt(graph, mat, fmt = fmt)] *)
Definition save_mat (a : analysis) (graph : option string)
           (mat : option Np.Matrix) (fmt : string) : proc unit :=
  match mat with
  | Some X => savetxt a graph X fmt
  | None => mret tt
  end.

Variable li : Libinteract.
Variable os : OS.

(** *** HYDROPHOBIC CONTACTS *)
Definition hydrophobic_contacts (args : Args) (pdb uni : Universe)
           (ffmasses : string) : proc unit :=
  if do_hc args then
    let fullmatrix :=
      match hc_graph args with Some _ => Some SCFullmatrix | None => None end in
    let call := {|
      di_identfunc := generateSCIdentifiers;
      di_pdb := pdb; di_uni := uni;
      di_co := hc_co args; di_perco := hc_perco args;
      di_ffmasses := ffmasses;
      di_fullmatrix := fullmatrix;
      di_reslist := Some (hc_reslist args);
      di_mindist := false;
      di_mindist_mode := None;
      di_cgs := None |} in
    _ ← emit (Scan_dointeract call);
    '(str_out, hc_mat_out) ← pure (lift (dointeract li call));
    (* Save .dat *)
    _ ← str2file HC str_out (hc_dat args);
    (* Save .mat (if available) *)
    save_mat HC (hc_graph args) hc_mat_out "%.1f"
  else mret tt.

(** *** SALT BRIDGES *)
(** The block after [cgs = parse_cgs_file(cgs_file)]. *)
Definition salt_bridges_scan (cgs : gmap string NoneType) (args : Args)
           (pdb uni : Universe) (ffmasses : string) : proc unit :=
  let cgs_mode := translate_cgs_mode (cgs_mode args) in
  let fullmatrix :=
    match sb_graph args with Some _ => Some CGFullmatrix | None => None end in
  let call := {|
    di_identfunc := generateCGIdentifiers;
    di_pdb := pdb; di_uni := uni;
    di_co := sb_co args; di_perco := sb_perco args;
    di_ffmasses := ffmasses;
    di_fullmatrix := fullmatrix;
    di_reslist := None;
    di_mindist := true;
    di_mindist_mode := Some cgs_mode;
    di_cgs := Some cgs |} in
  _ ← emit (Scan_dointeract call);
  '(str_out, sb_mat_out) ← pure (lift (dointeract li call));
  (* Save .dat *)
  _ ← str2file SB str_out (sb_dat args);
  (* Save .mat (if available) *)
  save_mat SB (sb_graph args) sb_mat_out "%.1f".

Definition salt_bridges (args : Args) (pdb uni : Universe)
           (ffmasses : string) : proc unit :=
  if do_sb args then
    cgs ← pure (parse_cgs_file (cfg_read os) (cgs_file args));
    salt_bridges_scan cgs args pdb uni ffmasses
  else mret tt.

(** *** HYDROGEN BONDS *)
(** A call in [try: ... except: log.error(...); exit(1)]. *)
Definition or_exit {A} (r : result A) : result A :=
  try_except r (fun _ => exit 1).

(** The class in effect: custom groups that are both given are used
    whatever the class. *)
Definition hb_class_in_effect (args : Args) : string :=
  if bool_decide (is_Some (hb_group1 args))
     && bool_decide (is_Some (hb_group2 args))
     && negb (String.eqb (hb_class args) "custom")
  then "custom" else hb_class args.

(** The two selections, by class; for the custom class the two groups
    are checked first. *)
Definition hb_groups (uni : Universe) (hb_class : string)
           (hb_group1 hb_group2 : option string)
  : result (option string * option string) :=
  if String.eqb hb_class "custom" then
    match hb_group1, hb_group2 with
    | Some g1, Some g2 =>
        hb_sel1 ← or_exit (lift (selectAtoms li uni g1));
        hb_sel2 ← or_exit (lift (selectAtoms li uni g2));
        if (length hb_sel1 =? 0)%nat then exit 1
        else if (length hb_sel2 =? 0)%nat then exit 1
        else mret (hb_group1, hb_group2)
    | _, _ => exit 1
    end
  else if String.eqb hb_class "all" then
    mret (Some "protein", Some "protein")
  else if String.eqb hb_class "mc-mc" then
    mret (Some mc_sel, Some mc_sel)
  else if String.eqb hb_class "sc-sc" then
    mret (Some sc_sel, Some sc_sel)
  else if String.eqb hb_class "mc-sc" then
    mret (Some mc_sel, Some sc_sel)
  else mret (hb_group1, hb_group2).

Definition hydrogen_bonds (args : Args) (pdb uni : Universe) : proc unit :=
  if do_hb args then
    let hb_class := hb_class_in_effect args in
    '(hb_group1, hb_group2) ← pure (
      hb_groups uni hb_class (hb_group1 args) (hb_group2 args));
    (* check the donors-acceptors file *)
    hbs ← pure (or_exit (parse_hbs_file (cfg_read os) (hbs_file args)));
    let fullmatrix := bool_decide (is_Some (hb_graph args)) in
    let perresidue := false in
    let call := {|
      dh_sel1 := hb_group1; dh_sel2 := hb_group2;
      dh_pdb := pdb; dh_uni := uni;
      dh_distance := hb_co args; dh_angle := hb_angle args;
      dh_perco := hb_perco args;
      dh_perresidue := perresidue;
      dh_dofullmatrix := fullmatrix;
      dh_other_hbs := hbs |} in
    _ ← emit (Scan_dohbonds call);
    '(str_out, hb_mat_out) ← pure (lift (dohbonds li call));
    (* Save .dat *)
    _ ← str2file HB str_out (hb_dat args);
    (* Save .mat (if available) *)
    save_mat HB (hb_graph args) hb_mat_out "%.1f"
  else mret tt.

(** *** STATISTICAL POTENTIAL *)
Definition statistical_potential (args : Args) (pdb uni : Universe)
  : proc unit :=
  if do_kbp args then
    kbp_atomlist ← pure (lift (parse_atomlist li (kbp_atomlist args)));
    let fullmatrix := bool_decide (is_Some (kbp_graph args)) in
    let kbp_seq_dist_co := 0 in
    let call := {|
      dp_kbp_atomlist := kbp_atomlist;
      dp_residues_list := kbp_residues_list;
      dp_potential_file := kbp_ff args;
      dp_seq_dist_co := kbp_seq_dist_co;
      dp_uni := uni; dp_pdb := pdb;
      dp_dofullmatrix := fullmatrix;
      dp_kbT := kbp_kbt args |} in
    _ ← emit (Scan_dopotential call);
    '(str_out, mat_out) ← pure (lift (dopotential li call));
    (* Save .dat *)
    _ ← str2file KBP str_out (kbp_dat args);
    (* Save .mat (if available) *)
    save_mat KBP (kbp_graph args) mat_out "%.3f"
  else mret tt.

(** *** The script, top to bottom *)
Definition load_systems (args : Args) : result (Universe * Universe) :=
  match top args, trj args with
  | Some top, Some trj =>
      (* if no reference, topology is reference *)
      let ref := default top (ref args) in
      match loadsys li ref top trj with
      | Return sys => Return sys
      | Raise ValueError => exit 1
      | Raise e => Raise (Exc e)
      end
  | _, _ => exit 1
  end.

Definition analyses (args : Args) (pdb uni : Universe) (ffmasses : string)
  : proc unit :=
  _ ← hydrophobic_contacts args pdb uni ffmasses;
  _ ← salt_bridges args pdb uni ffmasses;
  _ ← hydrogen_bonds args pdb uni;
  statistical_potential args pdb uni.

Definition pyinteraph (cl : cmdline) : proc unit :=
  let INSTALL_DIR := INSTALL_DIR os in
  let masses_dir := INSTALL_DIR ++ ff_masses_dir in
  masses_files ← pure (lift (listdir os masses_dir));
  args ← pure (parse_args INSTALL_DIR masses_files cl);
  let ffmasses := path_join masses_dir (ffmasses args) in
  '(pdb, uni) ← pure (load_systems args);
  analyses args pdb uni ffmasses.

(** A run starts from the empty trace. *)
Definition run (cl : cmdline) : result unit * list event :=
  pyinteraph cl [].

End Script.

Arguments dointeract_call : clear implicits.
Arguments dohbonds_call : clear implicits.
Arguments dopotential_call : clear implicits.
Arguments event : clear implicits.
Arguments Libinteract : clear implicits.
Arguments proc : clear implicits.

(** The names of the files a trace has written, in order. *)
Definition written {U} (tr : list (event U)) : list (analysis * string) :=
  omap (fun e => match e with
                 | Write_str2file a f _ => Some (a, f)
                 | Write_savetxt a f _ _ => Some (a, f)
                 | _ => None
                 end) tr.

(** The scans a trace has started, by kind, and the matrices it has
    written. *)
Definition interact_scans {U} (tr : list (event U))
  : list (dointeract_call U) :=
  omap (fun e => match e with Scan_dointeract c => Some c | _ => None end) tr.

Definition hbond_scans {U} (tr : list (event U)) : list (dohbonds_call U) :=
  omap (fun e => match e with Scan_dohbonds c => Some c | _ => None end) tr.

Definition potential_scans {U} (tr : list (event U))
  : list (dopotential_call U) :=
  omap (fun e => match e with Scan_dopotential c => Some c | _ => None end) tr.

Definition matrix_writes {U} (tr : list (event U))
  : list (analysis * string * Np.Matrix * string) :=
  omap (fun e => match e with
                 | Write_savetxt a f X fmt => Some (a, f, X, fmt)
                 | _ => None
                 end) tr.

(* ------------------------------------------------------------------- *)
(** ** Properties of events and of pieces of the script *)

(** The analysis an event belongs to. *)
Definition block_of {U} (e : event U) : analysis :=
  match e with
  | Scan_dointeract c =>
      match di_identfunc c with
      | generateSCIdentifiers => HC
      | generateCGIdentifiers => SB
      end
  | Scan_dohbonds _ => HB
  | Scan_dopotential _ => KBP
  | Write_str2file a _ _ => a
  | Write_savetxt a _ _ _ => a
  end.

(** The format the design document gives to the matrix file of an
    analysis: one decimal for the persistence matrices, three for the
    potential. *)
Definition matrix_decimals (a : analysis) : nat :=
  match a with
  | KBP => 3
  | HC | SB | HB => 1
  end.

(** What holds of every event of the script: a matrix is written with
    the precision of its analysis, hydrogen bonds are scanned per atom
    pair, the potential is scanned with sequence-distance cutoff 0. *)
Definition event_ok {U} (e : event U) : Prop :=
  match e with
  | Write_savetxt a _ _ fmt =>
      Np.precision_of fmt = Some (matrix_decimals a)
  | Scan_dohbonds c => dh_perresidue c = false
  | Scan_dopotential c => dp_seq_dist_co c = 0
  | _ => True
  end.

(** A matrix file whose every value is written with the decimal places
    of its analysis. *)
Definition written_with_decimals
           (w : analysis * string * Np.Matrix * string) : Prop :=
  let '(a, _, X, fmt) := w in
  ∃ cells, Np.savetxt_cells X fmt = Some cells ∧
           Np.savetxt_text X fmt = Some (Np.layout cells) ∧
           Forall (Forall (fun cell =>
                     Np.decimal_places cell = Some (matrix_decimals a)))
                  cells.

(** An outcome that, if it is a failure, has a non-zero exit status. *)
Definition fails_nonzero {A} (r : result A) : Prop :=
  match r with
  | Return _ => True
  | Raise _ => exit_status r ≠ 0
  end.

(** A failure with a non-zero exit status. *)
Definition fails {A} (r : result A) : Prop :=
  match r with
  | Return _ => False
  | Raise _ => exit_status r ≠ 0
  end.



(** The charged-groups file a command line names. *)
Definition cgs_file_of (os : OS) (cl : cmdline) : string :=
  default (INSTALL_DIR os ++ "charged_groups.ini") (cl_cgs_file cl).

(** [steps p P Q]: from any trace, [p] only appends events, each of
    them satisfies [P], and the outcome satisfies [Q]. *)
Definition steps {U A} (p : proc U A) (P : event U -> Prop)
           (Q : result A -> Prop) : Prop :=
  ∀ tr, ∃ new, (p tr).2 = (tr ++ new)%list ∧ Forall P new ∧ Q (p tr).1.

End Driver.

(* ===================================================================== *)
(** * [libinteract]: the parts the tests exercise *)
(* ===================================================================== *)

Module Libinteract.
Import Py.

(** ** The [Sparse] class *)
Module Sparse.

(** One record of the statistical potential.  Floats are modelled by
    real numbers. *)
Record t : Type := mk {
  r1 : R; r2 : R;
  p1_1 : R; p1_2 : R; p2_1 : R; p2_2 : R;
  cutoff : R;
  step : R;
  total : R;
  num : R;
  bins : gmap string R
}.

(** Modelled from the spec: the constructor [Sparse(sparse_list)] of
    [libinteract], which is not among the sources.  The fields are
    those of the design document's SparseEntry, filled from the ten
    values of a record of the binary file in the file's order, with
    an empty bin mapping.  The file holds the inverse step, so the
    step is its reciprocal; and the test suite's
    [test_Sparse_constructor] takes the 7th value to be the square of
    the cutoff, so the cutoff is its square root ([sqrt] is 0 on
    negative numbers, where the library's is NaN). *)
Definition init (sparse_list : list R) : libresult t :=
  match sparse_list with
  | v0 :: v1 :: v2 :: v3 :: v4 :: v5 :: v6 :: v7 :: v8 :: v9 :: _ =>
      Return {| r1 := v0; r2 := v1;
                p1_1 := v2; p1_2 := v3; p2_1 := v4; p2_2 := v5;
                cutoff := sqrt v6;
                step := (1 / v7)%R;
                total := v8;
                num := v9;
                bins := ∅ |}
  | _ => Raise IndexError
  end.

(** A bin record [c0, c1, c2, c3, value]: four characters and a
    value. *)
Definition bin : Type := string * string * string * string * R.

(** [''.join(bin[0:4])] *)
Definition bin_key (b : bin) : string :=
  let '(c0, c1, c2, c3, _) := b in Str.join "" [c0; c1; c2; c3].

Definition bin_value (b : bin) : R :=
  let '(_, _, _, _, v) := b in v.

(** Modelled from the spec: the method [Sparse.add_bin(bin)] of
    [libinteract], which is not among the sources.  The bins are a
    dictionary keyed by the concatenation of the record's four
    characters (design notes, "sparse dictionary keyed by
    concatenated-character encoding"); adding a bin stores the
    record's value under that key. *)
Definition add_bin (self : t) (b : bin) : t :=
  {| r1 := r1 self; r2 := r2 self;
     p1_1 := p1_1 self; p1_2 := p1_2 self;
     p2_1 := p2_1 self; p2_2 := p2_2 self;
     cutoff := cutoff self; step := step self;
     total := total self; num := num self;
     bins := <[bin_key b := bin_value b]> (bins self) |}.

End Sparse.

(** ** The sequence-distance test of [do_potential] *)
Module Potential.

(** Modelled from the spec: the sequence-distance test of
    [do_potential] of [libinteract], which is not among the sources.
    A residue pair is scored only when the distance of its residue
    numbers exceeds the cutoff (design document, 4.4:
    [|Δresnum| > seq_dist_co]). *)
Definition seq_dist_eligible (seq_dist_co resnum_i resnum_j : Z) : bool :=
  (seq_dist_co <? Z.abs (resnum_i - resnum_j))%Z.

End Potential.

End Libinteract.

(* ===================================================================== *)
(** * [tests/test_libinteract.py] *)
(* ===================================================================== *)

Module TestSuite.
Import Py.

Section Helpers.
Variable cfg_read : string -> libresult ConfigParser.t.

(** The handlers of this file call [log.error] and [logging.error];
    the file imports neither name, so reaching a handler raises
    [NameError]. *)
Definition parse_cgs_file (fname : string)
  : result (gmap string (gmap string (list string))) :=
  let grps_str := "CHARGED_GROUPS" in
  let res_str := "RESIDUES" in
  let default_grps_str := "default_charged_groups" in
  _ ← lift (cfg_read fname);
  cfg ← try_except (lift (cfg_read fname)) (fun _ => Raise (Exc NameError));
  charged_groups ← lift (
    opts ← ConfigParser.options cfg grps_str;
    '(opts, _) ← list_remove opts default_grps_str;
    mret (map Str.strip opts));
  default_charged ← lift (
    v ← ConfigParser.get cfg grps_str default_grps_str;
    mret (map Str.strip (Str.split "," v)));
  residues ← lift (ConfigParser.options cfg res_str);
  let groups := (charged_groups ++ default_charged)%list in
  group_definitions ← lift (
    foldM (fun (gd : gmap string (list string)) i =>
             v ← ConfigParser.get cfg grps_str i;
             mret (<[i := map Str.strip (Str.split "," v)]> gd))
          ∅ groups);
  (* the second loop runs on the last group of the first one *)
  group_definitions ← lift (
    match last groups with
    | None => Raise NameError
    | Some i =>
        l ← getitem group_definitions i;
        mret (<[i := map Str.strip l]> group_definitions)
    end);
  out ← try_except
    (lift (foldM (fun (out : gmap string (gmap string (list string))) i =>
       let i := Str.upper i in
       d ← foldM (fun (d : gmap string (list string)) j =>
                    g ← getitem group_definitions j;
                    mret (<[j := g]> d))
                 ∅ default_charged;
       v ← ConfigParser.get cfg res_str i;
       let this_cgs := map Str.strip (Str.split "," v) in
       d ← foldM (fun (d : gmap string (list string)) j =>
                    if String.eqb j "" then mret d
                    else g ← getitem group_definitions (Str.lower j);
                         mret (<[j := g]> d))
                 d this_cgs;
       mret (<[i := d]> out))
      ∅ residues))
    (fun _ => Raise (Exc NameError));
  mret out.

Definition parse_hbs_file (fname : string)
  : result (gmap string (list string)) :=
  let hbs_str := "HYDROGEN_BONDS" in
  let acceptors_str := "ACCEPTORS" in
  let donors_str := "DONORS" in
  cfg ← try_except (lift (cfg_read fname)) (fun _ => Raise (Exc NameError));
  acceptors ← lift (ConfigParser.get cfg hbs_str acceptors_str);
  let tmp := Str.split "," (Str.strip acceptors) in
  let acceptors := map Str.strip tmp in
  donors ← lift (ConfigParser.get cfg hbs_str donors_str);
  let tmp := Str.split "," (Str.strip donors) in
  let donors := map Str.strip tmp in
  mret (<["DONORS" := donors]> (<["ACCEPTORS" := acceptors]> ∅)).

End Helpers.

(* ------------------------------------------------------------------- *)
(** ** The tests of the statistical-potential records *)

(** [assert_almost_equal(actual, desired, decimal)] on arrays: same
    length, and each [abs(desired - actual) < 1.5 * 10**(-decimal)]. *)
Definition assert_almost_equal (actual desired : list R) (decimal : nat)
  : Prop :=
  Forall2 (fun a d => (Rabs (d - a) < 1.5 * / 10 ^ decimal)%R)
          actual desired.

(** The fixture [sparse_list]: [np.arange(0, 10)]. *)
Definition sparse_list : list R :=
  [0; 1; 2; 3; 4; 5; 6; 7; 8; 9]%R.

(** The fixture [sparse_bin]: [['a', 'b', 'c', 'd', 1]]. *)
Definition sparse_bin : Libinteract.Sparse.bin :=
  ("a", "b", "c", "d", 1%R).

(** [TestSparse.test_Sparse_constructor], as a property of the fixture
    list and of the object built from it. *)
Definition test_Sparse_constructor (sparse_list : list R)
           (sparse_obj : Libinteract.Sparse.t) : Prop :=
  let data :=
    [ Libinteract.Sparse.r1 sparse_obj;
      Libinteract.Sparse.r2 sparse_obj;
      Libinteract.Sparse.p1_1 sparse_obj;
      Libinteract.Sparse.p1_2 sparse_obj;
      Libinteract.Sparse.p2_1 sparse_obj;
      Libinteract.Sparse.p2_2 sparse_obj;
      (Libinteract.Sparse.cutoff sparse_obj ^ 2)%R;
      (1 / Libinteract.Sparse.step sparse_obj)%R;
      Libinteract.Sparse.total sparse_obj;
      Libinteract.Sparse.num sparse_obj ] in
  assert_almost_equal data sparse_list 10.

(** [TestSparse.test_add_bin] and [TestSparse.test_num_bins], on the
    bin mapping after [sparse_obj.add_bin(sparse_bin)]. *)
Definition test_add_bin (bins_after : gmap string R)
           (sparse_bin : Libinteract.Sparse.bin) : Prop :=
  let key := Libinteract.Sparse.bin_key sparse_bin in
  let val := Libinteract.Sparse.bin_value sparse_bin in
  bins_after !! key = Some val.

Definition test_num_bins (bins_after : gmap string R) : Prop :=
  size bins_after = 1%nat.

(* ------------------------------------------------------------------- *)
(** ** The comparison of the hydrogen-bond report *)

(** [sorted(lines)] on strings. *)
Definition sorted (lines : list string) : list string :=
  merge_sort String.le lines.

(** The last loop of [test_do_interact_hb]: both the lines of the report
    and the lines of the reference file are sorted, then compared index
    by index. *)
Definition hb_report_matches (report_lines ref_hb : list string) : Prop :=
  let sorted_ref_hb := sorted ref_hb in
  let split_str := sorted report_lines in
  ∀ (i : nat) (s : string), split_str !! i = Some s →
    ∃ r, sorted_ref_hb !! i = Some r ∧ s = Str.strip r.

End TestSuite.

(* ===================================================================== *)
(** * Sample inputs *)
(* ===================================================================== *)

Module Samples.
Import Py.

(** A charged-groups file:
<<
[CHARGED_GROUPS]
default_charged_groups = nt, ct
nt = N
ct = C,O1,O2
sc.asp.coon = CG, OD1,OD2

[RESIDUES]
ASP = sc.asp.coon
ALA =
>>
*)
Definition charged_groups_ini : ConfigParser.t :=
  ConfigParser.mk []
    [ ("CHARGED_GROUPS",
        [ ("default_charged_groups", "nt, ct");
          ("nt", "N");
          ("ct", "C,O1,O2");
          ("sc.asp.coon", "CG, OD1,OD2") ]);
      ("RESIDUES", [ ("asp", "sc.asp.coon"); ("ala", "") ]) ].

Definition read_sample (fname : string) : libresult ConfigParser.t :=
  Return charged_groups_ini.

(** What the reference parser makes of it. *)
Definition charged_groups_expected : gmap string (gmap string (list string)) :=
  <["ASP" := <["nt" := ["N"]]> (<["ct" := ["C"; "O1"; "O2"]]>
               (<["sc.asp.coon" := ["CG"; "OD1"; "OD2"]]> ∅))]>
  (<["ALA" := <["nt" := ["N"]]> (<["ct" := ["C"; "O1"; "O2"]]> ∅)]> ∅).

(** A donors-acceptors file. *)
Definition hydrogen_bonds_ini : ConfigParser.t :=
  ConfigParser.mk []
    [ ("HYDROGEN_BONDS", [ ("acceptors", "O, OD1"); ("donors", "N,NE") ]) ].

(** An operating system with the two files, a file that cannot be
    parsed, and one force field. *)
Definition os : Driver.OS := {|
  Driver.getenv_PYINTERAPH := None;
  Driver.isdir := fun _ => true;
  Driver.listdir := fun _ => Return ["charmm27"];
  Driver.cfg_read := fun fname =>
    if String.eqb fname "broken.ini" then Raise ParsingError
    else if String.eqb fname "hb.ini" then Return hydrogen_bonds_ini
    else Return charged_groups_ini
|}.

Definition matrix : Np.Matrix := [[0; 25 # 2]; [25 # 2; 0]]%Q.

(** A library over a one-point universe: every scan reports one pair
    and, when asked for it, the matrix above; the selection ["none"] is
    empty. *)
Definition li : Driver.Libinteract unit := {|
  Driver.loadsys := fun _ _ _ => Return (tt, tt);
  Driver.dointeract := fun c =>
    Return ("A-1ALA A-2VAL 12.5",
            match Driver.di_fullmatrix c with
            | Some _ => Some matrix
            | None => None
            end);
  Driver.selectAtoms := fun _ sel =>
    if String.eqb sel "none" then Return [] else Return [0%nat; 1%nat];
  Driver.dohbonds := fun c =>
    Return ("A-1ALA N A-2VAL O 12.5",
            if Driver.dh_dofullmatrix c then Some matrix else None);
  Driver.parse_atomlist := fun _ => Return (<["ALA" := ["N"; "CA"]]> ∅);
  Driver.dopotential := fun c =>
    Return ("A-1ALA A-2VAL -0.125",
            if Driver.dp_dofullmatrix c then Some matrix else None)
|}.

(** [pyinteraph -s sim.gro -t traj.xtc] and nothing else. *)
Definition cl_none : Driver.cmdline := {|
  Driver.cl_top := Some "sim.gro"; Driver.cl_trj := Some "traj.xtc";
  Driver.cl_ref := None;
  Driver.cl_do_sb := false; Driver.cl_do_hc := false;
  Driver.cl_do_hb := false; Driver.cl_do_kbp := false;
  Driver.cl_hc_reslist := None;
  Driver.cl_hc_co := None; Driver.cl_hc_perco := None;
  Driver.cl_hc_dat := None; Driver.cl_hc_graph := None;
  Driver.cl_sb_co := None; Driver.cl_sb_perco := None;
  Driver.cl_sb_dat := None; Driver.cl_sb_graph := None;
  Driver.cl_cgs_file := None; Driver.cl_cgs_mode := None;
  Driver.cl_hb_co := None; Driver.cl_hb_angle := None;
  Driver.cl_hb_dat := None; Driver.cl_hb_graph := None;
  Driver.cl_hb_perco := None; Driver.cl_hb_class := None;
  Driver.cl_hbs_file := None;
  Driver.cl_hb_group1 := None; Driver.cl_hb_group2 := None;
  Driver.cl_kbp_ff := None; Driver.cl_kbp_atomlist := None;
  Driver.cl_kbp_dat := None; Driver.cl_kbp_graph := None;
  Driver.cl_kbp_kbt := None;
  Driver.cl_ffmasses := None;
  Driver.cl_verbose := false
|}.

(** [-f --hc-graph hc-graph.dat -b --sb-cg-file broken.ini] *)
Definition cl_hc_sb : Driver.cmdline :=
  let c := cl_none in {|
  Driver.cl_top := Driver.cl_top c; Driver.cl_trj := Driver.cl_trj c;
  Driver.cl_ref := None;
  Driver.cl_do_sb := true; Driver.cl_do_hc := true;
  Driver.cl_do_hb := false; Driver.cl_do_kbp := false;
  Driver.cl_hc_reslist := None;
  Driver.cl_hc_co := None; Driver.cl_hc_perco := None;
  Driver.cl_hc_dat := None; Driver.cl_hc_graph := Some "hc-graph.dat";
  Driver.cl_sb_co := None; Driver.cl_sb_perco := None;
  Driver.cl_sb_dat := None; Driver.cl_sb_graph := None;
  Driver.cl_cgs_file := Some "broken.ini"; Driver.cl_cgs_mode := None;
  Driver.cl_hb_co := None; Driver.cl_hb_angle := None;
  Driver.cl_hb_dat := None; Driver.cl_hb_graph := None;
  Driver.cl_hb_perco := None; Driver.cl_hb_class := None;
  Driver.cl_hbs_file := None;
  Driver.cl_hb_group1 := None; Driver.cl_hb_group2 := None;
  Driver.cl_kbp_ff := None; Driver.cl_kbp_atomlist := None;
  Driver.cl_kbp_dat := None; Driver.cl_kbp_graph := None;
  Driver.cl_kbp_kbt := None;
  Driver.cl_ffmasses := None;
  Driver.cl_verbose := false
|}.

(** [-y --hb-graph hb-graph.dat --hb-ad-file hb.ini
     -p --kbp-graph kbp-graph.dat], with the hydrogen-bond class and
    custom groups as given. *)
Definition cl_hb_kbp (hb_class g1 g2 : option string) : Driver.cmdline :=
  let c := cl_none in {|
  Driver.cl_top := Driver.cl_top c; Driver.cl_trj := Driver.cl_trj c;
  Driver.cl_ref := None;
  Driver.cl_do_sb := false; Driver.cl_do_hc := false;
  Driver.cl_do_hb := true; Driver.cl_do_kbp := true;
  Driver.cl_hc_reslist := None;
  Driver.cl_hc_co := None; Driver.cl_hc_perco := None;
  Driver.cl_hc_dat := None; Driver.cl_hc_graph := None;
  Driver.cl_sb_co := None; Driver.cl_sb_perco := None;
  Driver.cl_sb_dat := None; Driver.cl_sb_graph := None;
  Driver.cl_cgs_file := None; Driver.cl_cgs_mode := None;
  Driver.cl_hb_co := None; Driver.cl_hb_angle := None;
  Driver.cl_hb_dat := None; Driver.cl_hb_graph := Some "hb-graph.dat";
  Driver.cl_hb_perco := None; Driver.cl_hb_class := hb_class;
  Driver.cl_hbs_file := Some "hb.ini";
  Driver.cl_hb_group1 := g1; Driver.cl_hb_group2 := g2;
  Driver.cl_kbp_ff := None; Driver.cl_kbp_atomlist := None;
  Driver.cl_kbp_dat := None; Driver.cl_kbp_graph := Some "kbp-graph.dat";
  Driver.cl_kbp_kbt := None;
  Driver.cl_ffmasses := None;
  Driver.cl_verbose := false
|}.


End Samples.

(* ===================================================================== *)
(** * More about the script: what a command line asks for *)
(* ===================================================================== *)

Module Asked.
Import Py Driver.

(** The analysis was requested on the command line. *)
Definition requested (cl : cmdline) (a : analysis) : bool :=
  match a with
  | HC => cl_do_hc cl
  | SB => cl_do_sb cl
  | HB => cl_do_hb cl
  | KBP => cl_do_kbp cl
  end.

(** The donors-acceptors file a command line names. *)
Definition hbs_file_of (os : OS) (cl : cmdline) : string :=
  default (INSTALL_DIR os ++ "hydrogen_bonds.ini") (cl_hbs_file cl).

(** The name of the report of an analysis, given or default. *)
Definition dat_of (cl : cmdline) (a : analysis) : string :=
  match a with
  | HC => default hcdat_default (cl_hc_dat cl)
  | SB => default sbdat_default (cl_sb_dat cl)
  | HB => default hbdat_default (cl_hb_dat cl)
  | KBP => default kbpdat_default (cl_kbp_dat cl)
  end.

(** The name of the matrix file of an analysis, when one was given. *)
Definition graph_of (cl : cmdline) (a : analysis) : option string :=
  match a with
  | HC => cl_hc_graph cl
  | SB => cl_sb_graph cl
  | HB => cl_hb_graph cl
  | KBP => cl_kbp_graph cl
  end.

End Asked.

(* ===================================================================== *)
(** * More about the script: what a block leaves in the trace *)
(* ===================================================================== *)

Module Shape.
Import Py Driver Asked.

Definition is_scan {U} (e : event U) : bool :=
  match e with
  | Scan_dointeract _ | Scan_dohbonds _ | Scan_dopotential _ => true
  | Write_str2file _ _ _ | Write_savetxt _ _ _ _ => false
  end.

(** The format the script passes to [np.savetxt] in the block of an
    analysis. *)
Definition fmt_of (a : analysis) : string :=
  match a with
  | KBP => "%.3f"
  | HC | SB | HB => "%.1f"
  end.

(** The report of analysis [a] written under its name, and its matrix
    written under the graph name given. *)
Definition report_event {U} (cl : cmdline) (a : analysis) (e : event U)
  : Prop :=
  ∃ s, e = Write_str2file a (dat_of cl a) s.

Definition matrix_event {U} (cl : cmdline) (a : analysis) (e : event U)
  : Prop :=
  ∃ f X, graph_of cl a = Some f ∧ e = Write_savetxt a f X (fmt_of a).

(** The events of one block: nothing, or one scan of the analysis,
    then possibly its report, then possibly its matrix. *)
Definition block_events {U} (cl : cmdline) (a : analysis)
           (l : list (event U)) : Prop :=
  l = [] ∨
  ∃ scan, is_scan scan = true ∧ block_of scan = a ∧
    (l = [scan] ∨
     (∃ rep, report_event cl a rep ∧ l = [scan; rep]) ∨
     (∃ rep mat, report_event cl a rep ∧ matrix_event cl a mat ∧
                 l = [scan; rep; mat])).

(** How a block ends and what it has appended: it was not requested and
    did nothing; or it failed before its scan; or it failed in its scan;
    or it wrote its report and then either ended, or failed to write a
    matrix for want of a file name; or it wrote report and matrix. *)
Definition block_outcome {U} (cl : cmdline) (a : analysis)
           (r : result unit) (l : list (event U)) : Prop :=
  if requested cl a then
    (l = [] ∧ r ≠ Return tt) ∨
    ∃ scan, is_scan scan = true ∧ block_of scan = a ∧
      ((l = [scan] ∧ r ≠ Return tt) ∨
       (∃ rep, report_event cl a rep ∧ l = [scan; rep] ∧
               (r = Return tt ∨
                (graph_of cl a = None ∧ r = Raise (Exc ValueError)))) ∨
       (∃ rep mat, report_event cl a rep ∧ matrix_event cl a mat ∧
                   l = [scan; rep; mat] ∧ r = Return tt))
  else l = [] ∧ r = Return tt.

(** [runs p S]: from any trace, [p] only appends events, and its outcome
    and the events it appends satisfy [S]. *)
Definition runs {U A} (p : proc U A)
           (S : result A -> list (event U) -> Prop) : Prop :=
  ∀ tr, ∃ r new, p tr = (r, (tr ++ new)%list) ∧ S r new.

(** The outcome of one piece followed by another: the second runs only
    if the first has returned. *)
Definition then_outcome {U} (S1 S2 : result unit -> list (event U) -> Prop)
           (r : result unit) (l : list (event U)) : Prop :=
  ∃ r1 l1, S1 r1 l1 ∧
    ((r1 = Return tt ∧ ∃ l2, S2 r l2 ∧ l = (l1 ++ l2)%list) ∨
     (r1 ≠ Return tt ∧ r = r1 ∧ l = l1)).

(** What the four analyses in sequence can do.  The salt bridges, when
    requested, fail before their scan. *)
Definition analyses_outcome {U} (cl : cmdline)
  : result unit -> list (event U) -> Prop :=
  then_outcome (block_outcome cl HC)
    (then_outcome (fun r l => block_outcome cl SB r l ∧ l = [])
       (then_outcome (block_outcome cl HB) (block_outcome cl KBP))).

(** The namespace [parse_args] makes of a command line, as far as the
    blocks look at it. *)
Definition namespace_of (dir : string) (cl : cmdline) (args : Args) : Prop :=
  (do_hc args = cl_do_hc cl ∧ do_sb args = cl_do_sb cl ∧
   do_hb args = cl_do_hb cl ∧ do_kbp args = cl_do_kbp cl) ∧
  (hc_dat args = dat_of cl HC ∧ sb_dat args = dat_of cl SB ∧
   hb_dat args = dat_of cl HB ∧ kbp_dat args = dat_of cl KBP) ∧
  (hc_graph args = cl_hc_graph cl ∧ sb_graph args = cl_sb_graph cl ∧
   hb_graph args = cl_hb_graph cl ∧ kbp_graph args = cl_kbp_graph cl) ∧
  (hc_co args = default hcco_default (cl_hc_co cl) ∧
   hc_perco args = default 0%Q (cl_hc_perco cl) ∧
   hc_reslist args = default hc_reslist_default (cl_hc_reslist cl)) ∧
  (hb_co args = default hbco_default (cl_hb_co cl) ∧
   hb_angle args = default hbang_default (cl_hb_angle cl) ∧
   hb_perco args = default hbperco_default (cl_hb_perco cl) ∧
   hb_class args = default hbclass_default (cl_hb_class cl) ∧
   hb_group1 args = cl_hb_group1 cl ∧ hb_group2 args = cl_hb_group2 cl ∧
   hbs_file args = default (dir ++ "hydrogen_bonds.ini") (cl_hbs_file cl)) ∧
  (kbp_ff args = default (dir ++ "ff.S050.bin64") (cl_kbp_ff cl) ∧
   kbp_atomlist args = default (dir ++ "kbp_atomlist") (cl_kbp_atomlist cl) ∧
   kbp_kbt args = default kbpkbt_default (cl_kbp_kbt cl)) ∧
  (top args = cl_top cl ∧ trj args = cl_trj cl ∧ ref args = cl_ref cl).

End Shape.

(* ===================================================================== *)
(** * More about the script: the arguments of the scans *)
(* ===================================================================== *)

Module Passed.
Import Py Driver Asked.

(** The two selections of the hydrogen-bond scan, read off the command
    line: the custom groups when both are given, whatever the class;
    otherwise those of the class, a lone custom group being ignored. *)
Definition selections_of (cl : cmdline) : option string * option string :=
  let g1 := cl_hb_group1 cl in
  let g2 := cl_hb_group2 cl in
  let cls := default hbclass_default (cl_hb_class cl) in
  if bool_decide (is_Some g1) && bool_decide (is_Some g2) then (g1, g2)
  else if String.eqb cls "all" then (Some "protein", Some "protein")
  else if String.eqb cls "mc-mc" then (Some mc_sel, Some mc_sel)
  else if String.eqb cls "sc-sc" then (Some sc_sel, Some sc_sel)
  else if String.eqb cls "mc-sc" then (Some mc_sel, Some sc_sel)
  else (g1, g2).

(** The force-field file of the masses. *)
Definition ffmasses_of (os : OS) (cl : cmdline) : string :=
  path_join (INSTALL_DIR os ++ ff_masses_dir)
            (default ffmasses_default (cl_ffmasses cl)).

(** A scan whose arguments are those of the command line, with the
    defaults of the parser for what was not given, and which asks for
    the matrix exactly when a graph file was named. *)
Definition scan_as_asked {U} (li : Libinteract U) (os : OS) (cl : cmdline)
           (e : event U) : Prop :=
  match e with
  | Scan_dointeract c =>
      di_identfunc c = generateSCIdentifiers ∧
      di_co c = default hcco_default (cl_hc_co cl) ∧
      di_perco c = default 0%Q (cl_hc_perco cl) ∧
      di_ffmasses c = ffmasses_of os cl ∧
      di_reslist c = Some (default hc_reslist_default (cl_hc_reslist cl)) ∧
      di_mindist c = false ∧ di_mindist_mode c = None ∧ di_cgs c = None ∧
      di_fullmatrix c = match cl_hc_graph cl with
                        | Some _ => Some SCFullmatrix
                        | None => None
                        end
  | Scan_dohbonds c =>
      (dh_sel1 c, dh_sel2 c) = selections_of cl ∧
      dh_distance c = default hbco_default (cl_hb_co cl) ∧
      dh_angle c = default hbang_default (cl_hb_angle cl) ∧
      dh_perco c = default hbperco_default (cl_hb_perco cl) ∧
      dh_dofullmatrix c = bool_decide (is_Some (cl_hb_graph cl)) ∧
      parse_hbs_file (cfg_read os) (hbs_file_of os cl)
      = Return (dh_other_hbs c)
  | Scan_dopotential c =>
      parse_atomlist li
        (default (INSTALL_DIR os ++ "kbp_atomlist") (cl_kbp_atomlist cl))
      = Return (dp_kbp_atomlist c) ∧
      dp_residues_list c = kbp_residues_list ∧
      dp_potential_file c
      = default (INSTALL_DIR os ++ "ff.S050.bin64") (cl_kbp_ff cl) ∧
      dp_kbT c = default kbpkbt_default (cl_kbp_kbt cl) ∧
      dp_dofullmatrix c = bool_decide (is_Some (cl_kbp_graph cl))
  | Write_str2file _ _ _ | Write_savetxt _ _ _ _ => True
  end.

End Passed.

(* ===================================================================== *)
(** * More about the script: how a run ends *)
(* ===================================================================== *)

Module Ending.
Import Py Driver.



(** An outcome that, if it is a failure, has exit status 1. *)
Definition status_1 {A} (r : result A) : Prop :=
  match r with
  | Return _ => True
  | Raise _ => exit_status r = 1
  end.

End Ending.

(* ===================================================================== *)
(** * Every invocation of the program *)
(* ===================================================================== *)

Module Invocation.
Import Py Driver.




End Invocation.

(* ===================================================================== *)
(** * Configuration errors *)
(* ===================================================================== *)

Module Config.
Import Py Driver Asked.

(** The place of an analysis in the script. *)
Definition position (a : analysis) : nat :=
  match a with
  | HC => 0
  | SB => 1
  | HB => 2
  | KBP => 3
  end.

Definition script_before (a b : analysis) : Prop :=
  (position a < position b)%nat.

(** The block of an analysis. *)
Definition block {U} (li : Libinteract U) (os : OS) (args : Args)
           (pdb uni : U) (ffmasses : string) (a : analysis) : proc U unit :=
  match a with
  | HC => hydrophobic_contacts li args pdb uni ffmasses
  | SB => salt_bridges li os args pdb uni ffmasses
  | HB => hydrogen_bonds li os args pdb uni
  | KBP => statistical_potential li args pdb uni
  end.

(** The atom-list file and the potential file a command line names. *)
Definition atomlist_of (os : OS) (cl : cmdline) : string :=
  default (INSTALL_DIR os ++ "kbp_atomlist") (cl_kbp_atomlist cl).

Definition potential_of (os : OS) (cl : cmdline) : string :=
  default (INSTALL_DIR os ++ "ff.S050.bin64") (cl_kbp_ff cl).

(** A configuration error of a requested analysis: the charged-groups
    file of the salt bridges or the donors-acceptors file of the
    hydrogen bonds cannot be parsed; the atom-list file of the potential
    cannot be parsed, or the library refuses its potential file.  The
    hydrophobic contacts read no configuration file. *)
Definition config_error {U} (li : Libinteract U) (os : OS) (cl : cmdline)
           (a : analysis) : Prop :=
  requested cl a = true ∧
  match a with
  | HC => False
  | SB => ∃ e, parse_cgs_file (cfg_read os) (cgs_file_of os cl) = Raise e
  | HB => ∃ e, parse_hbs_file (cfg_read os) (hbs_file_of os cl) = Raise e
  | KBP =>
      (∃ e, parse_atomlist li (atomlist_of os cl) = Raise e) ∨
      (∀ c, dp_potential_file c = potential_of os cl →
            ∃ e, dopotential li c = Raise e)
  end.

(** An event that is not a file of analysis [a] or of a later one. *)
Definition no_output_from {U} (a : analysis) (e : event U) : Prop :=
  match e with
  | Write_str2file b _ _ | Write_savetxt b _ _ _ => script_before b a
  | Scan_dointeract _ | Scan_dohbonds _ | Scan_dopotential _ => True
  end.

End Config.

(* ===================================================================== *)
(** * More sample command lines *)
(* ===================================================================== *)

Module MoreSamples.
Import Py.

(** [-f -y --hb-ad-file charged_groups.ini]: hydrophobic contacts, then
    hydrogen bonds with a donors-acceptors file that lacks the section
    HYDROGEN_BONDS. *)
Definition cl_hc_hb_wrong_file : Driver.cmdline :=
  let c := Samples.cl_none in {|
  Driver.cl_top := Driver.cl_top c; Driver.cl_trj := Driver.cl_trj c;
  Driver.cl_ref := None;
  Driver.cl_do_sb := false; Driver.cl_do_hc := true;
  Driver.cl_do_hb := true; Driver.cl_do_kbp := false;
  Driver.cl_hc_reslist := None;
  Driver.cl_hc_co := None; Driver.cl_hc_perco := None;
  Driver.cl_hc_dat := None; Driver.cl_hc_graph := None;
  Driver.cl_sb_co := None; Driver.cl_sb_perco := None;
  Driver.cl_sb_dat := None; Driver.cl_sb_graph := None;
  Driver.cl_cgs_file := None; Driver.cl_cgs_mode := None;
  Driver.cl_hb_co := None; Driver.cl_hb_angle := None;
  Driver.cl_hb_dat := None; Driver.cl_hb_graph := None;
  Driver.cl_hb_perco := None; Driver.cl_hb_class := None;
  Driver.cl_hbs_file := Some "charged_groups.ini";
  Driver.cl_hb_group1 := None; Driver.cl_hb_group2 := None;
  Driver.cl_kbp_ff := None; Driver.cl_kbp_atomlist := None;
  Driver.cl_kbp_dat := None; Driver.cl_kbp_graph := None;
  Driver.cl_kbp_kbt := None;
  Driver.cl_ffmasses := None;
  Driver.cl_verbose := false
|}.

(** [-b --sb-mode same_charge], with a well-formed charged-groups
    file. *)
Definition cl_sb_same : Driver.cmdline :=
  let c := Samples.cl_none in {|
  Driver.cl_top := Driver.cl_top c; Driver.cl_trj := Driver.cl_trj c;
  Driver.cl_ref := None;
  Driver.cl_do_sb := true; Driver.cl_do_hc := false;
  Driver.cl_do_hb := false; Driver.cl_do_kbp := false;
  Driver.cl_hc_reslist := None;
  Driver.cl_hc_co := None; Driver.cl_hc_perco := None;
  Driver.cl_hc_dat := None; Driver.cl_hc_graph := None;
  Driver.cl_sb_co := None; Driver.cl_sb_perco := None;
  Driver.cl_sb_dat := None; Driver.cl_sb_graph := None;
  Driver.cl_cgs_file := Some "charged_groups.ini";
  Driver.cl_cgs_mode := Some "same_charge";
  Driver.cl_hb_co := None; Driver.cl_hb_angle := None;
  Driver.cl_hb_dat := None; Driver.cl_hb_graph := None;
  Driver.cl_hb_perco := None; Driver.cl_hb_class := None;
  Driver.cl_hbs_file := None;
  Driver.cl_hb_group1 := None; Driver.cl_hb_group2 := None;
  Driver.cl_kbp_ff := None; Driver.cl_kbp_atomlist := None;
  Driver.cl_kbp_dat := None; Driver.cl_kbp_graph := None;
  Driver.cl_kbp_kbt := None;
  Driver.cl_ffmasses := None;
  Driver.cl_verbose := false
|}.

End MoreSamples.

(* ===================================================================== *)
(** * What the reference parser of the test suite returns *)
(* ===================================================================== *)

Module Reference.
Import Py.

(** The names a comma-separated value lists. *)
Definition names_of (v : string) : list string :=
  map Str.strip (Str.split "," v).

(** [atoms] is what the section CHARGED_GROUPS of the file gives for
    the group. *)
Definition atoms_of (cfg : ConfigParser.t) (group : string)
           (atoms : list string) : Prop :=
  ∃ v, ConfigParser.get cfg "CHARGED_GROUPS" group = Return v ∧
       atoms = names_of v.

(** The entry of a residue: its groups are the default ones and those
    the section RESIDUES lists for it, each with its atoms. *)
Definition residue_entry (cfg : ConfigParser.t) (dflt res : string)
           (d : gmap string (list string)) : Prop :=
  ∃ v, ConfigParser.get cfg "RESIDUES" res = Return v ∧
       dom d = (list_to_set (names_of dflt)
                ∪ list_to_set (filter (λ j, j ≠ "") (names_of v))
                : gset string) ∧
       ∀ j atoms, d !! j = Some atoms → atoms_of cfg j atoms.

End Reference.

(* ===================================================================== *)
(** * More about the script: where what is written comes from *)
(* ===================================================================== *)

Module Written.
Import Py Driver.

(** What the library returned for a scan. *)
Definition scan_result {U} (li : Libinteract U) (e : event U)
  : option (libresult (string * option Np.Matrix)) :=
  match e with
  | Scan_dointeract c => Some (dointeract li c)
  | Scan_dohbonds c => Some (dohbonds li c)
  | Scan_dopotential c => Some (dopotential li c)
  | Write_str2file _ _ _ | Write_savetxt _ _ _ _ => None
  end.

(** The systems a scan works on. *)
Definition systems_of {U} (e : event U) : option (U * U) :=
  match e with
  | Scan_dointeract c => Some (di_pdb c, di_uni c)
  | Scan_dohbonds c => Some (dh_pdb c, dh_uni c)
  | Scan_dopotential c => Some (dp_pdb c, dp_uni c)
  | Write_str2file _ _ _ | Write_savetxt _ _ _ _ => None
  end.

(** A file written holds what a scan of its analysis in the trace [l]
    returned: the text for a report, the matrix for a matrix file. *)
Definition holds_result {U} (li : Libinteract U) (l : list (event U))
           (w : event U) : Prop :=
  match w with
  | Write_str2file a _ s =>
      ∃ scan m, scan ∈ l ∧ block_of scan = a ∧
                scan_result li scan = Some (Return (s, m))
  | Write_savetxt a _ X _ =>
      ∃ scan s, scan ∈ l ∧ block_of scan = a ∧
                scan_result li scan = Some (Return (s, Some X))
  | Scan_dointeract _ | Scan_dohbonds _ | Scan_dopotential _ => True
  end.

(** Every file written in [l] holds the result of a scan in [l]. *)
Definition results_ok {U} (li : Libinteract U) (r : result unit)
           (l : list (event U)) : Prop :=
  Forall (holds_result li l) l.

(** The systems [loadsys] returns for a command line: the topology is
    the reference when none is given. *)
Definition loaded {U} (li : Libinteract U) (cl : cmdline) (sys : U * U)
  : Prop :=
  ∃ top trj, cl_top cl = Some top ∧ cl_trj cl = Some trj ∧
             loadsys li (default top (cl_ref cl)) top trj = Return sys.

End Written.

(* ===================================================================== *)
(** * The charged-groups parser *)
(* ===================================================================== *)

Lemma remove_first_mem (x : string) (l : list string) :
  Str.mem x l = true → ∃ l', Py.remove_first x l = Some l'.
Proof.
  induction l as [|y l IH]; [done|].
  unfold Str.mem. simpl. rewrite (String.eqb_sym y x).
  destruct (String.eqb x y); [by eexists|].
  intros Hmem. destruct (IH Hmem) as [l' ->]. by eexists.
Qed.

Section ParseCgs.
Import Py.
Variable cfg_read : string -> libresult ConfigParser.t.

(** The first comprehension of the driver's parser iterates over the
    value of [list.remove], which is [None]: whatever the file holds,
    the call ends in an exception or in [exit(1)]. *)
Lemma parse_cgs_file_raises (fname : string) :
  (∃ e, Driver.parse_cgs_file cfg_read fname = Raise (Exc e)) ∨
  Driver.parse_cgs_file cfg_read fname = Raise (SystemExit 1).
Proof.
  unfold Driver.parse_cgs_file.
  destruct (cfg_read fname) as [cfg|e]; cbn; [|by right].
  left.
  destruct (ConfigParser.options cfg "CHARGED_GROUPS") as [opts|e]; cbn;
    [|by eexists].
  destruct (list_remove opts "default_charged_groups") as [[l n]|e]; cbn;
    by eexists.
Qed.

Lemma parse_cgs_file_never_returns (fname : string) :
  ∀ out, Driver.parse_cgs_file cfg_read fname ≠ Return out.
Proof.
  intros out. destruct (parse_cgs_file_raises fname) as [[e ->]| ->]; done.
Qed.

Lemma parse_cgs_file_status (fname : string) :
  exit_status (Driver.parse_cgs_file cfg_read fname) = 1.
Proof.
  destruct (parse_cgs_file_raises fname) as [[e ->]| ->]; done.
Qed.

(** On a file that can be read and has the section and the option, the
    exception is the [TypeError] of iterating over [None]. *)
Lemma parse_cgs_file_TypeError (fname : string) cfg opts :
  cfg_read fname = Return cfg →
  ConfigParser.options cfg "CHARGED_GROUPS" = Return opts →
  Str.mem "default_charged_groups" opts = true →
  Driver.parse_cgs_file cfg_read fname = Raise (Exc TypeError).
Proof.
  intros Hread Hopts Hmem. unfold Driver.parse_cgs_file.
  rewrite Hread; cbn. rewrite Hopts; cbn.
  destruct (remove_first_mem _ _ Hmem) as [l Hl].
  unfold list_remove. rewrite Hl. done.
Qed.
End ParseCgs.

(** C1 (the code against the claim). On the sample file the driver's
    [parse_cgs_file] returns no dictionary: it raises [TypeError], where
    the reference parser of the test suite returns the dictionary from each
    upper-cased residue name to its charged groups. *)
Theorem parse_cgs_file_driver_diverges :
  Driver.parse_cgs_file Samples.read_sample "charged_groups.ini"
    = Py.Raise (Py.Exc Py.TypeError) ∧
  TestSuite.parse_cgs_file Samples.read_sample "charged_groups.ini"
    = Py.Return Samples.charged_groups_expected.
Proof. split; vm_compute; reflexivity. Qed.

(* ===================================================================== *)
(** * Traces of the script *)
(* ===================================================================== *)

Section Steps.
Import Py Driver.

Context {U : Type}.
Implicit Types (P : event U → Prop).

Lemma steps_pure {A} (r : result A) P (Q : result A → Prop) :
  Q r → steps (pure r) P Q.
Proof. intros HQ tr. exists []. by rewrite app_nil_r. Qed.

Lemma steps_ret {A} (v : A) P (Q : result A → Prop) :
  Q (Return v) → steps (mret v : proc U A) P Q.
Proof. apply steps_pure. Qed.

Lemma steps_emit (e : event U) P (Q : result unit → Prop) :
  P e → Q (Return tt) → steps (emit e) P Q.
Proof. intros HP HQ tr. exists [e]. repeat split; auto. Qed.

Lemma steps_bind {A B} (m : proc U A) (k : A → proc U B) P
      (Q1 : result A → Prop) (Q2 : result B → Prop) :
  steps m P Q1 →
  (∀ v, Q1 (Return v) → steps (k v) P Q2) →
  (∀ e, Q1 (Raise e) → Q2 (Raise e)) →
  steps (m ≫= k) P Q2.
Proof.
  intros Hm Hk He tr. destruct (Hm tr) as (new1 & Htr1 & Hnew1 & HQ1).
  unfold mbind, proc_bind, then_.
  destruct (m tr) as [[v|e] tr1]; simpl in *; subst tr1.
  - destruct (Hk v HQ1 (tr ++ new1)%list) as (new2 & Htr2 & Hnew2 & HQ2).
    exists (new1 ++ new2)%list. rewrite Htr2, app_assoc.
    split; [done|]. split; [by apply Forall_app|done].
  - exists new1. auto.
Qed.

Lemma steps_emit_then {B} (e : event U) (k : unit → proc U B) P
      (Q : result B → Prop) :
  P e → steps (k tt) P Q → steps (emit e ≫= k) P Q.
Proof.
  intros HP Hk.
  apply (steps_bind _ _ _ (λ r, r = Return tt)); [by apply steps_emit|..].
  - by intros [] _.
  - by intros e' [=].
Qed.

Lemma steps_pure_then {A B} (r : result A) (k : A → proc U B) P
      (Q : result B → Prop) :
  (∀ v, r = Return v → steps (k v) P Q) →
  (∀ e, r = Raise e → Q (Raise e)) →
  steps (pure r ≫= k) P Q.
Proof.
  intros Hk He. apply (steps_bind _ _ _ (λ r', r' = r)); [by apply steps_pure|..].
  - intros v <-. by apply Hk.
  - intros e <-. by apply He.
Qed.

Lemma steps_lift_then {A B} (r : libresult A) (k : A → proc U B) P
      (Q : result B → Prop) :
  (∀ v, r = Return v → steps (k v) P Q) →
  (∀ e, r = Raise e → Q (Raise (Exc e))) →
  steps (pure (lift r) ≫= k) P Q.
Proof.
  intros Hk He. apply steps_pure_then; destruct r; naive_solver.
Qed.

Lemma steps_weaken {A} (p : proc U A) P P' (Q Q' : result A → Prop) :
  steps p P Q → (∀ e, P e → P' e) → (∀ r, Q r → Q' r) → steps p P' Q'.
Proof.
  intros Hp HP HQ tr. destruct (Hp tr) as (new & ? & Hnew & ?).
  exists new. split; [done|]. split; [|auto].
  eapply Forall_impl; eauto.
Qed.

Lemma steps_Forall {A} (p : proc U A) P Q tr :
  steps p P Q → Forall P tr → Forall P (p tr).2.
Proof.
  intros Hp Htr. destruct (Hp tr) as (new & -> & Hnew & _).
  by apply Forall_app.
Qed.

Lemma steps_outcome {A} (p : proc U A) P Q tr : steps p P Q → Q (p tr).1.
Proof. intros Hp. by destruct (Hp tr) as (new & _ & _ & ?). Qed.

Lemma fails_nonzero_lift {A} (r : libresult A) : fails_nonzero (lift r).
Proof. by destruct r. Qed.

Lemma fails_nonzero_or_exit {A} (r : result A) : fails_nonzero (or_exit r).
Proof. by destruct r. Qed.

Lemma fails_nonzero_raise {A B} (e : raised) :
  fails_nonzero (Raise e : result A) → fails_nonzero (Raise e : result B).
Proof. done. Qed.
End Steps.

Section Blocks.
Import Py Driver.
Context {U : Type} (li : Libinteract U) (os : OS).
Implicit Types (args : Args) (pdb uni : U).

Lemma save_mat_steps a graph mat :
  steps (save_mat a graph mat (match a with KBP => "%.3f" | _ => "%.1f" end))
        (λ e : event U, block_of e = a ∧ event_ok e) fails_nonzero.
Proof.
  destruct mat as [X|]; [|by apply steps_ret].
  destruct graph as [f|]; [|by apply steps_pure].
  apply steps_emit; [|done]. by destruct a.
Qed.

Lemma hydrophobic_contacts_steps args pdb uni ff :
  steps (hydrophobic_contacts li args pdb uni ff)
        (λ e, block_of e = HC ∧ event_ok e) fails_nonzero.
Proof.
  unfold hydrophobic_contacts. destruct (do_hc args); [|by apply steps_ret].
  apply steps_emit_then; [done|].
  apply steps_lift_then; [|done].
  intros [str_out mat] _.
  apply steps_emit_then; [done|].
  apply (save_mat_steps HC).
Qed.

Lemma salt_bridges_scan_steps cgs args pdb uni ff :
  steps (salt_bridges_scan li cgs args pdb uni ff)
        (λ e, block_of e = SB ∧ event_ok e) fails_nonzero.
Proof.
  unfold salt_bridges_scan.
  apply steps_emit_then; [done|].
  apply steps_lift_then; [|done].
  intros [str_out mat] _.
  apply steps_emit_then; [done|].
  apply (save_mat_steps SB).
Qed.

(** With the salt bridges requested, the block stops at the parser's
    failure, before any event. *)
Lemma salt_bridges_fails args pdb uni ff e tr :
  do_sb args = true →
  parse_cgs_file (cfg_read os) (cgs_file args) = Raise e →
  salt_bridges li os args pdb uni ff tr = (Raise e, tr).
Proof.
  intros Hsb He. unfold salt_bridges. rewrite Hsb.
  unfold mbind, proc_bind, then_, pure. by rewrite He.
Qed.

Lemma salt_bridges_steps args pdb uni ff :
  steps (salt_bridges li os args pdb uni ff)
        (λ e, block_of e = SB ∧ event_ok e) fails_nonzero.
Proof.
  unfold salt_bridges. destruct (do_sb args); [|by apply steps_ret].
  apply steps_pure_then.
  - intros cgs _. apply salt_bridges_scan_steps.
  - intros e He.
    destruct (parse_cgs_file_raises (cfg_read os) (cgs_file args))
      as [[e' He']|He']; rewrite He' in He; by simplify_eq.
Qed.

Lemma hb_groups_fails_nonzero uni cls g1 g2 :
  fails_nonzero (hb_groups li uni cls g1 g2).
Proof.
  unfold hb_groups.
  repeat match goal with
         | |- context [String.eqb ?a ?b] => destruct (String.eqb a b)
         end; try done.
  destruct g1 as [s1|], g2 as [s2|]; try done.
  destruct (selectAtoms li uni s1) as [l1|]; [|done].
  destruct (selectAtoms li uni s2) as [l2|]; [|done]. cbn.
  by repeat case_match.
Qed.

Lemma hydrogen_bonds_steps args pdb uni :
  steps (hydrogen_bonds li os args pdb uni)
        (λ e, block_of e = HB ∧ event_ok e) fails_nonzero.
Proof.
  unfold hydrogen_bonds. destruct (do_hb args); [|by apply steps_ret].
  apply steps_pure_then.
  2:{ intros e He. pose proof (hb_groups_fails_nonzero uni
        (hb_class_in_effect args) (hb_group1 args) (hb_group2 args)) as H.
      by rewrite He in H. }
  intros [g1 g2] _.
  apply steps_pure_then.
  2:{ intros e He.
      pose proof (fails_nonzero_or_exit
        (parse_hbs_file (cfg_read os) (hbs_file args))) as H.
      by rewrite He in H. }
  intros hbs _.
  apply steps_emit_then; [done|].
  apply steps_lift_then; [|done].
  intros [str_out mat] _.
  apply steps_emit_then; [done|].
  apply (save_mat_steps HB).
Qed.

Lemma statistical_potential_steps args pdb uni :
  steps (statistical_potential li args pdb uni)
        (λ e, block_of e = KBP ∧ event_ok e) fails_nonzero.
Proof.
  unfold statistical_potential. destruct (do_kbp args); [|by apply steps_ret].
  apply steps_lift_then; [|done]. intros atomlist _.
  apply steps_emit_then; [done|].
  apply steps_lift_then; [|done].
  intros [str_out mat] _.
  apply steps_emit_then; [done|].
  apply (save_mat_steps KBP).
Qed.

Lemma analyses_steps args pdb uni ff :
  steps (analyses li os args pdb uni ff) event_ok fails_nonzero.
Proof.
  unfold analyses.
  eapply steps_bind; [|intros _ _|intros e He; exact He].
  { eapply steps_weaken; [apply hydrophobic_contacts_steps|by intros ? []|done]. }
  eapply steps_bind; [|intros _ _|intros e He; exact He].
  { eapply steps_weaken; [apply salt_bridges_steps|by intros ? []|done]. }
  eapply steps_bind; [|intros _ _|intros e He; exact He].
  { eapply steps_weaken; [apply hydrogen_bonds_steps|by intros ? []|done]. }
  eapply steps_weaken; [apply statistical_potential_steps|by intros ? []|done].
Qed.

Lemma choice_fails_nonzero choices default given :
  fails_nonzero (choice choices default given).
Proof. unfold choice. by repeat case_match. Qed.

Lemma parse_args_fails_nonzero dir files cl :
  fails_nonzero (parse_args dir files cl).
Proof.
  unfold parse_args.
  destruct (choice sbmode_choices _ _) eqn:H1;
    [|by pose proof (choice_fails_nonzero sbmode_choices sbmode_default
                       (cl_cgs_mode cl)) as H; rewrite H1 in H].
  destruct (choice hbclass_choices _ _) eqn:H2;
    [|by pose proof (choice_fails_nonzero hbclass_choices hbclass_default
                       (cl_hb_class cl)) as H; rewrite H2 in H].
  destruct (choice files _ _) eqn:H3;
    [|by pose proof (choice_fails_nonzero files ffmasses_default
                       (cl_ffmasses cl)) as H; rewrite H3 in H].
  done.
Qed.

Lemma load_systems_fails_nonzero args :
  fails_nonzero (load_systems li args).
Proof. unfold load_systems. by repeat case_match. Qed.

Lemma pyinteraph_steps cl :
  steps (pyinteraph li os cl) event_ok fails_nonzero.
Proof.
  unfold pyinteraph.
  apply steps_lift_then; [|done]. intros files _.
  apply steps_pure_then.
  2:{ intros e He. pose proof (parse_args_fails_nonzero (INSTALL_DIR os)
                                 files cl) as H. by rewrite He in H. }
  intros args _.
  apply steps_pure_then.
  2:{ intros e He. pose proof (load_systems_fails_nonzero args) as H.
      by rewrite He in H. }
  intros [pdb uni] _. apply analyses_steps.
Qed.
End Blocks.

(* ===================================================================== *)
(** * The text of a matrix file *)
(* ===================================================================== *)

Section FixedPoint.
Import Np.

Lemma append_cons c (s1 s2 : string) :
  String c s1 ++ s2 = String c (s1 ++ s2).
Proof. reflexivity. Qed.

Lemma all_digits_app (s1 s2 : string) :
  all_digits (s1 ++ s2) = all_digits s1 && all_digits s2.
Proof.
  induction s1 as [|c s1 IH]; [done|].
  rewrite append_cons. simpl. by rewrite IH, andb_assoc.
Qed.

Lemma length_app (s1 s2 : string) :
  String.length (s1 ++ s2) = (String.length s1 + String.length s2)%nat.
Proof.
  induction s1 as [|c s1 IH]; [done|].
  rewrite append_cons. simpl. by rewrite IH.
Qed.

Lemma digit_char_is_digit (n : Z) : is_digit (digit_char n) = true.
Proof.
  unfold digit_char.
  assert (0 <= n mod 10 < 10) as Hn by (apply Z.mod_pos_bound; lia).
  destruct (n mod 10) as [|p|p]; [done| |lia].
  do 4 (try destruct p as [p|p|]); try lia; done.
Qed.

Lemma low_digits_all_digits (d : nat) (n : Z) :
  all_digits (low_digits d n) = true.
Proof.
  revert n. induction d as [|d IH]; intros n; [done|]. simpl.
  rewrite all_digits_app, IH. simpl. by rewrite digit_char_is_digit.
Qed.

Lemma low_digits_length (d : nat) (n : Z) :
  String.length (low_digits d n) = d.
Proof.
  revert n. induction d as [|d IH]; intros n; [done|]. simpl.
  rewrite length_app, IH. simpl. lia.
Qed.

Lemma string_of_uint_all_digits (u : Decimal.uint) :
  all_digits (NilEmpty.string_of_uint u) = true.
Proof. induction u; simpl; auto. Qed.

Lemma nat_digits_all_digits (n : Z) : all_digits (nat_digits n) = true.
Proof.
  unfold nat_digits, NilZero.string_of_uint.
  destruct (N.to_uint _) eqn:E; try done;
    rewrite <- E at 1; simpl; apply (string_of_uint_all_digits (_ _)).
Qed.

(** The point of a number's text is the first one after a prefix of
    digits and a sign. *)
Lemma after_point_digits (s f : string) :
  all_digits s = true → after_point (s ++ "." ++ f) = Some f.
Proof.
  induction s as [|c s IH]; [done|].
  rewrite append_cons. simpl. intros [Hc Hs]%andb_true_iff.
  destruct (Ascii.eqb_spec c "."); [by subst|]. by apply IH.
Qed.

Lemma after_point_signed (s f : string) :
  all_digits s = true → after_point ("-" ++ s ++ "." ++ f) = Some f.
Proof. intros Hs. rewrite append_cons. simpl. by apply after_point_digits. Qed.

(** ['%.<d>f' % x] has exactly [d] decimal places, for [d] at least 1. *)
Lemma format_fixed_decimal_places (d : nat) (x : Q) :
  decimal_places (format_fixed (S d) x) = Some (S d).
Proof.
  unfold format_fixed, decimal_places.
  set (n := round_half_even _ _). set (ip := nat_digits _).
  assert (all_digits ip = true) as Hip by apply nat_digits_all_digits.
  assert (after_point
            ((if (Qnum x <? 0)%Z then "-" else "") ++ ip ++ "." ++
             low_digits (S d) n) = Some (low_digits (S d) n)) as ->.
  { destruct (Qnum x <? 0)%Z;
      [by apply after_point_signed|by apply after_point_digits]. }
  by rewrite low_digits_all_digits, low_digits_length.
Qed.

Lemma percent_decimal_places (fmt : string) (d : nat) (x : Q) (cell : string) :
  precision_of fmt = Some (S d) → percent fmt x = Some cell →
  decimal_places cell = Some (S d).
Proof.
  unfold percent. intros ->. simpl. intros [= <-].
  apply format_fixed_decimal_places.
Qed.

(** Every cell of a matrix written with ["%.<d>f"] has [d] decimal
    places, and such a matrix can always be written. *)
Lemma savetxt_cells_decimal_places (X : Matrix) (fmt : string) (d : nat) :
  precision_of fmt = Some (S d) →
  ∃ cells, savetxt_cells X fmt = Some cells ∧
           savetxt_text X fmt = Some (layout cells) ∧
           Forall (Forall (λ cell, decimal_places cell = Some (S d))) cells.
Proof.
  intros Hfmt. unfold savetxt_text, savetxt_cells.
  assert (∀ x, percent fmt x = Some (format_fixed (S d) x)) as Hcell.
  { intros x. unfold percent. by rewrite Hfmt. }
  exists (map (map (format_fixed (S d))) X).
  assert (mapM (mapM (percent fmt)) X
          = Some (map (map (format_fixed (S d))) X)) as ->.
  { apply mapM_Some_2, Forall2_fmap_r, Forall_Forall2_diag, Forall_forall.
    intros row _.
    apply mapM_Some_2, Forall2_fmap_r, Forall_Forall2_diag, Forall_forall.
    intros x _. apply Hcell. }
  split; [done|]. split; [done|].
  apply Forall_fmap, Forall_forall. intros row _.
  apply Forall_fmap, Forall_forall. intros x _.
  apply format_fixed_decimal_places.
Qed.
End FixedPoint.

(* ===================================================================== *)
(** * What every run of the script does *)
(* ===================================================================== *)

Section Runs.
Import Py Driver.
Context {U : Type} (li : Libinteract U) (os : OS).

Lemma run_events_ok (cl : cmdline) : Forall event_ok (run li os cl).2.
Proof. apply (steps_Forall _ _ _ _ (pyinteraph_steps li os cl)). constructor. Qed.

Lemma run_fails_nonzero (cl : cmdline) : fails_nonzero (run li os cl).1.
Proof. apply (steps_outcome _ _ _ _ (pyinteraph_steps li os cl)). Qed.

Lemma hbond_scans_ok (tr : list (event U)) :
  Forall event_ok tr → Forall (λ c, dh_perresidue c = false) (hbond_scans tr).
Proof.
  induction 1 as [|e tr He _ IH]; [constructor|].
  destruct e; simpl; auto.
Qed.

Lemma potential_scans_ok (tr : list (event U)) :
  Forall event_ok tr → Forall (λ c, dp_seq_dist_co c = 0) (potential_scans tr).
Proof.
  induction 1 as [|e tr He _ IH]; [constructor|].
  destruct e; simpl; auto.
Qed.

Lemma matrix_writes_ok (tr : list (event U)) :
  Forall event_ok tr → Forall written_with_decimals (matrix_writes tr).
Proof.
  induction 1 as [|e tr He _ IH]; [constructor|].
  destruct e as [| | | |a f X fmt]; simpl; auto.
  constructor; [|done]. simpl in He. unfold written_with_decimals.
  destruct a; by apply savetxt_cells_decimal_places.
Qed.
End Runs.

(** The sequence-distance test with cutoff 0 lets through every pair of
    residues with different numbers and only those. *)
Lemma seq_dist_eligible_zero (i j : Z) :
  Libinteract.Potential.seq_dist_eligible 0 i j = true ↔ i ≠ j.
Proof. unfold Libinteract.Potential.seq_dist_eligible. lia. Qed.

(** C6. Every adjacency-matrix file the driver writes for hydrophobic
    contacts, salt bridges and hydrogen bonds has exactly 1 decimal place
    per value, and the statistical-potential matrix exactly 3: this holds
    of every matrix written in a run of the script and, for the salt
    bridges, of every matrix written by the part of the block that
    follows the parsing of the charged groups. *)
Theorem matrix_files_decimals {U} (li : Driver.Libinteract U) (os : Driver.OS)
        (cl : Driver.cmdline) :
  Driver.matrix_decimals Driver.HC = 1%nat ∧
  Driver.matrix_decimals Driver.SB = 1%nat ∧
  Driver.matrix_decimals Driver.HB = 1%nat ∧
  Driver.matrix_decimals Driver.KBP = 3%nat ∧
  Forall Driver.written_with_decimals
         (Driver.matrix_writes (Driver.run li os cl).2) ∧
  ∀ cgs args pdb uni ffmasses,
    Forall Driver.written_with_decimals
           (Driver.matrix_writes
              (Driver.salt_bridges_scan li cgs args pdb uni ffmasses []).2).
Proof.
  repeat (split; [reflexivity|]). split.
  - apply matrix_writes_ok, run_events_ok.
  - intros. apply matrix_writes_ok.
    eapply steps_Forall; [|constructor].
    eapply steps_weaken; [apply salt_bridges_scan_steps|by intros ? []|done].
Qed.

(** C8. Every call of the statistical-potential analysis in a run of the
    driver has sequence-distance cutoff 0, and with that cutoff the
    sequence-distance test excludes a residue pair only when the two
    residue numbers are equal. *)
Theorem potential_seq_dist_cutoff_zero {U} (li : Driver.Libinteract U)
        (os : Driver.OS) (cl : Driver.cmdline) :
  Forall (λ c, Driver.dp_seq_dist_co c = 0 ∧
               ∀ i j, Libinteract.Potential.seq_dist_eligible
                        (Driver.dp_seq_dist_co c) i j = true ↔ i ≠ j)
         (Driver.potential_scans (Driver.run li os cl).2).
Proof.
  eapply Forall_impl; [apply potential_scans_ok, run_events_ok|].
  intros c Hc. split; [done|]. intros i j. rewrite Hc.
  apply seq_dist_eligible_zero.
Qed.

(** C10. Every call of [dohbonds] in a run of the driver passes
    [perresidue = False]. *)
Theorem hbonds_never_per_residue {U} (li : Driver.Libinteract U)
        (os : Driver.OS) (cl : Driver.cmdline) :
  Forall (λ c, Driver.dh_perresidue c = false)
         (Driver.hbond_scans (Driver.run li os cl).2).
Proof. apply hbond_scans_ok, run_events_ok. Qed.

(** The three theorems speak of runs that do scan and write: the sample
    run with hydrogen bonds and potential, both with a matrix. *)
Example sample_run_hb_kbp :
  let r := Driver.run Samples.li Samples.os (Samples.cl_hb_kbp None None None) in
  r.1 = Py.Return tt ∧
  map Driver.dh_perresidue (Driver.hbond_scans r.2) = [false] ∧
  map Driver.dp_seq_dist_co (Driver.potential_scans r.2) = [0] ∧
  omap (λ '(_, f, X, fmt), pair f <$> Np.savetxt_text X fmt)
       (Driver.matrix_writes r.2)
  = [ ("hb-graph.dat", "0.0 12.5" ++ Np.newline ++ "12.5 0.0" ++ Np.newline);
      ("kbp-graph.dat",
       "0.000 12.500" ++ Np.newline ++ "12.500 0.000" ++ Np.newline) ].
Proof. vm_compute. repeat split. Qed.

(* ===================================================================== *)
(** * The command line *)
(* ===================================================================== *)

Section CommandLine.
Import Py Driver.

(** What [parse_args] copies from the command line. *)
Lemma parse_args_fields dir files cl args :
  parse_args dir files cl = Return args →
  do_hc args = cl_do_hc cl ∧ do_sb args = cl_do_sb cl ∧
  do_hb args = cl_do_hb cl ∧ do_kbp args = cl_do_kbp cl ∧
  cgs_file args = default (dir ++ "charged_groups.ini") (cl_cgs_file cl) ∧
  choice sbmode_choices sbmode_default (cl_cgs_mode cl)
    = Return (cgs_mode args) ∧
  choice hbclass_choices hbclass_default (cl_hb_class cl)
    = Return (hb_class args) ∧
  hb_group1 args = cl_hb_group1 cl ∧ hb_group2 args = cl_hb_group2 cl.
Proof.
  unfold parse_args.
  destruct (choice sbmode_choices _ _) as [m|]; [|done].
  destruct (choice hbclass_choices _ _) as [c|]; [|done].
  destruct (choice files _ _) as [f|]; [|done].
  intros [= <-]. by repeat split.
Qed.

Lemma choice_Return choices default given v :
  choice choices default given = Return v →
  (given = None ∧ v = default) ∨ (given = Some v ∧ Str.mem v choices = true).
Proof.
  unfold choice. destruct given as [w|]; [|by intros [= <-]; left].
  destruct (Str.mem w choices) eqn:Hw; [|done].
  intros [= <-]. by right.
Qed.

Lemma sbmode_mem (v : string) :
  Str.mem v sbmode_choices = true ↔
  v = "different_charge" ∨ v = "same_charge" ∨ v = "all".
Proof.
  unfold Str.mem, sbmode_choices, existsb.
  rewrite !orb_true_iff, !String.eqb_eq. intuition congruence.
Qed.
End CommandLine.

Section SaltBridgeMode.
Import Py Driver.
Context {U : Type} (li : Libinteract U).

(** The part of the block after the parsing starts exactly one scan, in
    minimum-distance mode, with the translated mode. *)
Lemma salt_bridges_scan_mode cgs args pdb uni ff :
  map (λ c, (di_mindist c, di_mindist_mode c))
      (interact_scans (salt_bridges_scan li cgs args pdb uni ff []).2)
  = [(true, Some (translate_cgs_mode (cgs_mode args)))].
Proof.
  unfold salt_bridges_scan, mbind, proc_bind, then_, pure, emit, str2file,
    save_mat, savetxt.
  simpl. destruct (dointeract li _) as [[str_out [X|]]|e]; simpl; try done;
    by destruct (sb_graph args).
Qed.
End SaltBridgeMode.


(* ===================================================================== *)
(** * Failures and what has been written before them *)
(* ===================================================================== *)

Section Failures.
Import Py Driver.
Context {U : Type} (li : Libinteract U) (os : OS).

Lemma fails_nonzero_fails {A B} (e : raised) :
  fails_nonzero (Raise e : result A) → fails (Raise e : result B).
Proof. done. Qed.

(** A block that fails from every trace without an event. *)
Lemma steps_fails_silent {A} (p : proc U A) (e : raised) P :
  (∀ tr, p tr = (Raise e, tr)) → fails (Raise e : result A) →
  steps p P fails.
Proof.
  intros Hp He tr. exists []. rewrite Hp, app_nil_r. by repeat split.
Qed.

(** ** The custom groups of the hydrogen bonds *)







Lemma choice_default choices default_ given v :
  choice choices default_ given = Return v → v = default default_ given.
Proof. by intros [[-> ->]|[-> _]]%choice_Return. Qed.


(** ** A charged-groups file that cannot be parsed *)

Lemma analyses_cgs_error args pdb uni ff e P :
  do_sb args = true →
  parse_cgs_file (cfg_read os) (cgs_file args) = Raise e →
  steps (hydrophobic_contacts li args pdb uni ff) P fails_nonzero →
  steps (analyses li os args pdb uni ff) P fails.
Proof.
  intros Hsb He Hhc. unfold analyses.
  eapply steps_bind; [apply Hhc|intros _ _|intros e'; apply fails_nonzero_fails].
  eapply (steps_bind _ _ _ fails); [|by intros v []|by intros e'].
  apply (steps_fails_silent _ e).
  - intros tr. by apply salt_bridges_fails.
  - pose proof (parse_cgs_file_status (cfg_read os) (cgs_file args)) as H.
    rewrite He in H. destruct e; simpl in *; lia.
Qed.

Lemma pyinteraph_cgs_error cl e P :
  cl_do_sb cl = true →
  parse_cgs_file (cfg_read os) (cgs_file_of os cl) = Raise e →
  (∀ args pdb uni ff, do_hc args = cl_do_hc cl →
     steps (hydrophobic_contacts li args pdb uni ff) P fails_nonzero) →
  steps (pyinteraph li os cl) P fails.
Proof.
  intros Hsb He Hhc. unfold pyinteraph.
  apply steps_lift_then; [|done]. intros files _.
  apply steps_pure_then.
  2:{ intros e' He'. pose proof (parse_args_fails_nonzero (INSTALL_DIR os)
                                   files cl) as H. by rewrite He' in H. }
  intros args Hargs.
  destruct (parse_args_fields _ _ _ _ Hargs) as (Hc & Hb & _ & _ & Hf & _).
  apply steps_pure_then.
  2:{ intros e' He'. pose proof (load_systems_fails_nonzero li args) as H.
      by rewrite He' in H. }
  intros [pdb uni] _.
  apply (analyses_cgs_error _ _ _ _ e); [by rewrite Hb|by rewrite Hf|by apply Hhc].
Qed.

Lemma steps_no_event {A} (p : proc U A) Q :
  steps p (λ _, False) Q → (p []).2 = [].
Proof.
  intros Hp. destruct (Hp []) as (new & -> & Hnew & _).
  destruct Hnew as [|? ? []]. done.
Qed.
End Failures.


Section CgsError.
Import Py Driver.
Context {U : Type}.

Lemma written_block (tr : list (event U)) (a : analysis) :
  Forall (λ e, block_of e = a) tr → Forall (λ w, w.1 = a) (written tr).
Proof.
  induction 1 as [|e tr He _ IH]; [constructor|].
  destruct e; simpl; auto.
Qed.
End CgsError.

(* ===================================================================== *)
(** * The records of the statistical potential *)
(* ===================================================================== *)

Section SparseRecords.
Import Py Libinteract TestSuite.
Local Open Scope R_scope.

Lemma almost_equal_refl (x : R) : Rabs (x - x) < 1.5 * / 10 ^ 10.
Proof.
  replace (x - x) with 0 by lra. rewrite Rabs_R0.
  assert (0 < / 10 ^ 10) by (apply Rinv_0_lt_compat, pow_lt; lra). lra.
Qed.

(** The object the constructor builds passes the constructor's test
    whenever the 7th value can be a square and the 8th can be
    inverted. *)
Lemma Sparse_init_passes_test (v0 v1 v2 v3 v4 v5 v6 v7 v8 v9 : R) s :
  0 <= v6 → v7 ≠ 0 →
  Sparse.init [v0; v1; v2; v3; v4; v5; v6; v7; v8; v9] = Return s →
  test_Sparse_constructor [v0; v1; v2; v3; v4; v5; v6; v7; v8; v9] s.
Proof.
  intros H6 H7 [= <-]. unfold test_Sparse_constructor, assert_almost_equal.
  cbn [Sparse.r1 Sparse.r2 Sparse.p1_1 Sparse.p1_2 Sparse.p2_1 Sparse.p2_2
       Sparse.cutoff Sparse.step Sparse.total Sparse.num].
  rewrite pow2_sqrt by done.
  replace (1 / (1 / v7)) with v7 by (field; done).
  repeat (constructor; [apply almost_equal_refl|]). constructor.
Qed.

(** An object whose cutoff is the 7th value of the fixture fails the
    constructor's test. *)
Lemma test_refutes_cutoff_as_stored (s : Sparse.t) :
  Sparse.cutoff s = 6 → ¬ test_Sparse_constructor sparse_list s.
Proof.
  intros Hc Ht. unfold test_Sparse_constructor, assert_almost_equal,
    sparse_list in Ht.
  do 6 (apply Forall2_cons in Ht as [_ Ht]).
  apply Forall2_cons in Ht as [Ht _]. rewrite Hc in Ht.
  replace (6 - 6 ^ 2) with (-30) in Ht by lra.
  rewrite Rabs_left in Ht by lra.
  assert (/ 10 ^ 10 <= 1).
  { rewrite <- Rinv_1. apply Rinv_le_contravar; [lra|].
    apply pow_R1_Rle. lra. }
  lra.
Qed.
End SparseRecords.

(** C3 (as amended). For every record of ten values, the constructed
    [Sparse] entry stores values 1 to 6 as [r1], [r2] and the four
    reference-probability parameters, the square root of the 7th value as
    its cutoff radius (the record holds the square of the cutoff), the
    reciprocal of the 8th as its step, the 9th as the total count and the
    10th as the populated-bin count, with no bin yet; and the entry passes
    the test suite's check of the constructor. *)
Theorem Sparse_constructor_fields (v0 v1 v2 v3 v4 v5 v6 v7 v8 v9 : R) :
  ∃ s, Libinteract.Sparse.init [v0; v1; v2; v3; v4; v5; v6; v7; v8; v9]
       = Py.Return s ∧
       Libinteract.Sparse.r1 s = v0 ∧ Libinteract.Sparse.r2 s = v1 ∧
       Libinteract.Sparse.p1_1 s = v2 ∧ Libinteract.Sparse.p1_2 s = v3 ∧
       Libinteract.Sparse.p2_1 s = v4 ∧ Libinteract.Sparse.p2_2 s = v5 ∧
       Libinteract.Sparse.cutoff s = sqrt v6 ∧
       Libinteract.Sparse.step s = (1 / v7)%R ∧
       Libinteract.Sparse.total s = v8 ∧ Libinteract.Sparse.num s = v9 ∧
       Libinteract.Sparse.bins s = ∅ ∧
       ((0 <= v6)%R → (Libinteract.Sparse.cutoff s ^ 2)%R = v6) ∧
       ((0 <= v6)%R → v7 ≠ 0%R →
        TestSuite.test_Sparse_constructor
          [v0; v1; v2; v3; v4; v5; v6; v7; v8; v9] s).
Proof.
  eexists. split; [reflexivity|]. do 11 (split; [reflexivity|]). split.
  - intros H6. simpl Libinteract.Sparse.cutoff. by apply pow2_sqrt.
  - intros H6 H7. by apply Sparse_init_passes_test.
Qed.

Lemma Sparse_constructor_fields_witness :
  ∃ s, Libinteract.Sparse.init TestSuite.sparse_list = Py.Return s ∧
       (Libinteract.Sparse.cutoff s ^ 2)%R = 6%R ∧
       TestSuite.test_Sparse_constructor TestSuite.sparse_list s.
Proof.
  destruct (Sparse_constructor_fields 0 1 2 3 4 5 6 7 8 9)
    as (s & Hs & _ & _ & _ & _ & _ & _ & _ & _ & _ & _ & _ & Hsq & Htest).
  exists s. split; [exact Hs|]. split.
  - apply Hsq. lra.
  - apply Htest; lra.
Defined.

(** C3 (the claim as stated fails). On the fixture of the test suite, the
    ten values 0 to 9, the cutoff of the constructed entry is not the 7th
    value, 6; and an entry whose cutoff were 6 would fail the test
    suite's check of the constructor. *)
Lemma Sparse_cutoff_is_not_seventh_value :
  ∃ s, Libinteract.Sparse.init TestSuite.sparse_list = Py.Return s ∧
       Libinteract.Sparse.cutoff s ≠ 6%R ∧
       ∀ s', Libinteract.Sparse.cutoff s' = 6%R →
             ¬ TestSuite.test_Sparse_constructor TestSuite.sparse_list s'.
Proof.
  eexists. split; [reflexivity|]. split.
  - simpl. intros H. assert (0 <= 6)%R as H6 by lra.
    pose proof (sqrt_sqrt 6 H6) as Hs. rewrite H in Hs. lra.
  - apply test_refutes_cutoff_as_stored.
Qed.

Section SparseBins.
Import Py Libinteract.

Lemma bin_key_concat (c0 c1 c2 c3 : string) (v : R) :
  Sparse.bin_key (c0, c1, c2, c3, v) = c0 ++ c1 ++ c2 ++ c3.
Proof. reflexivity. Qed.

Lemma add_bin_bins (s : Sparse.t) (b : Sparse.bin) :
  Sparse.bins (Sparse.add_bin s b)
  = <[Sparse.bin_key b := Sparse.bin_value b]> (Sparse.bins s).
Proof. reflexivity. Qed.
End SparseBins.

(** C9. For every bin record of four characters and a value, [add_bin]
    stores the value under the concatenation of the four characters and
    touches no other key, so looking the key up afterwards returns the
    value; the mapping gains one entry whenever the key is new to it, and
    on a newly constructed entry it holds exactly that one entry, as the
    test suite checks. *)
Theorem add_bin_sets_one_entry (c0 c1 c2 c3 : string) (v : R)
        (s : Libinteract.Sparse.t) (v0 v1 v2 v3 v4 v5 v6 v7 v8 v9 : R) :
  let b : Libinteract.Sparse.bin := (c0, c1, c2, c3, v) in
  let key := c0 ++ c1 ++ c2 ++ c3 in
  let bins' := Libinteract.Sparse.bins (Libinteract.Sparse.add_bin s b) in
  bins' !! key = Some v ∧
  (∀ k, k ≠ key → bins' !! k = Libinteract.Sparse.bins s !! k) ∧
  size bins'
  = (if decide (is_Some (Libinteract.Sparse.bins s !! key))
     then size (Libinteract.Sparse.bins s)
     else S (size (Libinteract.Sparse.bins s))) ∧
  ∃ fresh,
    Libinteract.Sparse.init [v0; v1; v2; v3; v4; v5; v6; v7; v8; v9]
    = Py.Return fresh ∧
    let bins1 := Libinteract.Sparse.bins (Libinteract.Sparse.add_bin fresh b) in
    bins1 = {[ key := v ]} ∧ size bins1 = 1%nat ∧
    TestSuite.test_add_bin bins1 b ∧ TestSuite.test_num_bins bins1.
Proof.
  intros b key bins'. subst bins'. rewrite add_bin_bins.
  change (Libinteract.Sparse.bin_key b) with key.
  change (Libinteract.Sparse.bin_value b) with v.
  split; [apply lookup_insert_eq|]. split; [|split].
  - intros k Hk. by apply lookup_insert_ne.
  - case_decide as Hin.
    + destruct Hin as [w Hw]. by rewrite map_size_insert_Some.
    + apply map_size_insert_None. by apply eq_None_not_Some.
  - eexists. split; [reflexivity|]. cbv zeta.
    rewrite add_bin_bins. cbn [Libinteract.Sparse.bins].
    change (Libinteract.Sparse.bin_key b) with key.
    change (Libinteract.Sparse.bin_value b) with v.
    rewrite insert_empty. split; [done|]. split; [apply map_size_singleton|].
    split.
    + unfold TestSuite.test_add_bin.
      change (Libinteract.Sparse.bin_key b) with key.
      change (Libinteract.Sparse.bin_value b) with v.
      apply lookup_singleton_eq.
    + apply map_size_singleton.
Qed.

(** The fixture of the test suite, and a second record with the key of
    the first. *)
Example add_bin_fixture :
  ∃ fresh, Libinteract.Sparse.init TestSuite.sparse_list = Py.Return fresh ∧
    let once := Libinteract.Sparse.add_bin fresh TestSuite.sparse_bin in
    let twice := Libinteract.Sparse.add_bin once ("ab", "", "cd", "", 2%R) in
    Libinteract.Sparse.bins once !! "abcd" = Some 1%R ∧
    size (Libinteract.Sparse.bins once) = 1%nat ∧
    Libinteract.Sparse.bins twice !! "abcd" = Some 2%R ∧
    size (Libinteract.Sparse.bins twice) = 1%nat.
Proof.
  eexists. split; [reflexivity|]. cbv zeta. rewrite !add_bin_bins.
  cbn [Libinteract.Sparse.bins].
  change (Libinteract.Sparse.bin_key TestSuite.sparse_bin) with "abcd".
  change (Libinteract.Sparse.bin_key ("ab", "", "cd", "", 2%R)) with "abcd".
  change (Libinteract.Sparse.bin_value TestSuite.sparse_bin) with 1%R.
  change (Libinteract.Sparse.bin_value ("ab", "", "cd", "", 2%R)) with 2%R.
  rewrite insert_insert_eq, !insert_empty, !lookup_singleton_eq,
    !map_size_singleton. done.
Qed.

(* ===================================================================== *)
(** * The test of the hydrogen-bond report *)
(* ===================================================================== *)

Section ReportTest.
Import TestSuite.

(** The comparison in [test_do_interact_hb] sorts the lines of the
    report before it looks at them: it accepts the lines of a report in
    any order. *)
Lemma sorted_permutation (lines lines' : list string) :
  lines ≡ₚ lines' → sorted lines = sorted lines'.
Proof.
  intros Hperm. unfold sorted.
  apply (Sorted_unique String.le); [apply (Sorted_merge_sort _)..|].
  by rewrite !merge_sort_Permutation.
Qed.

Lemma hb_report_matches_any_order (lines lines' ref_hb : list string) :
  lines ≡ₚ lines' →
  hb_report_matches lines ref_hb ↔ hb_report_matches lines' ref_hb.
Proof.
  intros Hperm. unfold hb_report_matches.
  by rewrite (sorted_permutation _ _ Hperm).
Qed.
End ReportTest.

(* ===================================================================== *)
(** * The parsers of the driver, on every file *)
(* ===================================================================== *)

Lemma remove_first_not_mem (x : string) (l : list string) :
  Str.mem x l = false → Py.remove_first x l = None.
Proof.
  induction l as [|y l IH]; [done|].
  unfold Str.mem. simpl. rewrite (String.eqb_sym y x).
  destruct (String.eqb x y); [done|].
  intros Hmem. by rewrite (IH Hmem).
Qed.

(** X1. The driver's [parse_cgs_file] never returns: it exits with status
    1 on a file that cannot be read, raises [NoSectionError] when the
    file has no CHARGED_GROUPS section, [ValueError] when the section
    lacks the option default_charged_groups, and [TypeError] on every
    other file. *)
Theorem driver_parse_cgs_file_always_fails
        (cfg_read : string -> Py.libresult ConfigParser.t) (fname : string) :
  let r := Driver.parse_cgs_file cfg_read fname in
  (∀ out, r ≠ Py.Return out) ∧
  Py.exit_status r = 1 ∧
  match cfg_read fname with
  | Py.Raise _ => r = Py.exit 1
  | Py.Return cfg =>
      match ConfigParser.options cfg "CHARGED_GROUPS" with
      | Py.Raise e => r = Py.Raise (Py.Exc e) ∧ e = Py.NoSectionError
      | Py.Return opts =>
          if Str.mem "default_charged_groups" opts
          then r = Py.Raise (Py.Exc Py.TypeError)
          else r = Py.Raise (Py.Exc Py.ValueError)
      end
  end.
Proof.
  intros r. subst r.
  split; [apply parse_cgs_file_never_returns|].
  split; [apply parse_cgs_file_status|].
  destruct (cfg_read fname) as [cfg|e] eqn:Hread.
  - destruct (ConfigParser.options cfg "CHARGED_GROUPS") as [opts|e] eqn:Hopts.
    + destruct (Str.mem "default_charged_groups" opts) eqn:Hmem.
      * by eapply parse_cgs_file_TypeError.
      * unfold Driver.parse_cgs_file. rewrite Hread. cbn. rewrite Hopts. cbn.
        unfold Py.list_remove. by rewrite (remove_first_not_mem _ _ Hmem).
    + split.
      * unfold Driver.parse_cgs_file. rewrite Hread. cbn. by rewrite Hopts.
      * unfold ConfigParser.options in Hopts.
        destruct (ConfigParser.assoc _ _) in Hopts; congruence.
  - unfold Driver.parse_cgs_file. by rewrite Hread.
Qed.

Section StripSplit.

Lemma lstrip_idem (s : string) : Str.lstrip (Str.lstrip s) = Str.lstrip s.
Proof.
  induction s as [|c s IH]; [done|]. simpl.
  destruct (Str.isspace c) eqn:Hc; [done|]. simpl. by rewrite Hc.
Qed.

Lemma rstrip_idem (s : string) : Str.rstrip (Str.rstrip s) = Str.rstrip s.
Proof.
  induction s as [|c s IH]; [done|]. simpl.
  destruct (Str.rstrip s) as [|a r] eqn:Hr.
  - destruct (Str.isspace c) eqn:Hc; [done|]. simpl. by rewrite Hc.
  - change (Str.rstrip (String c (String a r))) with
      (match Str.rstrip (String a r) with
       | "" => if Str.isspace c then "" else String c ""
       | r' => String c r'
       end).
    by rewrite IH.
Qed.

(** What is left of a string without trailing white space, once its
    leading white space is dropped, has no trailing white space. *)
Lemma rstrip_lstrip (t : string) :
  Str.rstrip t = t → Str.rstrip (Str.lstrip t) = Str.lstrip t.
Proof.
  induction t as [|c t IH]; [done|]. intros Ht.
  simpl Str.lstrip. destruct (Str.isspace c) eqn:Hc; [|done].
  apply IH. simpl in Ht. rewrite Hc in Ht.
  destruct (Str.rstrip t) as [|a r]; [done|]. by injection Ht.
Qed.

Lemma strip_idem (s : string) : Str.strip (Str.strip s) = Str.strip s.
Proof.
  unfold Str.strip.
  rewrite (rstrip_lstrip (Str.rstrip s)) by apply rstrip_idem.
  apply lstrip_idem.
Qed.

Lemma split_not_nil (sep : ascii) (s : string) : Str.split sep s ≠ [].
Proof.
  destruct s as [|c s]; [done|]. simpl.
  destruct (Ascii.eqb c sep); [done|]. by destruct (Str.split sep s).
Qed.

(** The names a parser reads off a comma-separated value. *)
Lemma stripped_items (v : string) :
  map Str.strip (Str.split "," (Str.strip v)) ≠ [] ∧
  Forall (λ a, Str.strip a = a) (map Str.strip (Str.split "," (Str.strip v))).
Proof.
  split.
  - intros H%fmap_nil_inv. by apply split_not_nil in H.
  - apply Forall_fmap, Forall_forall. intros a _. apply strip_idem.
Qed.
End StripSplit.

(** X2. When the driver's [parse_hbs_file] returns, the result has
    exactly the two keys ACCEPTORS and DONORS; each holds a list that is
    never empty (an empty value gives one empty name) and whose names
    carry no surrounding white space. *)
Theorem parse_hbs_file_result
        (cfg_read : string -> Py.libresult ConfigParser.t) (fname : string)
        (d : gmap string (list string)) :
  Driver.parse_hbs_file cfg_read fname = Py.Return d →
  dom d = {["ACCEPTORS"; "DONORS"]} ∧
  ∃ acceptors donors,
    d !! "ACCEPTORS" = Some acceptors ∧ d !! "DONORS" = Some donors ∧
    acceptors ≠ [] ∧ donors ≠ [] ∧
    Forall (λ a, Str.strip a = a) acceptors ∧
    Forall (λ a, Str.strip a = a) donors.
Proof.
  unfold Driver.parse_hbs_file.
  destruct (cfg_read fname) as [cfg|e]; [|done]. cbn.
  destruct (ConfigParser.get cfg "HYDROGEN_BONDS" "ACCEPTORS") as [va|e];
    [|done]. cbn.
  destruct (ConfigParser.get cfg "HYDROGEN_BONDS" "DONORS") as [vd|e];
    [|done]. cbn.
  intros [= <-]. split.
  - rewrite !dom_insert_L, dom_empty_L, (right_id_L ∅ (∪)).
    apply (comm_L (∪)).
  - destruct (stripped_items va) as [Ha1 Ha2].
    destruct (stripped_items vd) as [Hd1 Hd2].
    exists (map Str.strip (Str.split "," (Str.strip va))),
           (map Str.strip (Str.split "," (Str.strip vd))).
    split; [|split; [apply lookup_insert_eq|done]].
    rewrite lookup_insert_ne by discriminate. apply lookup_insert_eq.
Qed.

Lemma parse_hbs_file_result_witness :
  ∃ d, Driver.parse_hbs_file (Driver.cfg_read Samples.os) "hb.ini"
       = Py.Return d ∧
       dom d = {["ACCEPTORS"; "DONORS"]} ∧
       d !! "ACCEPTORS" = Some ["O"; "OD1"] ∧
       d !! "DONORS" = Some ["N"; "NE"].
Proof.
  eexists. split; [reflexivity|].
  edestruct (parse_hbs_file_result (Driver.cfg_read Samples.os) "hb.ini")
    as [Hdom _]; [reflexivity|].
  split; [exact Hdom|]. split; reflexivity.
Defined.

(** X3. On every file that can be read, the driver's [parse_hbs_file]
    and the one of the test suite give the same outcome, value or
    exception; on a file that cannot be read the driver passes on the
    exception of the read, where the test suite's ends in [NameError],
    its handler calling a logger the file does not import. *)
Theorem parse_hbs_file_agree
        (cfg_read : string -> Py.libresult ConfigParser.t) (fname : string) :
  match cfg_read fname with
  | Py.Return _ =>
      Driver.parse_hbs_file cfg_read fname
      = TestSuite.parse_hbs_file cfg_read fname
  | Py.Raise e =>
      Driver.parse_hbs_file cfg_read fname = Py.Raise (Py.Exc e) ∧
      TestSuite.parse_hbs_file cfg_read fname = Py.Raise (Py.Exc Py.NameError)
  end.
Proof.
  unfold Driver.parse_hbs_file, TestSuite.parse_hbs_file.
  by destruct (cfg_read fname) as [cfg|e].
Qed.

(** The driver's [parse_hbs_file] never exits by itself: the read it
    guards with [exit(1)] comes after an unguarded read of the same
    file. *)
Lemma parse_hbs_file_no_exit
      (cfg_read : string -> Py.libresult ConfigParser.t) (fname : string) c :
  Driver.parse_hbs_file cfg_read fname ≠ Py.Raise (Py.SystemExit c).
Proof.
  unfold Driver.parse_hbs_file.
  destruct (cfg_read fname) as [cfg|e]; [|done]. cbn.
  destruct (ConfigParser.get cfg "HYDROGEN_BONDS" "ACCEPTORS") as [va|e];
    [|done]. cbn.
  by destruct (ConfigParser.get cfg "HYDROGEN_BONDS" "DONORS") as [vd|e].
Qed.

(* ===================================================================== *)
(** * The trace of a run, block by block *)
(* ===================================================================== *)

Section RunsRules.
Import Py Driver Asked Shape.
Context {U : Type}.

Lemma runs_then (p1 p2 : proc U unit)
      (S1 S2 : result unit → list (event U) → Prop) :
  runs p1 S1 → runs p2 S2 → runs (p1 ≫= λ _, p2) (then_outcome S1 S2).
Proof.
  intros H1 H2 tr. destruct (H1 tr) as (r1 & l1 & Hp1 & HS1).
  unfold mbind, proc_bind, then_. rewrite Hp1.
  destruct r1 as [[]|e].
  - destruct (H2 (tr ++ l1)%list) as (r2 & l2 & Hp2 & HS2).
    exists r2, (l1 ++ l2)%list. rewrite Hp2, app_assoc. split; [done|].
    exists (Return tt), l1. split; [done|]. left. eauto.
  - exists (Raise e), l1. split; [done|].
    exists (Raise e), l1. split; [done|]. by right.
Qed.

Lemma runs_weaken {A} (p : proc U A)
      (S S' : result A → list (event U) → Prop) :
  runs p S → (∀ r l, S r l → S' r l) → runs p S'.
Proof.
  intros Hp HS tr. destruct (Hp tr) as (r & l & ? & ?). exists r, l. auto.
Qed.

Lemma runs_outcome {A} (p : proc U A) S :
  runs p S → S (p []).1 (p []).2.
Proof. intros Hp. by destruct (Hp []) as (r & l & -> & ?). Qed.

(** The namespace of a command line. *)
Lemma parse_args_namespace dir files cl args :
  parse_args dir files cl = Return args → namespace_of dir cl args.
Proof.
  unfold parse_args.
  destruct (choice sbmode_choices _ _) as [m|]; [|done].
  destruct (choice hbclass_choices _ _) as [c|] eqn:Hc; [|done].
  destruct (choice files _ _) as [f|]; [|done].
  intros [= <-]. apply choice_default in Hc. by repeat split.
Qed.
End RunsRules.

Section BlockOutcomes.
Import Py Driver Asked Shape.
Context {U : Type} (li : Libinteract U) (os : OS).
Implicit Types (args : Args) (pdb uni : U) (cl : cmdline).

Ltac unfold_block :=
  unfold mbind, mret, proc_bind, proc_ret, then_, pure, emit, str2file,
    save_mat, savetxt.

Lemma snoc2 (tr : list (event U)) a b :
  ((tr ++ [a]) ++ [b] = tr ++ [a; b])%list.
Proof. by rewrite <- app_assoc. Qed.

Lemma snoc3 (tr : list (event U)) a b c :
  (((tr ++ [a]) ++ [b]) ++ [c] = tr ++ [a; b; c])%list.
Proof. by rewrite <- !app_assoc. Qed.

Ltac trace_eq :=
  unfold emit, pure;
  first [ rewrite snoc3; reflexivity | rewrite snoc2; reflexivity
        | rewrite app_nil_r; reflexivity | reflexivity ].

Lemma hydrophobic_contacts_outcome dir cl args pdb uni ff :
  namespace_of dir cl args →
  runs (hydrophobic_contacts li args pdb uni ff) (block_outcome cl HC).
Proof.
  intros ((Hhc & _) & (Hdat & _) & (Hgraph & _) & _) tr.
  unfold hydrophobic_contacts, block_outcome, requested.
  rewrite Hhc, Hdat, Hgraph. destruct (cl_do_hc cl).
  2:{ exists (Return tt), []. split; [trace_eq|done]. }
  unfold_block.
  match goal with |- context [dointeract li ?c] => set (call := c) end.
  destruct (dointeract li call) as [[s [X|]]|e]; simpl.
  - destruct (cl_hc_graph cl) as [f|] eqn:Hf; simpl.
    + eexists _, [Scan_dointeract call; _; _]. split; [trace_eq|].
      right. exists (Scan_dointeract call). do 2 (split; [done|]).
      right; right. eexists _, _. split; [by eexists|].
      split; [|done]. exists f, X. split; [exact Hf|reflexivity].
    + eexists _, [Scan_dointeract call; _]. split; [trace_eq|].
      right. exists (Scan_dointeract call). do 2 (split; [done|]).
      right; left. eexists. split; [by eexists|]. split; [done|]. by right.
  - eexists _, [Scan_dointeract call; _]. split; [trace_eq|].
    right. exists (Scan_dointeract call). do 2 (split; [done|]).
    right; left. eexists. split; [by eexists|]. split; [done|]. by left.
  - eexists _, [Scan_dointeract call]. split; [trace_eq|].
    right. exists (Scan_dointeract call). do 2 (split; [done|]). by left.
Qed.

Lemma salt_bridges_outcome dir cl args pdb uni ff :
  namespace_of dir cl args →
  runs (salt_bridges li os args pdb uni ff)
       (λ r l, block_outcome cl SB r l ∧ l = []).
Proof.
  intros ((_ & Hsb & _) & _) tr.
  unfold block_outcome, requested. destruct (cl_do_sb cl) eqn:Hrq.
  - destruct (parse_cgs_file_raises (cfg_read os) (cgs_file args))
      as [[e He]|He].
    + exists (Raise (Exc e)), []. rewrite app_nil_r.
      split; [apply salt_bridges_fails; congruence|]. split; [by left|done].
    + exists (Raise (SystemExit 1)), []. rewrite app_nil_r.
      split; [apply salt_bridges_fails; congruence|]. split; [by left|done].
  - exists (Return tt), []. rewrite app_nil_r. unfold salt_bridges.
    by rewrite Hsb.
Qed.

Lemma hydrogen_bonds_outcome dir cl args pdb uni :
  namespace_of dir cl args →
  runs (hydrogen_bonds li os args pdb uni) (block_outcome cl HB).
Proof.
  intros ((_ & _ & Hhb & _) & (_ & _ & Hdat & _) & (_ & _ & Hgraph & _) & _) tr.
  unfold hydrogen_bonds, block_outcome, requested.
  rewrite Hhb, Hdat, Hgraph. destruct (cl_do_hb cl).
  2:{ exists (Return tt), []. split; [trace_eq|done]. }
  unfold_block.
  destruct (hb_groups li uni _ _ _) as [[g1 g2]|e1].
  2:{ exists (Raise e1), []. split; [trace_eq|]. by left. }
  destruct (or_exit (parse_hbs_file _ _)) as [hbs|e2]; simpl.
  2:{ exists (Raise e2), []. split; [trace_eq|]. by left. }
  match goal with |- context [dohbonds li ?c] => set (call := c) end.
  destruct (dohbonds li call) as [[s [X|]]|e]; simpl.
  - destruct (cl_hb_graph cl) as [f|] eqn:Hf; simpl.
    + eexists _, [Scan_dohbonds call; _; _]. split; [trace_eq|].
      right. exists (Scan_dohbonds call). do 2 (split; [done|]).
      right; right. eexists _, _. split; [by eexists|].
      split; [|done]. exists f, X. split; [exact Hf|reflexivity].
    + eexists _, [Scan_dohbonds call; _]. split; [trace_eq|].
      right. exists (Scan_dohbonds call). do 2 (split; [done|]).
      right; left. eexists. split; [by eexists|]. split; [done|]. by right.
  - eexists _, [Scan_dohbonds call; _]. split; [trace_eq|].
    right. exists (Scan_dohbonds call). do 2 (split; [done|]).
    right; left. eexists. split; [by eexists|]. split; [done|]. by left.
  - eexists _, [Scan_dohbonds call]. split; [trace_eq|].
    right. exists (Scan_dohbonds call). do 2 (split; [done|]). by left.
Qed.

Lemma statistical_potential_outcome dir cl args pdb uni :
  namespace_of dir cl args →
  runs (statistical_potential li args pdb uni) (block_outcome cl KBP).
Proof.
  intros ((_ & _ & _ & Hkbp) & (_ & _ & _ & Hdat) & (_ & _ & _ & Hgraph) & _) tr.
  unfold statistical_potential, block_outcome, requested.
  rewrite Hkbp, Hdat, Hgraph. destruct (cl_do_kbp cl).
  2:{ exists (Return tt), []. split; [trace_eq|done]. }
  unfold_block.
  destruct (parse_atomlist li _) as [atomlist|e1]; simpl.
  2:{ exists (Raise (Exc e1)), []. split; [trace_eq|]. by left. }
  match goal with |- context [dopotential li ?c] => set (call := c) end.
  destruct (dopotential li call) as [[s [X|]]|e]; simpl.
  - destruct (cl_kbp_graph cl) as [f|] eqn:Hf; simpl.
    + eexists _, [Scan_dopotential call; _; _]. split; [trace_eq|].
      right. exists (Scan_dopotential call). do 2 (split; [done|]).
      right; right. eexists _, _. split; [by eexists|].
      split; [|done]. exists f, X. split; [exact Hf|reflexivity].
    + eexists _, [Scan_dopotential call; _]. split; [trace_eq|].
      right. exists (Scan_dopotential call). do 2 (split; [done|]).
      right; left. eexists. split; [by eexists|]. split; [done|]. by right.
  - eexists _, [Scan_dopotential call; _]. split; [trace_eq|].
    right. exists (Scan_dopotential call). do 2 (split; [done|]).
    right; left. eexists. split; [by eexists|]. split; [done|]. by left.
  - eexists _, [Scan_dopotential call]. split; [trace_eq|].
    right. exists (Scan_dopotential call). do 2 (split; [done|]). by left.
Qed.

Lemma analyses_runs dir cl args pdb uni ff :
  namespace_of dir cl args →
  runs (analyses li os args pdb uni ff) (analyses_outcome cl).
Proof.
  intros Hns. unfold analyses, analyses_outcome.
  apply runs_then; [by eapply hydrophobic_contacts_outcome|].
  apply runs_then; [by eapply salt_bridges_outcome|].
  apply runs_then; [by eapply hydrogen_bonds_outcome|].
  by eapply statistical_potential_outcome.
Qed.

(** A run fails before the analyses, with nothing in the trace, or does
    what the analyses do. *)
Lemma pyinteraph_runs cl :
  runs (pyinteraph li os cl)
       (λ r l, (l = [] ∧ r ≠ Return tt) ∨ analyses_outcome cl r l).
Proof.
  intros tr. unfold pyinteraph.
  unfold mbind at 1, proc_bind, then_, pure.
  destruct (listdir os _) as [files|e]; simpl.
  2:{ exists (Raise (Exc e)), []. rewrite app_nil_r. split; [done|by left]. }
  unfold mbind at 1, proc_bind, then_, pure.
  destruct (parse_args _ files cl) as [args|e] eqn:Hargs.
  2:{ exists (Raise e), []. rewrite app_nil_r. split; [done|by left]. }
  unfold mbind at 1, proc_bind, then_, pure.
  destruct (load_systems li args) as [[pdb uni]|e].
  2:{ exists (Raise e), []. rewrite app_nil_r. split; [done|by left]. }
  destruct (analyses_runs _ cl args pdb uni
              (path_join (INSTALL_DIR os ++ ff_masses_dir) (ffmasses args))
              (parse_args_namespace _ _ _ _ Hargs) tr) as (r & l & Hrun & Hout).
  exists r, l. split; [exact Hrun|by right].
Qed.
End BlockOutcomes.

Section TraceStructure.
Import Py Driver Asked Shape.
Context {U : Type}.
Implicit Types (cl : cmdline) (l : list (event U)).

Lemma block_outcome_events cl a r l :
  block_outcome cl a r l → block_events cl a l.
Proof.
  unfold block_outcome, block_events. destruct (requested cl a).
  - intros [[-> _]|(scan & Hs & Hb & H)]; [by left|]. right.
    exists scan. do 2 (split; [done|]).
    destruct H as [[-> _]|[(rep & ? & -> & _)|(rep & mat & ? & ? & -> & _)]];
      eauto 10.
  - intros [-> _]. by left.
Qed.

Lemma block_events_nil cl a : block_events cl a ([] : list (event U)).
Proof. by left. Qed.

(** A block that returns although requested has written its report. *)
Lemma block_outcome_Return cl a l :
  block_outcome cl a (Return tt) l → requested cl a = true →
  ∃ rep, report_event cl a rep ∧ rep ∈ l.
Proof.
  unfold block_outcome. intros H Hrq. rewrite Hrq in H.
  destruct H as [[_ ?]|(scan & _ & _ & H)]; [done|].
  destruct H as [[_ ?]|[(rep & ? & -> & _)|(rep & mat & ? & ? & -> & _)]];
    [done|..]; exists rep; (split; [done|]);
    rewrite ?elem_of_cons; auto.
Qed.

Lemma block_events_blocks cl a l :
  block_events cl a l → Forall (λ e, block_of e = a) l.
Proof.
  intros [->|(scan & _ & Hb & H)]; [constructor|].
  destruct H as [->|[(rep & [s ->] & ->)|
                     (rep & mat & [s ->] & (f & X & _ & ->) & ->)]];
    repeat constructor; done.
Qed.

Lemma block_outcome_requested cl a r l :
  block_outcome cl a r l → l ≠ [] → requested cl a = true.
Proof.
  unfold block_outcome. destruct (requested cl a); [done|]. by intros [-> _].
Qed.

(** The analyses in sequence: three blocks of events, in the order of
    the script; and if the sequence returns, the salt bridges were not
    requested and each block has returned. *)
Lemma analyses_outcome_split cl r l :
  analyses_outcome cl r l →
  ∃ l_hc l_hb l_kbp r_hc r_hb r_kbp,
    l = (l_hc ++ l_hb ++ l_kbp)%list ∧
    block_outcome cl HC r_hc l_hc ∧
    (l_hb = [] ∨ block_outcome cl HB r_hb l_hb) ∧
    (l_kbp = [] ∨ block_outcome cl KBP r_kbp l_kbp) ∧
    (r = Return tt →
     cl_do_sb cl = false ∧ r_hc = Return tt ∧
     block_outcome cl HB (Return tt) l_hb ∧
     block_outcome cl KBP (Return tt) l_kbp).
Proof.
  intros (r1 & l1 & H1 & [[-> (l' & Hrest & ->)]|(Hne & -> & ->)]).
  2:{ exists l1, [], [], r1, r1, r1. rewrite !app_nil_r.
      split; [done|]. split; [done|]. do 2 (split; [by left|]). done. }
  destruct Hrest
    as (r2 & l2 & [H2 ->] & [[-> (l'' & Hrest & ->)]|(Hne & -> & ->)]).
  2:{ exists l1, [], [], (Return tt), r2, r2. rewrite !app_nil_r.
      split; [done|]. split; [done|]. do 2 (split; [by left|]). done. }
  assert (cl_do_sb cl = false) as Hsb.
  { unfold block_outcome, requested in H2. destruct (cl_do_sb cl); [|done].
    destruct H2 as [[_ ?]|(scan & _ & _ & H)]; [done|].
    by destruct H as [[? _]|[(? & _ & ? & _)|(? & ? & _ & _ & ? & _)]]. }
  destruct Hrest
    as (r3 & l3 & H3 & [[-> (l4 & H4 & ->)]|(Hne & -> & ->)]).
  - exists l1, l3, l4, (Return tt), (Return tt), r. simpl.
    split; [done|]. split; [done|]. do 2 (split; [by right|]).
    by intros ->.
  - exists l1, l3, [], (Return tt), r3, r3. simpl. rewrite !app_nil_r.
    split; [done|]. split; [done|]. split; [by right|]. split; [by left|].
    done.
Qed.
End TraceStructure.

Section RunOutcome.
Import Py Driver Asked Shape.
Context {U : Type} (li : Libinteract U) (os : OS).

Lemma run_outcome (cl : cmdline) :
  let r := run li os cl in
  (r.2 = [] ∧ r.1 ≠ Return tt) ∨ analyses_outcome cl r.1 r.2.
Proof. apply (runs_outcome _ _ (pyinteraph_runs li os cl)). Qed.

Lemma run_split (cl : cmdline) :
  let r := run li os cl in
  ∃ l_hc l_hb l_kbp,
    r.2 = (l_hc ++ l_hb ++ l_kbp)%list ∧
    block_events cl HC l_hc ∧ block_events cl HB l_hb ∧
    block_events cl KBP l_kbp ∧
    (l_hc ≠ [] → cl_do_hc cl = true) ∧ (l_hb ≠ [] → cl_do_hb cl = true) ∧
    (l_kbp ≠ [] → cl_do_kbp cl = true) ∧
    (r.1 = Return tt →
     cl_do_sb cl = false ∧ block_outcome cl HC (Return tt) l_hc ∧
     block_outcome cl HB (Return tt) l_hb ∧
     block_outcome cl KBP (Return tt) l_kbp).
Proof.
  intros r. destruct (run_outcome cl) as [[Hnil Hne]|Hout].
  - exists [], [], []. fold r in Hnil, Hne.
    split; [done|]. do 3 (split; [by left|]). done.
  - fold r in Hout. apply analyses_outcome_split in Hout
      as (l1 & l3 & l4 & r1 & r3 & r4 & Hl & H1 & H3 & H4 & Hret).
    exists l1, l3, l4. split; [done|].
    split; [by eapply block_outcome_events|].
    split; [destruct H3 as [->|H3];
            [by left|by eapply block_outcome_events]|].
    split; [destruct H4 as [->|H4];
            [by left|by eapply block_outcome_events]|].
    split; [by eapply (block_outcome_requested cl HC)|].
    split; [destruct H3 as [->|H3];
            [done|by eapply (block_outcome_requested cl HB)]|].
    split; [destruct H4 as [->|H4];
            [done|by eapply (block_outcome_requested cl KBP)]|].
    intros Hr. destruct (Hret Hr) as (? & -> & ? & ?). done.
Qed.
End RunOutcome.

(** X4. The trace of every run is made of at most three blocks of
    events, in the order of the script: hydrophobic contacts, hydrogen
    bonds, statistical potential.  A block holds one scan of its
    analysis, then at most its report under the report's name, then at
    most its matrix under the graph name given: no analysis is scanned
    twice, no report is written before its scan, no matrix before its
    report or without a graph name. *)
Theorem run_trace_in_script_order {U} (li : Driver.Libinteract U)
        (os : Driver.OS) (cl : Driver.cmdline) :
  ∃ l_hc l_hb l_kbp,
    (Driver.run li os cl).2 = (l_hc ++ l_hb ++ l_kbp)%list ∧
    Shape.block_events cl Driver.HC l_hc ∧
    Shape.block_events cl Driver.HB l_hb ∧
    Shape.block_events cl Driver.KBP l_kbp.
Proof.
  destruct (run_split li os cl) as (l1 & l3 & l4 & ? & ? & ? & ? & _).
  by exists l1, l3, l4.
Qed.

(** X5. Whatever the library returns, only the analyses requested on
    the command line scan or write: every event of a run belongs to a
    requested analysis. *)
Theorem only_requested_analyses_act {U} (li : Driver.Libinteract U)
        (os : Driver.OS) (cl : Driver.cmdline) :
  Forall (λ ev, Asked.requested cl (Driver.block_of ev) = true)
         (Driver.run li os cl).2.
Proof.
  destruct (run_split li os cl)
    as (l1 & l3 & l4 & -> & H1 & H3 & H4 & R1 & R3 & R4 & _).
  rewrite !Forall_app. repeat split.
  - destruct l1 as [|e l1]; [constructor|].
    eapply Forall_impl; [by eapply block_events_blocks|].
    intros ev ->. by apply R1.
  - destruct l3 as [|e l3]; [constructor|].
    eapply Forall_impl; [by eapply block_events_blocks|].
    intros ev ->. by apply R3.
  - destruct l4 as [|e l4]; [constructor|].
    eapply Forall_impl; [by eapply block_events_blocks|].
    intros ev ->. by apply R4.
Qed.

(** X6. A run that ends normally was not asked for the salt bridges, and
    has written the report of every analysis it was asked for, under the
    name given on the command line or the default name. *)
Theorem normal_end_reports_written {U} (li : Driver.Libinteract U)
        (os : Driver.OS) (cl : Driver.cmdline) :
  (Driver.run li os cl).1 = Py.Return tt →
  Driver.cl_do_sb cl = false ∧
  ∀ a, Asked.requested cl a = true →
       ∃ s, Driver.Write_str2file a (Asked.dat_of cl a) s
            ∈ (Driver.run li os cl).2.
Proof.
  intros Hret.
  destruct (run_split li os cl)
    as (l1 & l3 & l4 & -> & _ & _ & _ & _ & _ & _ & Hall).
  destruct (Hall Hret) as (Hsb & H1 & H3 & H4). split; [done|].
  intros a Ha.
  assert (∀ l : list (Driver.event U),
            Shape.block_outcome cl a (Py.Return tt) l →
               ∃ s, Driver.Write_str2file a (Asked.dat_of cl a) s ∈ l) as Hrep.
  { intros l Hl.
    destruct (block_outcome_Return cl a l Hl Ha) as (rep & [s ->] & Hin).
    by exists s. }
  destruct a.
  - destruct (Hrep _ H1) as [s Hs]. exists s. rewrite !elem_of_app. auto.
  - simpl in Ha. congruence.
  - destruct (Hrep _ H3) as [s Hs]. exists s. rewrite !elem_of_app. auto.
  - destruct (Hrep _ H4) as [s Hs]. exists s. rewrite !elem_of_app. auto.
Qed.

Lemma normal_end_reports_written_witness :
  let cl := Samples.cl_hb_kbp None None None in
  (Driver.run Samples.li Samples.os cl).1 = Py.Return tt ∧
  Driver.cl_do_sb cl = false ∧
  ∀ a, Asked.requested cl a = true →
       ∃ s, Driver.Write_str2file a (Asked.dat_of cl a) s
            ∈ (Driver.run Samples.li Samples.os cl).2.
Proof.
  intros cl.
  assert ((Driver.run Samples.li Samples.os cl).1 = Py.Return tt) as Hret
    by reflexivity.
  split; [exact Hret|].
  exact (normal_end_reports_written Samples.li Samples.os cl Hret).
Defined.

(** X7. The salt-bridge block never gets as far as its scan: no run
    scans or writes for the salt bridges, and a run asked for them ends
    with a non-zero status, with nothing in its trace but what the
    hydrophobic contacts have left. *)
Theorem salt_bridges_never_scanned {U} (li : Driver.Libinteract U)
        (os : Driver.OS) (cl : Driver.cmdline) :
  Driver.cl_do_sb cl = true →
  Py.exit_status (Driver.run li os cl).1 ≠ 0 ∧
  Forall (λ ev, Driver.block_of ev = Driver.HC) (Driver.run li os cl).2 ∧
  ∀ cl', Forall (λ ev, Driver.block_of ev ≠ Driver.SB)
                (Driver.run li os cl').2.
Proof.
  intros Hsb. split; [|split].
  - pose proof (run_fails_nonzero li os cl) as Hf.
    destruct (Driver.run li os cl).1 as [[]|e] eqn:Hr; [|done].
    destruct (run_split li os cl) as (? & ? & ? & _ & _ & _ & _ & _ & _ & _ & Hret).
    destruct (Hret Hr). congruence.
  - assert (∃ e, Driver.parse_cgs_file (Driver.cfg_read os)
                     (Driver.cgs_file_of os cl) = Py.Raise e) as [e He].
    { destruct (parse_cgs_file_raises (Driver.cfg_read os)
                  (Driver.cgs_file_of os cl)) as [[e He]|He]; eauto. }
    apply (steps_Forall (Driver.pyinteraph li os cl) _ Driver.fails);
      [|constructor].
    apply (pyinteraph_cgs_error li os cl e); [done..|].
    intros args pdb uni ff _.
    eapply steps_weaken; [apply hydrophobic_contacts_steps|by intros ? []|done].
  - intros cl'. destruct (run_split li os cl')
      as (l1 & l3 & l4 & -> & H1 & H3 & H4 & _).
    rewrite !Forall_app. repeat split;
      (eapply Forall_impl; [by eapply block_events_blocks|]);
      by intros ev ->.
Qed.

Lemma salt_bridges_never_scanned_witness :
  Driver.cl_do_sb Samples.cl_hc_sb = true ∧
  Py.exit_status (Driver.run Samples.li Samples.os Samples.cl_hc_sb).1 ≠ 0 ∧
  Forall (λ ev, Driver.block_of ev = Driver.HC)
         (Driver.run Samples.li Samples.os Samples.cl_hc_sb).2.
Proof.
  split; [reflexivity|].
  destruct (salt_bridges_never_scanned Samples.li Samples.os Samples.cl_hc_sb
              eq_refl) as (Hst & Hhc & _).
  split; [exact Hst|exact Hhc].
Defined.

(* ===================================================================== *)
(** * The arguments of the scans *)
(* ===================================================================== *)

Section ScanArguments.
Import Py Driver Asked Shape Passed.
Context {U : Type} (li : Libinteract U) (os : OS).
Implicit Types (args : Args) (pdb uni : U) (cl : cmdline).

(** The salt-bridge block emits nothing. *)
Lemma salt_bridges_silent args pdb uni ff P :
  steps (salt_bridges li os args pdb uni ff) P fails_nonzero.
Proof.
  unfold salt_bridges. destruct (do_sb args); [|by apply steps_ret].
  apply steps_pure_then.
  - intros cgs Hcgs. by apply parse_cgs_file_never_returns in Hcgs.
  - intros e He.
    destruct (parse_cgs_file_raises (cfg_read os) (cgs_file args))
      as [[e' He']|He']; rewrite He' in He; by simplify_eq.
Qed.

(** The selections [hb_groups] returns are those read off the command
    line. *)
Lemma hb_groups_selections dir cl args uni p :
  namespace_of dir cl args →
  hb_groups li uni (hb_class_in_effect args) (hb_group1 args) (hb_group2 args)
  = Return p →
  p = selections_of cl.
Proof.
  intros (_ & _ & _ & _ & (_ & _ & _ & Hcls & Hg1 & Hg2 & _) & _).
  unfold hb_class_in_effect, selections_of.
  rewrite Hcls, Hg1, Hg2.
  set (cls := default hbclass_default (cl_hb_class cl)).
  destruct (cl_hb_group1 cl) as [g1|], (cl_hb_group2 cl) as [g2|];
    rewrite ?bool_decide_eq_true_2 by eauto;
    rewrite ?(bool_decide_eq_false_2 (is_Some None)) by (by intros [? ?]);
    cbn [andb negb].
  - (* both groups: the custom class, whatever was asked *)
    assert ((if negb (String.eqb cls "custom") then "custom" else cls)
            = "custom") as ->.
    { destruct (String.eqb_spec cls "custom") as [->|]; done. }
    unfold hb_groups. change (String.eqb "custom" "custom") with true.
    cbv iota.
    destruct (selectAtoms li uni g1) as [l1|]; [|done].
    destruct (selectAtoms li uni g2) as [l2|]; [|done]. cbn.
    repeat case_match; by intros [= <-].
  - unfold hb_groups. destruct (String.eqb cls "custom"); [done|].
    repeat case_match; by intros [= <-].
  - unfold hb_groups. destruct (String.eqb cls "custom"); [done|].
    repeat case_match; by intros [= <-].
  - unfold hb_groups. destruct (String.eqb cls "custom"); [done|].
    repeat case_match; by intros [= <-].
Qed.

Lemma or_exit_Return {A} (r : result A) v :
  or_exit r = Return v → r = Return v.
Proof. by destruct r. Qed.

Lemma analyses_scans_as_asked dir cl args pdb uni :
  dir = INSTALL_DIR os →
  namespace_of dir cl args →
  steps (analyses li os args pdb uni (ffmasses_of os cl))
        (scan_as_asked li os cl) fails_nonzero.
Proof.
  intros -> Hns.
  pose proof Hns as ((Hhc & Hsb & Hhb & Hkbp) & _ & (G1 & _ & G3 & G4) &
                     (C1 & C2 & C3) & (B1 & B2 & B3 & _ & _ & _ & B7) &
                     (K1 & K2 & K3) & _).
  unfold analyses.
  eapply steps_bind; [|intros _ _|intros e He; exact He].
  { unfold hydrophobic_contacts. destruct (do_hc args); [|by apply steps_ret].
    apply steps_emit_then.
    { simpl. rewrite C1, C2, C3, G1. by repeat split. }
    apply steps_lift_then; [|done]. intros [str_out mat] _.
    apply steps_emit_then; [done|].
    destruct mat as [X|]; [|by apply steps_ret].
    destruct (hc_graph args); [by apply steps_emit|by apply steps_pure]. }
  eapply steps_bind; [apply salt_bridges_silent|intros _ _|intros e He; exact He].
  eapply steps_bind; [|intros _ _|intros e He; exact He].
  { unfold hydrogen_bonds. destruct (do_hb args); [|by apply steps_ret].
    apply steps_pure_then.
    2:{ intros e He. pose proof (hb_groups_fails_nonzero li uni
          (hb_class_in_effect args) (hb_group1 args) (hb_group2 args)) as H.
        by rewrite He in H. }
    intros [g1 g2] Hsel%(hb_groups_selections _ _ _ _ _ Hns).
    apply steps_pure_then.
    2:{ intros e He.
        pose proof (fails_nonzero_or_exit
          (parse_hbs_file (cfg_read os) (hbs_file args))) as H.
        by rewrite He in H. }
    intros hbs Hhbs%or_exit_Return.
    apply steps_emit_then.
    { simpl. rewrite B1, B2, B3, G3. unfold hbs_file_of. rewrite <- B7.
      by repeat split. }
    apply steps_lift_then; [|done]. intros [str_out mat] _.
    apply steps_emit_then; [done|].
    destruct mat as [X|]; [|by apply steps_ret].
    destruct (hb_graph args); [by apply steps_emit|by apply steps_pure]. }
  unfold statistical_potential. destruct (do_kbp args); [|by apply steps_ret].
  apply steps_lift_then; [|done]. intros atomlist Hal.
  apply steps_emit_then.
  { simpl. rewrite <- K1, <- K2, K3, G4, Hal. by repeat split. }
  apply steps_lift_then; [|done]. intros [str_out mat] _.
  apply steps_emit_then; [done|].
  destruct mat as [X|]; [|by apply steps_ret].
  destruct (kbp_graph args); [by apply steps_emit|by apply steps_pure].
Qed.

Lemma parse_args_ffmasses dir files cl args :
  parse_args dir files cl = Return args →
  ffmasses args = default ffmasses_default (cl_ffmasses cl).
Proof.
  unfold parse_args.
  destruct (choice sbmode_choices _ _) as [m|]; [|done].
  destruct (choice hbclass_choices _ _) as [c|]; [|done].
  destruct (choice files _ _) as [f|] eqn:Hf; [|done].
  intros [= <-]. by apply choice_default in Hf.
Qed.

Lemma pyinteraph_scans_as_asked cl :
  steps (pyinteraph li os cl) (scan_as_asked li os cl) fails_nonzero.
Proof.
  unfold pyinteraph.
  apply steps_lift_then; [|done]. intros files _.
  apply steps_pure_then.
  2:{ intros e He. pose proof (parse_args_fails_nonzero (INSTALL_DIR os)
                                 files cl) as H. by rewrite He in H. }
  intros args Hargs.
  apply steps_pure_then.
  2:{ intros e He. pose proof (load_systems_fails_nonzero li args) as H.
      by rewrite He in H. }
  intros [pdb uni] _.
  rewrite (parse_args_ffmasses _ _ _ _ Hargs).
  apply (analyses_scans_as_asked (INSTALL_DIR os)); [done|].
  by eapply parse_args_namespace.
Qed.
End ScanArguments.

(** X8. Every scan of a run gets the arguments of the command line, with
    the defaults of the parser for what was not given (cutoffs 5.0 and
    3.5, angle 120, persistence 0, kbT 1, the eight hydrophobic residues,
    the files under the installation directory), and asks the library
    for the matrix exactly when a graph file was named; the only
    [dointeract] scans are those of the hydrophobic contacts, in
    centroid mode. *)
Theorem run_scans_match_command_line {U} (li : Driver.Libinteract U)
        (os : Driver.OS) (cl : Driver.cmdline) :
  Forall (Passed.scan_as_asked li os cl) (Driver.run li os cl).2.
Proof.
  apply (steps_Forall (Driver.pyinteraph li os cl) _ _ []
           (pyinteraph_scans_as_asked li os cl)).
  constructor.
Qed.

(* ===================================================================== *)
(** * The exit status of a run *)
(* ===================================================================== *)

Section ExitStatus.
Import Py Driver Ending.
Context {U : Type} (li : Libinteract U) (os : OS).
Implicit Types (args : Args) (pdb uni : U) (cl : cmdline).



Lemma status_1_lift {A} (r : libresult A) : status_1 (lift r).
Proof. by destruct r. Qed.






End ExitStatus.


(* ===================================================================== *)
(** * A donors-acceptors file that cannot be parsed *)
(* ===================================================================== *)

Section HbsError.
Import Py Driver Asked Shape.
Context {U : Type} (li : Libinteract U) (os : OS).
Implicit Types (args : Args) (pdb uni : U) (cl : cmdline).

Lemma hydrogen_bonds_hbs_error args pdb uni e P :
  do_hb args = true →
  parse_hbs_file (cfg_read os) (hbs_file args) = Raise e →
  steps (hydrogen_bonds li os args pdb uni) P fails.
Proof.
  intros Hhb He. unfold hydrogen_bonds. rewrite Hhb.
  apply steps_pure_then.
  2:{ intros e' He'. pose proof (hb_groups_fails_nonzero li uni
        (hb_class_in_effect args) (hb_group1 args) (hb_group2 args)) as H.
      by rewrite He' in H. }
  intros [g1 g2] _.
  apply steps_pure_then.
  - intros hbs Hhbs. by rewrite He in Hhbs.
  - intros e' He'. rewrite He in He'. by injection He' as <-.
Qed.

Lemma pyinteraph_hbs_error cl e P :
  cl_do_hb cl = true →
  parse_hbs_file (cfg_read os) (hbs_file_of os cl) = Raise e →
  (∀ args pdb uni ff, do_hc args = cl_do_hc cl →
     steps (hydrophobic_contacts li args pdb uni ff) P fails_nonzero) →
  steps (pyinteraph li os cl) P fails.
Proof.
  intros Hhb He Hhc. unfold pyinteraph.
  apply steps_lift_then; [|done]. intros files _.
  apply steps_pure_then.
  2:{ intros e' He'. pose proof (parse_args_fails_nonzero (INSTALL_DIR os)
                                   files cl) as H. by rewrite He' in H. }
  intros args Hargs.
  pose proof (parse_args_namespace _ _ _ _ Hargs)
    as ((Hc & _ & Hy & _) & _ & _ & _ & (_ & _ & _ & _ & _ & _ & Hf) & _).
  apply steps_pure_then.
  2:{ intros e' He'. pose proof (load_systems_fails_nonzero li args) as H.
      by rewrite He' in H. }
  intros [pdb uni] _. unfold analyses.
  eapply steps_bind;
    [by apply Hhc|intros _ _|intros e'; apply fails_nonzero_fails].
  eapply steps_bind;
    [apply salt_bridges_silent|intros _ _|intros e'; apply fails_nonzero_fails].
  eapply (steps_bind _ _ _ fails); [|by intros v []|by intros e'].
  apply (hydrogen_bonds_hbs_error _ _ _ e); [by rewrite Hy|by rewrite Hf].
Qed.
End HbsError.

(** X10. When the hydrogen bonds are requested and the donors-acceptors
    file cannot be parsed (it cannot be read, or lacks the section or one
    of the two options), the run ends with a non-zero status; all it has
    scanned or written belongs to the hydrophobic contacts, which come
    first in the script: there is no hydrogen-bond scan and no output of
    the potential; and nothing at all when the hydrophobic contacts were
    not requested. *)
Theorem hbs_file_error_fatal {U} (li : Driver.Libinteract U) (os : Driver.OS)
        (cl : Driver.cmdline) (e : Py.raised) :
  Driver.cl_do_hb cl = true →
  Driver.parse_hbs_file (Driver.cfg_read os) (Asked.hbs_file_of os cl)
  = Py.Raise e →
  let r := Driver.run li os cl in
  Py.exit_status r.1 ≠ 0 ∧
  Forall (λ ev, Driver.block_of ev = Driver.HC) r.2 ∧
  (Driver.cl_do_hc cl = false → r.2 = []).
Proof.
  intros Hhb He r.
  assert (Driver.steps (Driver.pyinteraph li os cl)
            (λ ev, Driver.block_of ev = Driver.HC) Driver.fails) as Hsteps.
  { apply (pyinteraph_hbs_error li os cl e); [done..|].
    intros args pdb uni ff _.
    eapply steps_weaken; [apply hydrophobic_contacts_steps|by intros ? []|done]. }
  split; [|split].
  - pose proof (steps_outcome _ _ _ [] Hsteps) as Hf. unfold r, Driver.run.
    by destruct (Driver.pyinteraph li os cl []).1.
  - apply (steps_Forall _ _ _ _ Hsteps). constructor.
  - intros Hoff. apply (steps_no_event _ Driver.fails).
    apply (pyinteraph_hbs_error li os cl e); [done..|].
    intros args pdb uni ff Hargs. unfold Driver.hydrophobic_contacts.
    rewrite Hargs, Hoff. by apply steps_ret.
Qed.

Lemma hbs_file_error_fatal_witness :
  let cl := MoreSamples.cl_hc_hb_wrong_file in
  let r := Driver.run Samples.li Samples.os cl in
  Driver.cl_do_hb cl = true ∧
  Driver.parse_hbs_file (Driver.cfg_read Samples.os)
    (Asked.hbs_file_of Samples.os cl)
  = Py.Raise (Py.Exc Py.NoSectionError) ∧
  Py.exit_status r.1 ≠ 0 ∧
  Forall (λ ev, Driver.block_of ev = Driver.HC) r.2.
Proof.
  intros cl r.
  assert (Driver.parse_hbs_file (Driver.cfg_read Samples.os)
            (Asked.hbs_file_of Samples.os cl)
          = Py.Raise (Py.Exc Py.NoSectionError)) as He by reflexivity.
  split; [reflexivity|]. split; [exact He|].
  destruct (hbs_file_error_fatal Samples.li Samples.os cl _ eq_refl He)
    as (Hst & Hhc & _).
  split; [exact Hst|exact Hhc].
Defined.

(* ===================================================================== *)
(** * The reference parser of the charged groups *)
(* ===================================================================== *)

Section FoldM.
Import Py.

Lemma bind_Return {E A B} (m : outcome E A) (k : A → outcome E B) r :
  m ≫= k = Return r → ∃ v, m = Return v ∧ k v = Return r.
Proof. destruct m as [v|e]; [|done]. intros H. by exists v. Qed.

Lemma lift_Return {A} (m : libresult A) v : lift m = Return v → m = Return v.
Proof. destruct m; [|done]. by intros [= ->]. Qed.

Lemma getitem_Return {V} (d : gmap string V) k v :
  getitem d k = Return v → d !! k = Some v.
Proof. unfold getitem. destruct (d !! k); [|done]. by intros [= ->]. Qed.

(** A loop that ends normally has kept, item after item, what holds of
    the items gone through and the state. *)
Lemma foldM_prefix {E A S} (f : S → A → outcome E S)
      (I : list A → S → Prop) (l : list A) :
  (∀ pre a s s', I pre s → f s a = Return s' → I (pre ++ [a])%list s') →
  ∀ pre s r, I pre s → foldM f s l = Return r → I (pre ++ l)%list r.
Proof.
  intros Hstep. induction l as [|a l IH]; intros pre s r HI; simpl.
  - intros [= <-]. by rewrite app_nil_r.
  - destruct (f s a) as [s'|e] eqn:Hf; [|done]. simpl. intros Hr.
    rewrite (cons_middle a pre l), app_assoc.
    eapply IH; [|done]. by eapply Hstep.
Qed.
End FoldM.

Section LowerCase.

Lemma lower_char_idem (c : ascii) :
  Str.lower_char (Str.lower_char c) = Str.lower_char c.
Proof. destruct c as [[] [] [] [] [] [] [] []]; reflexivity. Qed.

Lemma lower_idem (s : string) : Str.lower (Str.lower s) = Str.lower s.
Proof.
  induction s as [|c s IH]; [done|].
  unfold Str.lower in *. simpl. by rewrite lower_char_idem, IH.
Qed.

(** [cfg.get] looks an option up by its lower-case name. *)
Lemma get_lower (cfg : ConfigParser.t) (section option : string) :
  ConfigParser.get cfg section (Str.lower option)
  = ConfigParser.get cfg section option.
Proof.
  unfold ConfigParser.get, ConfigParser.optionxform. by rewrite lower_idem.
Qed.
End LowerCase.

Section ReferenceParser.
Import Py Reference.
Variable cfg_read : string -> libresult ConfigParser.t.

Lemma names_of_stripped (v : string) :
  map Str.strip (names_of v) = names_of v.
Proof.
  unfold names_of. rewrite <- list_fmap_compose.
  apply list_fmap_ext. intros _ s _. apply strip_idem.
Qed.

(** The group definitions, after the first loop. *)
Lemma group_definitions_atoms cfg groups gd :
  foldM (λ (gd : gmap string (list string)) i,
           v ← ConfigParser.get cfg "CHARGED_GROUPS" i;
           mret (<[i := map Str.strip (Str.split "," v)]> gd))
        ∅ groups = Return gd →
  ∀ k atoms, gd !! k = Some atoms → atoms_of cfg k atoms.
Proof.
  intros Hgd.
  refine (foldM_prefix _ (λ _ gd, ∀ k atoms, gd !! k = Some atoms →
                                    atoms_of cfg k atoms) groups
            _ [] ∅ gd _ Hgd); [|done].
  intros _ i s s' IH (v & Hv & [= <-])%bind_Return k atoms.
  intros [[<- <-]|[_ Hk]]%lookup_insert_Some; [by exists v|by eapply IH].
Qed.

(** The default groups of a residue. *)
Lemma default_groups_entry cfg (gd : gmap string (list string)) dflts d :
  (∀ k atoms, gd !! k = Some atoms → atoms_of cfg k atoms) →
  foldM (λ (d : gmap string (list string)) j,
           g ← getitem gd j; mret (<[j := g]> d)) ∅ dflts = Return d →
  dom d = (list_to_set dflts : gset string) ∧
  ∀ j atoms, d !! j = Some atoms → atoms_of cfg j atoms.
Proof.
  intros Hgd Hd.
  refine (foldM_prefix _ (λ pre d,
            dom d = (list_to_set pre : gset string) ∧
            ∀ j atoms, d !! j = Some atoms → atoms_of cfg j atoms) dflts
            _ [] ∅ d _ Hd); [|by rewrite dom_empty_L].
  intros pre j s s' [Hdom IH] (g & Hg%getitem_Return & [= <-])%bind_Return.
  split.
  - rewrite dom_insert_L, Hdom, list_to_set_app_L. simpl.
    rewrite (right_id_L ∅ (∪)). apply (comm_L (∪)).
  - intros k atoms [[<- <-]|[_ Hk]]%lookup_insert_Some;
      [by eapply Hgd|by eapply IH].
Qed.

(** The groups the file lists for a residue, added to the default
    ones. *)
Lemma residue_groups_entry cfg (gd : gmap string (list string)) d0 names d :
  (∀ k atoms, gd !! k = Some atoms → atoms_of cfg k atoms) →
  (∀ j atoms, d0 !! j = Some atoms → atoms_of cfg j atoms) →
  foldM (λ (d : gmap string (list string)) j,
           if String.eqb j "" then mret d
           else g ← getitem gd (Str.lower j); mret (<[j := g]> d))
        d0 names = Return d →
  dom d = dom d0 ∪ (list_to_set (filter (λ j, j ≠ "") names) : gset string) ∧
  ∀ j atoms, d !! j = Some atoms → atoms_of cfg j atoms.
Proof.
  intros Hgd Hd0 Hd.
  refine (foldM_prefix _ (λ pre d,
            dom d = dom d0 ∪ (list_to_set (filter (λ j, j ≠ "") pre)
                              : gset string) ∧
            ∀ j atoms, d !! j = Some atoms → atoms_of cfg j atoms) names
            _ [] d0 d _ Hd).
  2:{ split; [|done]. rewrite filter_nil. simpl.
      by rewrite (right_id_L ∅ (∪)). }
  intros pre j s s' [Hdom IH] Hstep. rewrite filter_app.
  destruct (String.eqb_spec j "") as [->|Hne].
  - injection Hstep as <-. split; [|done].
    rewrite Hdom. rewrite filter_cons_False by (by intros ?).
    by rewrite filter_nil, app_nil_r.
  - apply bind_Return in Hstep as (g & Hg%getitem_Return & [= <-]).
    split.
    + rewrite dom_insert_L, Hdom, filter_cons_True by done.
      rewrite filter_nil, list_to_set_app_L. simpl.
      rewrite (right_id_L ∅ (∪)), (comm_L (∪) {[j]}).
      by rewrite (assoc_L (∪)).
    + intros k atoms [[<- <-]|[_ Hk]]%lookup_insert_Some; [|by eapply IH].
      destruct (Hgd _ _ Hg) as (v & Hv & ->). exists v.
      by rewrite <- get_lower.
Qed.
End ReferenceParser.

(** X11. When the reference parser of the test suite returns a
    dictionary, the file could be read and has the sections
    CHARGED_GROUPS, with the option default_charged_groups, and
    RESIDUES; the keys of the dictionary are the residue names of the
    file in upper case; and the entry of each residue has exactly the
    default groups and the non-empty names the file lists for the
    residue, each group with the stripped, comma-separated atom names
    CHARGED_GROUPS gives for it. *)
Theorem reference_parse_cgs_file_result
        (cfg_read : string -> Py.libresult ConfigParser.t) (fname : string)
        (out : gmap string (gmap string (list string))) :
  TestSuite.parse_cgs_file cfg_read fname = Py.Return out →
  ∃ cfg residues dflt,
    cfg_read fname = Py.Return cfg ∧
    ConfigParser.options cfg "RESIDUES" = Py.Return residues ∧
    ConfigParser.get cfg "CHARGED_GROUPS" "default_charged_groups"
    = Py.Return dflt ∧
    dom out = (list_to_set (map Str.upper residues) : gset string) ∧
    ∀ res d, out !! res = Some d → Reference.residue_entry cfg dflt res d.
Proof.
  unfold TestSuite.parse_cgs_file. cbv zeta.
  intros (cfg & Hread0%lift_Return & H)%bind_Return.
  apply bind_Return in H as (cfg' & Hread & H).
  rewrite Hread0 in Hread. cbn in Hread. injection Hread as <-.
  apply bind_Return in H as (charged_groups & _ & H).
  apply bind_Return in H as (default_charged & Hdc%lift_Return & H).
  apply bind_Return in Hdc as (dflt & Hdflt & [= <-]).
  apply bind_Return in H as (residues & Hres%lift_Return & H).
  apply bind_Return in H as (gd1 & Hgd1%lift_Return & H).
  apply bind_Return in H as (gd2 & Hgd2%lift_Return & H).
  apply bind_Return in H as (out' & Hout & [= <-]).
  exists cfg, residues, dflt. do 3 (split; [done|]).
  pose proof (group_definitions_atoms _ _ _ Hgd1) as Hatoms1.
  (* the second loop strips again the atoms of the last group *)
  assert (∀ k atoms, gd2 !! k = Some atoms → Reference.atoms_of cfg k atoms)
    as Hatoms.
  { destruct (last _) as [i|]; [|done].
    apply bind_Return in Hgd2 as (l & Hl%getitem_Return & [= <-]).
    intros k atoms [[<- <-]|[_ Hk]]%lookup_insert_Some; [|by eapply Hatoms1].
    destruct (Hatoms1 _ _ Hl) as (v & Hv & ->). exists v.
    by rewrite names_of_stripped. }
  destruct (Py.foldM _ ∅ residues) as [o|e] eqn:Hloop; [|done].
  cbn in Hout. injection Hout as ->.
  refine (foldM_prefix _ (λ pre out,
            dom out = (list_to_set (map Str.upper pre) : gset string) ∧
            ∀ res d, out !! res = Some d →
                     Reference.residue_entry cfg dflt res d) residues
            _ [] ∅ out' _ Hloop); [|by rewrite dom_empty_L].
  intros pre i s s' [Hdom IH] Hstep.
  apply bind_Return in Hstep as (d1 & Hd1 & Hstep).
  apply bind_Return in Hstep as (v & Hv & Hstep).
  apply bind_Return in Hstep as (d2 & Hd2 & [= <-]).
  apply (default_groups_entry cfg) in Hd1 as [Hdom1 Hat1]; [|done].
  apply (residue_groups_entry cfg) in Hd2 as [Hdom2 Hat2]; [|done..].
  split.
  - rewrite dom_insert_L, Hdom, map_app, list_to_set_app_L. simpl.
    rewrite (right_id_L ∅ (∪)). apply (comm_L (∪)).
  - intros res d [[<- <-]|[_ Hk]]%lookup_insert_Some; [|by eapply IH].
    exists v. split; [done|]. split; [|done].
    by rewrite Hdom2, Hdom1.
Qed.

Lemma reference_parse_cgs_file_result_witness :
  ∃ cfg residues dflt,
    Samples.read_sample "charged_groups.ini" = Py.Return cfg ∧
    ConfigParser.options cfg "RESIDUES" = Py.Return residues ∧
    ConfigParser.get cfg "CHARGED_GROUPS" "default_charged_groups"
    = Py.Return dflt ∧
    dom Samples.charged_groups_expected
    = (list_to_set (map Str.upper residues) : gset string) ∧
    ∀ res d, Samples.charged_groups_expected !! res = Some d →
             Reference.residue_entry cfg dflt res d.
Proof.
  apply (reference_parse_cgs_file_result Samples.read_sample
           "charged_groups.ini" Samples.charged_groups_expected).
  vm_compute. reflexivity.
Defined.

(* ===================================================================== *)
(** * What the comparison of the hydrogen-bond report checks *)
(* ===================================================================== *)

Section ReportComparison.
Import TestSuite.

Lemma sorted_length (lines : list string) :
  List.length (sorted lines) = List.length lines.
Proof. unfold sorted. by rewrite merge_sort_Permutation. Qed.
End ReportComparison.

(** X12. The last loop of [test_do_interact_hb] passes exactly when the
    report has no more lines than the reference file and its sorted
    lines are the first sorted lines of the reference, stripped: lines
    of the reference beyond the length of the report are not looked at,
    and an empty report passes against every reference. *)
Theorem hb_report_test_checks_prefix (report_lines ref_hb : list string) :
  (TestSuite.hb_report_matches report_lines ref_hb ↔
   (List.length report_lines ≤ List.length ref_hb)%nat ∧
   TestSuite.sorted report_lines
   = map Str.strip (take (List.length report_lines) (TestSuite.sorted ref_hb))) ∧
  TestSuite.hb_report_matches [] ref_hb.
Proof.
  assert (∀ lines,
    TestSuite.hb_report_matches lines ref_hb ↔
    (List.length lines ≤ List.length ref_hb)%nat ∧
    TestSuite.sorted lines
    = map Str.strip (take (List.length lines) (TestSuite.sorted ref_hb))) as Hiff.
  { intros lines. unfold TestSuite.hb_report_matches. cbv zeta.
    rewrite <- (sorted_length lines), <- (sorted_length ref_hb).
    generalize (TestSuite.sorted lines) (TestSuite.sorted ref_hb).
    clear. intros l r. split.
    - intros H.
      assert (List.length l ≤ List.length r)%nat as Hlen.
      { destruct (decide (List.length l ≤ List.length r)%nat) as [|Hgt]; [done|].
        destruct (lookup_lt_is_Some_2 l (List.length r)) as [s Hs]; [lia|].
        destruct (H _ _ Hs) as (x & Hx%lookup_lt_Some & _). lia. }
      split; [done|]. apply list_eq. intros i.
      rewrite list_lookup_fmap.
      destruct (l !! i) as [s|] eqn:Hs.
      + destruct (H _ _ Hs) as (x & Hx & ->).
        apply lookup_lt_Some in Hs.
        by rewrite lookup_take_lt, Hx by done.
      + apply lookup_ge_None in Hs.
        by rewrite lookup_take_ge by done.
    - intros [Hlen Heq] i s Hs.
      pose proof (lookup_lt_Some _ _ _ Hs) as Hi.
      rewrite Heq, list_lookup_fmap, lookup_take_lt in Hs by done.
      destruct (r !! i) as [x|]; [|done].
      injection Hs as <-. by exists x. }
  split; [apply Hiff|].
  apply Hiff. split; [simpl; lia|done].
Qed.

(* ===================================================================== *)
(** * Where what is written comes from *)
(* ===================================================================== *)

Section WrittenResults.
Import Py Driver Shape Written.
Context {U : Type} (li : Libinteract U) (os : OS).
Implicit Types (args : Args) (pdb uni : U) (cl : cmdline)
         (l : list (event U)).

Lemma salt_bridges_silent_runs args pdb uni ff :
  runs (salt_bridges li os args pdb uni ff) (λ _ l, l = []).
Proof.
  intros tr.
  destruct (salt_bridges_silent li os args pdb uni ff (λ _, False) tr)
    as (new & Heq & Hnew & _).
  destruct Hnew as [|? ? []].
  exists (salt_bridges li os args pdb uni ff tr).1, [].
  split; [|done]. rewrite <- Heq. by destruct (salt_bridges _ _ _ _ _ _ _).
Qed.

Lemma holds_result_mono l l' w :
  l ⊆ l' → holds_result li l w → holds_result li l' w.
Proof.
  intros Hsub. destruct w; simpl; try done.
  - intros (scan & m & Hin & ?). exists scan, m. auto.
  - intros (scan & s & Hin & ?). exists scan, s. auto.
Qed.

Lemma results_ok_app r1 r2 r l1 l2 :
  results_ok li r1 l1 → results_ok li r2 l2 → results_ok li r (l1 ++ l2).
Proof.
  unfold results_ok. intros H1 H2. apply Forall_app. split.
  - eapply Forall_impl; [exact H1|]. intros w.
    apply holds_result_mono. intros x. rewrite elem_of_app. auto.
  - eapply Forall_impl; [exact H2|]. intros w.
    apply holds_result_mono. intros x. rewrite elem_of_app. auto.
Qed.

Lemma runs_results_then (p1 p2 : proc U unit) :
  runs p1 (results_ok li) → runs p2 (results_ok li) →
  runs (p1 ≫= λ _, p2) (results_ok li).
Proof.
  intros H1 H2. eapply runs_weaken; [by apply runs_then|].
  intros r l (r1 & l1 & Hl1 & [[_ (l2 & Hl2 & ->)]|(_ & _ & ->)]);
    [by eapply results_ok_app|done].
Qed.

Lemma results_ok_nil r : results_ok li r [].
Proof. constructor. Qed.

(** A scan, the report with its text, the matrix file with its
    matrix. *)
Lemma results_ok_block r scan a dat s m :
  block_of scan = a →
  scan_result li scan = Some (Return (s, m)) →
  results_ok li r [scan] ∧
  results_ok li r [scan; Write_str2file a dat s] ∧
  ∀ f X fmt, m = Some X →
    results_ok li r [scan; Write_str2file a dat s; Write_savetxt a f X fmt].
Proof.
  intros Ha Hres.
  assert (∀ l, holds_result li l scan) as Hscan by (by destruct scan).
  assert (∀ l, scan ∈ l → holds_result li l (Write_str2file a dat s)) as Hrep.
  { intros l Hin. by exists scan, m. }
  split; [|split].
  - by repeat constructor.
  - repeat constructor; [done|]. apply Hrep. rewrite elem_of_cons. auto.
  - intros f X fmt ->. repeat constructor; [done|..].
    + apply Hrep. rewrite elem_of_cons. auto.
    + exists scan, s. rewrite elem_of_cons. auto.
Qed.

Lemma results_ok_scan r scan :
  is_scan scan = true → results_ok li r [scan].
Proof. intros Hs. repeat constructor. by destruct scan. Qed.

Ltac unfold_block :=
  unfold mbind, mret, proc_bind, proc_ret, then_, pure, emit, str2file,
    save_mat, savetxt.

Ltac trace_eq :=
  unfold emit, pure;
  first [ rewrite snoc3; reflexivity | rewrite snoc2; reflexivity
        | rewrite app_nil_r; reflexivity | reflexivity ].

Ltac block_cases res scan a dat graph :=
  let Hres := fresh "Hres" in
  destruct res as [[s [X|]]|e] eqn:Hres; simpl;
    [ assert (scan_result li scan = Some (Return (s, Some X))) as Hsc
        by (simpl; by rewrite Hres);
      destruct (results_ok_block (Return tt) scan a dat s (Some X) eq_refl Hsc)
        as (_ & Hrep & Hmat);
      destruct graph as [f|]; simpl;
      [ eexists _, [scan; _; _]; split; [trace_eq|]; by apply Hmat
      | eexists _, [scan; _]; split; [trace_eq|]; exact Hrep ]
    | assert (scan_result li scan = Some (Return (s, None))) as Hsc
        by (simpl; by rewrite Hres);
      destruct (results_ok_block (Return tt) scan a dat s None eq_refl Hsc)
        as (_ & Hrep & _);
      eexists _, [scan; _]; split; [trace_eq|]; exact Hrep
    | eexists _, [scan]; split; [trace_eq|];
      by apply results_ok_scan ].

Lemma analyses_results args pdb uni ff :
  runs (analyses li os args pdb uni ff) (results_ok li).
Proof.
  unfold analyses.
  apply runs_results_then.
  { intros tr. unfold hydrophobic_contacts. destruct (do_hc args).
    2:{ exists (Return tt), []. split; [trace_eq|constructor]. }
    unfold_block.
    match goal with |- context [dointeract li ?c] => set (call := c) end.
    block_cases (dointeract li call) (Scan_dointeract call) HC (hc_dat args) (hc_graph args). }
  apply runs_results_then.
  { eapply runs_weaken; [by apply salt_bridges_silent_runs|].
    intros r l ->. constructor. }
  apply runs_results_then.
  { intros tr. unfold hydrogen_bonds. destruct (do_hb args).
    2:{ exists (Return tt), []. split; [trace_eq|constructor]. }
    unfold_block.
    destruct (hb_groups li uni _ _ _) as [[g1 g2]|e1].
    2:{ exists (Raise e1), []. split; [trace_eq|constructor]. }
    destruct (or_exit (parse_hbs_file _ _)) as [hbs|e2]; simpl.
    2:{ exists (Raise e2), []. split; [trace_eq|constructor]. }
    match goal with |- context [dohbonds li ?c] => set (call := c) end.
    block_cases (dohbonds li call) (Scan_dohbonds call) HB (hb_dat args) (hb_graph args). }
  intros tr. unfold statistical_potential. destruct (do_kbp args).
  2:{ exists (Return tt), []. split; [trace_eq|constructor]. }
  unfold_block.
  destruct (parse_atomlist li _) as [atomlist|e1]; simpl.
  2:{ exists (Raise (Exc e1)), []. split; [trace_eq|constructor]. }
  match goal with |- context [dopotential li ?c] => set (call := c) end.
  block_cases (dopotential li call) (Scan_dopotential call) KBP (kbp_dat args) (kbp_graph args).
Qed.

Lemma pyinteraph_results cl : runs (pyinteraph li os cl) (results_ok li).
Proof.
  intros tr. unfold pyinteraph.
  unfold mbind at 1, proc_bind, then_, pure.
  destruct (listdir os _) as [files|e]; simpl.
  2:{ exists (Raise (Exc e)), []. rewrite app_nil_r. split; [done|constructor]. }
  unfold mbind at 1, proc_bind, then_, pure.
  destruct (parse_args _ files cl) as [args|e].
  2:{ exists (Raise e), []. rewrite app_nil_r. split; [done|constructor]. }
  unfold mbind at 1, proc_bind, then_, pure.
  destruct (load_systems li args) as [[pdb uni]|e].
  2:{ exists (Raise e), []. rewrite app_nil_r. split; [done|constructor]. }
  apply analyses_results.
Qed.

(** ** The systems the scans work on *)

Lemma load_systems_loaded dir cl args sys :
  namespace_of dir cl args →
  load_systems li args = Return sys → loaded li cl sys.
Proof.
  intros (_ & _ & _ & _ & _ & _ & Htop & Htrj & Href).
  unfold load_systems, loaded. rewrite Htop, Htrj, Href.
  destruct (cl_top cl) as [t|], (cl_trj cl) as [j|]; try done.
  destruct (loadsys li _ t j) as [sys'|e] eqn:Hload; [|by destruct e].
  intros [= ->]. by exists t, j.
Qed.

Lemma analyses_systems args pdb uni ff :
  steps (analyses li os args pdb uni ff)
        (λ e, ∀ sys, systems_of e = Some sys → sys = (pdb, uni))
        fails_nonzero.
Proof.
  assert (∀ a graph mat fmt,
            steps (save_mat a graph mat fmt)
                  (λ e : event U, ∀ sys, systems_of e = Some sys →
                                         sys = (pdb, uni))
                  fails_nonzero) as Hsave.
  { intros a graph [X|] fmt; [|by apply steps_ret].
    destruct graph as [f|]; [by apply steps_emit|by apply steps_pure]. }
  unfold analyses.
  eapply steps_bind; [|intros _ _|intros e He; exact He].
  { unfold hydrophobic_contacts. destruct (do_hc args); [|by apply steps_ret].
    apply steps_emit_then; [by intros sys [= <-]|].
    apply steps_lift_then; [|done]. intros [str_out mat] _.
    apply steps_emit_then; [done|]. apply Hsave. }
  eapply steps_bind;
    [apply salt_bridges_silent|intros _ _|intros e He; exact He].
  eapply steps_bind; [|intros _ _|intros e He; exact He].
  { unfold hydrogen_bonds. destruct (do_hb args); [|by apply steps_ret].
    apply steps_pure_then.
    2:{ intros e He. pose proof (hb_groups_fails_nonzero li uni
          (hb_class_in_effect args) (hb_group1 args) (hb_group2 args)) as H.
        by rewrite He in H. }
    intros [g1 g2] _.
    apply steps_pure_then.
    2:{ intros e He.
        pose proof (fails_nonzero_or_exit
          (parse_hbs_file (cfg_read os) (hbs_file args))) as H.
        by rewrite He in H. }
    intros hbs _.
    apply steps_emit_then; [by intros sys [= <-]|].
    apply steps_lift_then; [|done]. intros [str_out mat] _.
    apply steps_emit_then; [done|]. apply Hsave. }
  unfold statistical_potential. destruct (do_kbp args); [|by apply steps_ret].
  apply steps_lift_then; [|done]. intros atomlist _.
  apply steps_emit_then; [by intros sys [= <-]|].
  apply steps_lift_then; [|done]. intros [str_out mat] _.
  apply steps_emit_then; [done|]. apply Hsave.
Qed.

Lemma pyinteraph_systems cl :
  steps (pyinteraph li os cl)
        (λ e, ∀ sys, systems_of e = Some sys → loaded li cl sys)
        fails_nonzero.
Proof.
  unfold pyinteraph.
  apply steps_lift_then; [|done]. intros files _.
  apply steps_pure_then.
  2:{ intros e He. pose proof (parse_args_fails_nonzero (INSTALL_DIR os)
                                 files cl) as H. by rewrite He in H. }
  intros args Hargs%parse_args_namespace.
  apply steps_pure_then.
  2:{ intros e He. pose proof (load_systems_fails_nonzero li args) as H.
      by rewrite He in H. }
  intros [pdb uni] Hload%(load_systems_loaded _ _ _ _ Hargs).
  eapply steps_weaken; [apply analyses_systems| |done].
  intros e He sys Hsys. by rewrite (He _ Hsys).
Qed.
End WrittenResults.

(** X13. Every file a run writes holds what the library returned for a
    scan of the same analysis in that run: a report holds the text the
    scan returned, a matrix file the matrix it returned.  The script
    writes nothing of its own making. *)
Theorem written_files_hold_scan_results {U} (li : Driver.Libinteract U)
        (os : Driver.OS) (cl : Driver.cmdline) :
  let tr := (Driver.run li os cl).2 in
  Forall (Written.holds_result li tr) tr.
Proof.
  apply (runs_outcome (Driver.pyinteraph li os cl) _
           (pyinteraph_results li os cl)).
Qed.

(** X14. Every scan of a run works on the two systems [loadsys] returned
    for the topology and the trajectory of the command line, with the
    reference structure given or, when none was given, with the topology
    as reference. *)
Theorem scans_use_loaded_systems {U} (li : Driver.Libinteract U)
        (os : Driver.OS) (cl : Driver.cmdline) :
  Forall (λ e, ∀ sys, Written.systems_of e = Some sys →
                      Written.loaded li cl sys)
         (Driver.run li os cl).2.
Proof.
  apply (steps_Forall (Driver.pyinteraph li os cl) _ _ []
           (pyinteraph_systems li os cl)).
  constructor.
Qed.

(* ===================================================================== *)
(** * Configuration errors and what has been written before them *)
(* ===================================================================== *)

Section ConfigErrors.
Import Py Driver Asked Shape Config.
Context {U : Type} (li : Libinteract U) (os : OS).
Implicit Types (args : Args) (pdb uni : U) (cl : cmdline)
         (P : event U → Prop).

Lemma block_steps args pdb uni ff b :
  steps (block li os args pdb uni ff b)
        (λ e, block_of e = b ∧ event_ok e) fails_nonzero.
Proof.
  destruct b; simpl.
  - apply hydrophobic_contacts_steps.
  - apply salt_bridges_steps.
  - apply hydrogen_bonds_steps.
  - apply statistical_potential_steps.
Qed.

(** A block that was not requested does nothing. *)
Lemma block_skipped files cl args pdb uni ff b P :
  parse_args (INSTALL_DIR os) files cl = Return args →
  requested cl b = false →
  steps (block li os args pdb uni ff b) P fails_nonzero.
Proof.
  intros ((Hc & Hs & Hy & Hk) & _)%parse_args_namespace Hrq.
  destruct b; simpl in *.
  - unfold hydrophobic_contacts. rewrite Hc, Hrq. by apply steps_ret.
  - unfold salt_bridges. rewrite Hs, Hrq. by apply steps_ret.
  - unfold hydrogen_bonds. rewrite Hy, Hrq. by apply steps_ret.
  - unfold statistical_potential. rewrite Hk, Hrq. by apply steps_ret.
Qed.

(** The potential with an atom-list file that cannot be parsed, or a
    potential file the library refuses: the block fails before it
    writes. *)
Lemma statistical_potential_config_error args pdb uni P :
  do_kbp args = true →
  (∃ e, parse_atomlist li (kbp_atomlist args) = Raise e) ∨
  (∀ c, dp_potential_file c = kbp_ff args → ∃ e, dopotential li c = Raise e) →
  (∀ e, is_scan e = true → P e) →
  steps (statistical_potential li args pdb uni) P fails.
Proof.
  intros Hk Herr HP. unfold statistical_potential. rewrite Hk.
  apply steps_lift_then; [|done]. intros atomlist Hal.
  destruct Herr as [[e He]|Hff]; [by rewrite He in Hal|].
  apply steps_emit_then; [by apply HP|].
  apply steps_lift_then; [|done]. intros [str_out mat] Hres.
  match type of Hres with
  | dopotential li ?c = _ => destruct (Hff c eq_refl) as [e He]
  end.
  by rewrite He in Hres.
Qed.

Lemma block_config_error files cl args pdb uni ff a P :
  parse_args (INSTALL_DIR os) files cl = Return args →
  config_error li os cl a →
  (∀ e, is_scan e = true → P e) →
  steps (block li os args pdb uni ff a) P fails.
Proof.
  intros Hargs [Hrq Herr] HP.
  destruct (parse_args_fields _ _ _ _ Hargs) as (_ & Hs & _ & _ & Hf & _).
  pose proof (parse_args_namespace _ _ _ _ Hargs)
    as ((_ & _ & Hy & Hk) & _ & _ & _ & (_ & _ & _ & _ & _ & _ & Hhbs) &
        (Hff & Hal & _) & _).
  destruct a; simpl in *; [done|..].
  - destruct Herr as [e He].
    apply (steps_fails_silent _ e).
    + intros tr. apply salt_bridges_fails; [by rewrite Hs|by rewrite Hf].
    + pose proof (parse_cgs_file_status (cfg_read os) (cgs_file_of os cl)) as H.
      rewrite He in H. destruct e; simpl in *; lia.
  - destruct Herr as [e He].
    apply (hydrogen_bonds_hbs_error _ _ _ _ _ e); [by rewrite Hy|by rewrite Hhbs].
  - apply statistical_potential_config_error; [by rewrite Hk| |done].
    unfold atomlist_of, potential_of in Herr. by rewrite Hff, Hal.
Qed.

Lemma analyses_config_error files cl args pdb uni ff a P :
  parse_args (INSTALL_DIR os) files cl = Return args →
  config_error li os cl a →
  (∀ e, is_scan e = true → P e) →
  (∀ b, script_before b a →
        steps (block li os args pdb uni ff b) P fails_nonzero) →
  steps (analyses li os args pdb uni ff) P fails.
Proof.
  intros Hargs Herr HP Hb.
  pose proof (block_config_error files cl args pdb uni ff a P Hargs Herr HP)
    as Hfail.
  change (analyses li os args pdb uni ff)
    with (block li os args pdb uni ff HC ≫= λ _,
          block li os args pdb uni ff SB ≫= λ _,
          block li os args pdb uni ff HB ≫= λ _,
          block li os args pdb uni ff KBP).
  unfold script_before in Hb.
  destruct a; [by destruct Herr| | |].
  - eapply steps_bind; [apply Hb; simpl; lia|intros _ _|by intros e].
    eapply (steps_bind _ _ _ fails); [exact Hfail|by intros v []|by intros e].
  - eapply steps_bind; [apply Hb; simpl; lia|intros _ _|by intros e].
    eapply steps_bind; [apply Hb; simpl; lia|intros _ _|by intros e].
    eapply (steps_bind _ _ _ fails); [exact Hfail|by intros v []|by intros e].
  - eapply steps_bind; [apply Hb; simpl; lia|intros _ _|by intros e].
    eapply steps_bind; [apply Hb; simpl; lia|intros _ _|by intros e].
    eapply steps_bind; [apply Hb; simpl; lia|intros _ _|by intros e].
    exact Hfail.
Qed.

Lemma pyinteraph_config_error cl a P :
  config_error li os cl a →
  (∀ e, is_scan e = true → P e) →
  (∀ files args pdb uni ff b,
     parse_args (INSTALL_DIR os) files cl = Return args →
     script_before b a →
     steps (block li os args pdb uni ff b) P fails_nonzero) →
  steps (pyinteraph li os cl) P fails.
Proof.
  intros Herr HP Hb. unfold pyinteraph.
  apply steps_lift_then; [|done]. intros files _.
  apply steps_pure_then.
  2:{ intros e' He'. pose proof (parse_args_fails_nonzero (INSTALL_DIR os)
                                   files cl) as H. by rewrite He' in H. }
  intros args Hargs.
  apply steps_pure_then.
  2:{ intros e' He'. pose proof (load_systems_fails_nonzero li args) as H.
      by rewrite He' in H. }
  intros [pdb uni] _.
  eapply analyses_config_error; [exact Hargs|exact Herr|exact HP|].
  intros b Hsb. by apply (Hb files).
Qed.

Lemma written_no_output a (tr : list (event U)) :
  Forall (no_output_from a) tr →
  Forall (λ w, script_before w.1 a) (written tr).
Proof.
  induction 1 as [|e tr He _ IH]; [constructor|].
  destruct e; simpl; auto.
Qed.

Lemma written_scans (tr : list (event U)) :
  Forall (λ e, is_scan e = true) tr → written tr = [].
Proof.
  induction 1 as [|e tr He _ IH]; [done|]. by destruct e.
Qed.
End ConfigErrors.

(** C2 (as amended). When a configuration error occurs in a requested
    analysis (the charged-groups file of the salt bridges or the
    donors-acceptors file of the hydrogen bonds cannot be parsed, the
    atom-list file of the potential cannot be parsed or its potential
    file is refused), the process exits with a non-zero status and no
    file of that analysis or of an analysis that comes after it in the
    script has been written: every file written belongs to an analysis
    that comes earlier in the script, and no file at all has been
    written when no earlier analysis was requested. *)
Theorem config_error_keeps_earlier_output {U} (li : Driver.Libinteract U)
        (os : Driver.OS) (cl : Driver.cmdline) (a : Driver.analysis) :
  Config.config_error li os cl a →
  let r := Driver.run li os cl in
  Py.exit_status r.1 ≠ 0 ∧
  Forall (λ w, Config.script_before w.1 a) (Driver.written r.2) ∧
  ((∀ b, Config.script_before b a → Asked.requested cl b = false) →
   Driver.written r.2 = []).
Proof.
  intros Herr r.
  assert (Driver.steps (Driver.pyinteraph li os cl)
            (Config.no_output_from a) Driver.fails) as Hsteps.
  { apply (pyinteraph_config_error li os cl a); [done|by intros []|].
    intros files args pdb uni ff b _ Hb.
    eapply steps_weaken; [apply block_steps| |done].
    intros e [<- _]. by destruct e. }
  split; [|split].
  - pose proof (steps_outcome _ _ _ [] Hsteps) as Hf. unfold r, Driver.run.
    by destruct (Driver.pyinteraph li os cl []).1.
  - apply written_no_output, (steps_Forall _ _ _ _ Hsteps). constructor.
  - intros Hoff. apply written_scans.
    apply (steps_Forall (Driver.pyinteraph li os cl) _ Driver.fails);
      [|constructor].
    apply (pyinteraph_config_error li os cl a); [done..|].
    intros files args pdb uni ff b Hargs Hb.
    eapply block_skipped; [exact Hargs|by apply Hoff].
Qed.

Lemma config_error_keeps_earlier_output_witness :
  let cl := Samples.cl_hc_sb in
  let r := Driver.run Samples.li Samples.os cl in
  Config.config_error Samples.li Samples.os cl Driver.SB ∧
  Py.exit_status r.1 ≠ 0 ∧
  Forall (λ w, Config.script_before w.1 Driver.SB) (Driver.written r.2).
Proof.
  intros cl r.
  assert (Config.config_error Samples.li Samples.os cl Driver.SB) as Herr.
  { split; [reflexivity|]. exists (Py.SystemExit 1). reflexivity. }
  split; [exact Herr|].
  destruct (config_error_keeps_earlier_output Samples.li Samples.os cl
              Driver.SB Herr) as (Hst & Hw & _).
  split; [exact Hst|exact Hw].
Defined.

(** C2 (the claim as stated fails). With the hydrophobic contacts and the
    salt bridges both requested and a charged-groups file that cannot be
    parsed, the run exits with status 1 after it has written the report
    and the matrix of the hydrophobic contacts. *)
Lemma cgs_error_after_hc_output :
  Driver.cl_do_hc Samples.cl_hc_sb = true ∧
  Driver.cl_do_sb Samples.cl_hc_sb = true ∧
  Driver.cfg_read Samples.os (Driver.cgs_file_of Samples.os Samples.cl_hc_sb)
    = Py.Raise Py.ParsingError ∧
  (let r := Driver.run Samples.li Samples.os Samples.cl_hc_sb in
   Py.exit_status r.1 = 1 ∧
   Driver.written r.2
   = [(Driver.HC, "hydrophobic-clusters.dat"); (Driver.HC, "hc-graph.dat")] ∧
   Driver.written r.2 ≠ []).
Proof. vm_compute. repeat split; discriminate. Qed.

(* ===================================================================== *)
(** * Custom groups of the hydrogen bonds that cannot be used *)
(* ===================================================================== *)

Section CustomGroups.
Import Py Driver.
Context {U : Type} (li : Libinteract U) (os : OS).


End CustomGroups.




(* ===================================================================== *)
(** * The mode of the salt bridges *)
(* ===================================================================== *)

Section SaltBridgeModeInRuns.
Import Py Driver Passed.
Context {U : Type} (li : Libinteract U) (os : OS).

Lemma interact_scans_no_mode (cl : cmdline) (tr : list (event U)) :
  Forall (scan_as_asked li os cl) tr →
  Forall (λ c, di_mindist c = false ∧ di_mindist_mode c = None ∧
               di_identfunc c = generateSCIdentifiers)
         (interact_scans tr).
Proof.
  induction 1 as [|e tr He _ IH]; [constructor|].
  destruct e; simpl; auto.
  constructor; [|done]. by destruct He as (? & _ & _ & _ & _ & ? & ? & _).
Qed.
End SaltBridgeModeInRuns.

(** C7 (the code against the claim). The command line accepts for
    [--sb-mode] exactly "different_charge", "same_charge" and "all", and
    the lines after the call of [parse_cgs_file] would hand the engine
    "diff", "same" and "both" for them; but no run gets there.  In every
    run, every call of [li.do_interact] is a centroid scan without a
    minimum-distance mode, and a run that was asked for the salt bridges
    ends with a non-zero status without any scan of the salt bridges:
    [parse_cgs_file] never returns. *)
Theorem sb_mode_never_reaches_engine {U} (li : Driver.Libinteract U)
        (os : Driver.OS) (cl : Driver.cmdline) :
  let r := Driver.run li os cl in
  (* the command line *)
  (∀ dir files args, Driver.parse_args dir files cl = Py.Return args →
     Driver.cgs_mode args = default "different_charge" (Driver.cl_cgs_mode cl) ∧
     (Driver.cgs_mode args = "different_charge" ∨
      Driver.cgs_mode args = "same_charge" ∨ Driver.cgs_mode args = "all")) ∧
  (∀ dir files v, Driver.cl_cgs_mode cl = Some v →
     v ≠ "different_charge" → v ≠ "same_charge" → v ≠ "all" →
     Driver.parse_args dir files cl = Py.exit 2) ∧
  (* the translation the block never reaches *)
  (Driver.translate_cgs_mode "different_charge" = "diff" ∧
   Driver.translate_cgs_mode "same_charge" = "same" ∧
   Driver.translate_cgs_mode "all" = "both" ∧
   ∀ cgs, Driver.parse_cgs_file (Driver.cfg_read os)
            (Driver.cgs_file_of os cl) ≠ Py.Return cgs) ∧
  (* the run *)
  Forall (λ c, Driver.di_mindist c = false ∧
               Driver.di_mindist_mode c = None ∧
               Driver.di_identfunc c = Driver.generateSCIdentifiers)
         (Driver.interact_scans r.2) ∧
  (Driver.cl_do_sb cl = true → Py.exit_status r.1 ≠ 0).
Proof.
  intros r. split; [|split; [|split; [|split]]].
  - intros dir files args Hargs.
    destruct (parse_args_fields _ _ _ _ Hargs)
      as (_ & _ & _ & _ & _ & Hmode & _).
    split; [by apply choice_default in Hmode|].
    apply choice_Return in Hmode as [[_ ->]|[_ Hmem]]; [by left|].
    by apply sbmode_mem.
  - intros dir files v Hv H1 H2 H3. unfold Driver.parse_args. rewrite Hv.
    assert (Driver.choice Driver.sbmode_choices Driver.sbmode_default (Some v)
            = Py.exit 2) as ->; [|reflexivity].
    unfold Driver.choice.
    destruct (Str.mem v Driver.sbmode_choices) eqn:Hmem; [|reflexivity].
    apply sbmode_mem in Hmem. by destruct Hmem as [?|[?|?]].
  - repeat split. apply parse_cgs_file_never_returns.
  - apply (interact_scans_no_mode li os cl).
    apply (steps_Forall (Driver.pyinteraph li os cl) _ _ []
             (pyinteraph_scans_as_asked li os cl)).
    constructor.
  - intros Hsb.
    destruct (parse_cgs_file_raises (Driver.cfg_read os)
                (Driver.cgs_file_of os cl)) as [[e He]|He].
    + pose proof (steps_outcome _ _ _ []
        (pyinteraph_cgs_error li os cl (Py.Exc e) (λ _, True) Hsb He
           (λ args pdb uni ff _,
              steps_weaken _ _ _ _ _
                (hydrophobic_contacts_steps li args pdb uni ff)
                (λ _ _, I) (λ _ H, H)))) as Hf.
      unfold r, Driver.run. by destruct (Driver.pyinteraph li os cl []).1.
    + pose proof (steps_outcome _ _ _ []
        (pyinteraph_cgs_error li os cl (Py.SystemExit 1) (λ _, True) Hsb He
           (λ args pdb uni ff _,
              steps_weaken _ _ _ _ _
                (hydrophobic_contacts_steps li args pdb uni ff)
                (λ _ _, I) (λ _ H, H)))) as Hf.
      unfold r, Driver.run. by destruct (Driver.pyinteraph li os cl []).1.
Qed.

(** The failing input: [-b --sb-mode same_charge] with a well-formed
    charged-groups file ends in the parser's [TypeError], before any
    call of the library. *)
Example sb_mode_same_charge_run :
  Driver.run Samples.li Samples.os MoreSamples.cl_sb_same
  = (Py.Raise (Py.Exc Py.TypeError), []).
Proof. vm_compute. reflexivity. Qed.
